(** * AutoRFCs: the fetch / diff / persist / notify cycle of [src/main.py]

    A shallow embedding of [CacheManager], [post_tweet], [pull_requests]
    and [check_for_new_pr], followed by the properties of the cycle.

    Conventions of the embedding.
    - A Python [str] is a [string]; an [int] is a [Z].
    - A Python [dict] is an association list in insertion order whose keys
      are pairwise distinct; [d[k] = v] is [dict_set], [d[k]] is
      [dict_get] (raising [KeyError] when it answers [None]).
    - The file system, the process environment, the clock and the log are
      explicit state; the two remote services are oracles.
    - In a cycle a file is kept as the JSON document its text denotes,
      and the file and network operations are taken to succeed: the
      directory of the cache file exists, a cache file that is there was
      written by an earlier cycle, and the listing request is answered.
      The text [json.dump] writes and [json.load] parses is modelled
      apart ([JsonText], [TextCache]), with the exceptions of the file
      operations, and related to the documents of the cycle. *)

From Stdlib Require Import ZArith String Ascii DecimalString DecimalZ.
From stdpp Require Import gmap strings list.

Local Open Scope Z_scope.

(** ** Python string primitives used by the program *)

Module PyStr.

(** [str(n)] for an [int]. *)
Definition str_of_Z (z : Z) : string :=
  NilZero.string_of_int (Z.to_int z).

(** [s.startswith(p)]. *)
Fixpoint startswith (p s : string) : bool :=
  match p, s with
  | EmptyString, _ => true
  | String _ _, EmptyString => false
  | String a p', String b s' =>
      if Ascii.eqb a b then startswith p' s' else false
  end.

(** [sub in s]. *)
Fixpoint contains (sub s : string) : bool :=
  startswith sub s ||
  match s with
  | EmptyString => false
  | String _ s' => contains sub s'
  end.

(** [c in chars] for a one-character [c]. *)
Fixpoint mem_char (c : ascii) (chars : string) : bool :=
  match chars with
  | EmptyString => false
  | String a chars' => Ascii.eqb c a || mem_char c chars'
  end.

(** [s.lstrip(chars)]. *)
Fixpoint lstrip (chars s : string) : string :=
  match s with
  | EmptyString => EmptyString
  | String c s' => if mem_char c chars then lstrip chars s' else s
  end.

(** [s.rstrip(chars)]: a character is dropped when it belongs to
    [chars] and everything after it has been dropped. *)
Fixpoint rstrip (chars s : string) : string :=
  match s with
  | EmptyString => EmptyString
  | String c s' =>
      match rstrip chars s' with
      | EmptyString => if mem_char c chars then EmptyString
                       else String c EmptyString
      | r => String c r
      end
  end.

(** [s.strip(chars)]. *)
Definition strip (chars s : string) : string :=
  rstrip chars (lstrip chars s).

(** [s.replace(old, new)]: the occurrences of [old] are found from the
    left and do not overlap. [skip] counts the characters of a matched
    occurrence that are still to be passed over. *)
Fixpoint replace_from (skip : nat) (old new s : string) : string :=
  match s with
  | EmptyString =>
      match old with EmptyString => new | _ => EmptyString end
  | String c s' =>
      match skip with
      | S k => replace_from k old new s'
      | O =>
          match old with
          | EmptyString => new +:+ String c (replace_from O old new s')
          | String _ old' =>
              if startswith old s
              then new +:+ replace_from (String.length old') old new s'
              else String c (replace_from O old new s')
          end
      end
  end.

Definition replace (old new s : string) : string :=
  replace_from O old new s.

Fixpoint all_chars (p : ascii -> bool) (s : string) : bool :=
  match s with
  | EmptyString => true
  | String c s' => p c && all_chars p s'
  end.

(** One of the ten ASCII digits. *)
Definition is_digit (c : ascii) : bool := mem_char c "0123456789".

(** A character [str(n)] can hold. *)
Definition decimal_char (c : ascii) : bool := mem_char c "-0123456789".

(** The newline character of the tweet template. *)
Definition nl : string := String (ascii_of_nat 10) EmptyString.

End PyStr.

(** ** Data model *)

(** The record [pull_requests] builds for one pull request. The fields
    are listed in the order a key-sorted dump gives them. *)
Record PullRequestRecord := {
  author : string;
  created_at : string;
  number : Z;
  title : string;
  url : string
}.

Global Instance PullRequestRecord_eq_dec : EqDecision PullRequestRecord.
Proof. solve_decision. Defined.

(** Python dictionaries: association lists in insertion order. *)
Module PyDict.
Section Dict.
Context {K V : Type} `{EqDecision K}.

(** [d[k]], [None] standing for [KeyError]. *)
Fixpoint dict_get (k : K) (d : list (K * V)) : option V :=
  match d with
  | [] => None
  | (k', v) :: d' => if decide (k = k') then Some v else dict_get k d'
  end.

(** [d[k] = v]: an existing key keeps its place, a new key goes last. *)
Fixpoint dict_set (k : K) (v : V) (d : list (K * V)) : list (K * V) :=
  match d with
  | [] => [(k, v)]
  | (k', v') :: d' =>
      if decide (k = k') then (k, v) :: d' else (k', v') :: dict_set k v d'
  end.

(** The dictionary built by assigning the pairs of [items] in turn. *)
Definition dict_of_items (items : list (K * V)) : list (K * V) :=
  fold_left (fun d kv => dict_set kv.1 kv.2 d) items [].

(** [d1 == d2] for dictionaries: same keys, same values, any order. *)
Definition dict_eq (d1 d2 : list (K * V)) : Prop :=
  forall k, dict_get k d1 = dict_get k d2.
End Dict.
End PyDict.
Export PyDict.

(** A snapshot: the open pull requests keyed by the decimal text of their
    identifier, as [json.loads] returns it. *)
Definition Snapshot : Type := list (string * PullRequestRecord).

(** What [pull_requests] returns and what the cache functions are handed:
    a snapshot, or Python's [None]. *)
Definition PyData : Type := option Snapshot.

(** ** Python values and the JSON text of a value *)

(** The values [json] writes and reads, floats apart: [None], booleans,
    integers, strings, lists, tuples and dictionaries with string keys.
    A character of a string is a code point below 256. *)
#[warnings="-register-all"] Inductive pyobj :=
| PyNone
| PyBool (b : bool)
| PyInt (z : Z)
| PyStr (s : string)
| PyList (items : list pyobj)
| PyTuple (items : list pyobj)
| PyDict (items : list (string * pyobj)).




Module JsonText.

(** The result of reading a text: a value, or [JSONDecodeError], or a
    text that holds what the values above cannot show (a float, [NaN],
    [Infinity], a character above 255). *)
Inductive outcome (A : Type) :=
| Value (a : A)
| Malformed
| Unmodelled.
Arguments Value {A} a.
Arguments Malformed {A}.
Arguments Unmodelled {A}.

Definition and_then {A B} (o : outcome A) (k : A -> outcome B) : outcome B :=
  match o with
  | Value a => k a
  | Malformed => Malformed
  | Unmodelled => Unmodelled
  end.

(** A value read at the head of a text, and the text that follows it. *)
Definition parsed (A : Type) : Type := outcome (A * string).

Definition quote : ascii := ascii_of_nat 34.
Definition backslash : ascii := ascii_of_nat 92.

(** *** Writing: [json.dump(data, cache, indent=4)] *)

Definition hex_digit (n : nat) : ascii :=
  nth n (list_ascii_of_string "0123456789abcdef") "0"%char.

(** The text of one character inside a string, with [ensure_ascii]:
    the short escapes, the character itself from space to tilde, and
    [\u00xx] for the others. *)
Definition escape (c : ascii) : string :=
  let n := nat_of_ascii c in
  if Ascii.eqb c quote then String backslash (String quote EmptyString)
  else if Ascii.eqb c backslash
  then String backslash (String backslash EmptyString)
  else if (n =? 8)%nat then String backslash "b"
  else if (n =? 9)%nat then String backslash "t"
  else if (n =? 10)%nat then String backslash "n"
  else if (n =? 12)%nat then String backslash "f"
  else if (n =? 13)%nat then String backslash "r"
  else if (32 <=? n)%nat && (n <=? 126)%nat then String c EmptyString
  else String backslash
         (String "u" (String "0" (String "0"
            (String (hex_digit (n / 16))
               (String (hex_digit (n mod 16)) EmptyString))))).

Fixpoint escape_all (s : string) : string :=
  match s with
  | EmptyString => EmptyString
  | String c s' => escape c +:+ escape_all s'
  end.

(** [encode_basestring_ascii]. *)
Definition encode_string (s : string) : string :=
  String quote (escape_all s +:+ String quote EmptyString).

Fixpoint spaces (n : nat) : string :=
  match n with
  | O => EmptyString
  | S n' => String " " (spaces n')
  end.

(** A line break followed by the indentation of a nesting level. *)
Definition newline_indent (level : nat) : string :=
  PyStr.nl +:+ spaces (4 * level).

Section Items.
Context {A : Type} (item : A -> string) (separator closing : string).

(** What follows the first item of a list or of a dictionary: each
    further item after a separator, then the closing text. *)
Fixpoint items_tail (l : list A) : string :=
  match l with
  | [] => closing
  | x :: l' => separator +:+ item x +:+ items_tail l'
  end.
End Items.

(** The text written for a value that starts at a nesting level. A
    tuple is written as a list is. *)
Fixpoint dump (level : nat) (v : pyobj) : string :=
  match v with
  | PyNone => "null"
  | PyBool true => "true"
  | PyBool false => "false"
  | PyInt z => PyStr.str_of_Z z
  | PyStr s => encode_string s
  | PyList [] | PyTuple [] => "[]"
  | PyList (x :: l) | PyTuple (x :: l) =>
      "[" +:+ newline_indent (S level) +:+ dump (S level) x +:+
      items_tail (dump (S level))
                 ("," +:+ newline_indent (S level))
                 (newline_indent level +:+ "]") l
  | PyDict [] => "{}"
  | PyDict (kv :: d) =>
      let member (kv : string * pyobj) :=
        encode_string kv.1 +:+ ": " +:+ dump (S level) kv.2 in
      "{" +:+ newline_indent (S level) +:+ member kv +:+
      items_tail member
                 ("," +:+ newline_indent (S level))
                 (newline_indent level +:+ "}") d
  end.

(** *** Reading: [json.load(cache)] *)

(** The four characters the decoder passes over between tokens. *)
Definition is_ws (c : ascii) : bool :=
  let n := nat_of_ascii c in
  (n =? 32)%nat || (n =? 9)%nat || (n =? 10)%nat || (n =? 13)%nat.

Fixpoint skip_ws (s : string) : string :=
  match s with
  | String c s' => if is_ws c then skip_ws s' else s
  | EmptyString => EmptyString
  end.

Definition hex_value (c : ascii) : option nat :=
  let n := nat_of_ascii c in
  if (48 <=? n)%nat && (n <=? 57)%nat then Some (n - 48)%nat
  else if (97 <=? n)%nat && (n <=? 102)%nat then Some (n - 87)%nat
  else if (65 <=? n)%nat && (n <=? 70)%nat then Some (n - 55)%nat
  else None.

(** The character a short escape stands for. *)
Definition unescape (c : ascii) : option ascii :=
  if Ascii.eqb c quote then Some quote
  else if Ascii.eqb c backslash then Some backslash
  else if Ascii.eqb c "/" then Some "/"%char
  else if Ascii.eqb c "b" then Some (ascii_of_nat 8)
  else if Ascii.eqb c "f" then Some (ascii_of_nat 12)
  else if Ascii.eqb c "n" then Some (ascii_of_nat 10)
  else if Ascii.eqb c "r" then Some (ascii_of_nat 13)
  else if Ascii.eqb c "t" then Some (ascii_of_nat 9)
  else None.

Definition push (c : ascii) (p : parsed string) : parsed string :=
  and_then p (fun tr => Value (String c tr.1, tr.2)).

(** [scanstring], strict, from the character after the opening quote
    to the closing quote. *)
Fixpoint scanstring (s : string) : parsed string :=
  match s with
  | EmptyString => Malformed
  | String c s' =>
      if Ascii.eqb c quote then Value (EmptyString, s')
      else if Ascii.eqb c backslash then
        match s' with
        | EmptyString => Malformed
        | String e s'' =>
            if Ascii.eqb e "u" then
              match s'' with
              | String h1 (String h2 (String h3 (String h4 rest))) =>
                  match hex_value h1, hex_value h2,
                        hex_value h3, hex_value h4 with
                  | Some n1, Some n2, Some n3, Some n4 =>
                      if (n1 =? 0)%nat && (n2 =? 0)%nat
                      then push (ascii_of_nat (16 * n3 + n4)) (scanstring rest)
                      else Unmodelled
                  | _, _, _, _ => Malformed
                  end
              | _ => Malformed
              end
            else
              match unescape e with
              | Some ch => push ch (scanstring s'')
              | None => Malformed
              end
        end
      else if (nat_of_ascii c <? 32)%nat then Malformed
      else push c (scanstring s')
  end.

(** The longest head of a text made of digits, and what follows it. *)
Fixpoint span_digits (s : string) : string * string :=
  match s with
  | String c s' =>
      if PyStr.is_digit c
      then let (ds, rest) := span_digits s' in (String c ds, rest)
      else (EmptyString, s)
  | EmptyString => (EmptyString, EmptyString)
  end.

(** A fraction or an exponent follows: the number is a float. *)
Definition float_follows (s : string) : bool :=
  match s with
  | String c s' =>
      if Ascii.eqb c "." then
        match s' with
        | String d _ => PyStr.is_digit d
        | EmptyString => false
        end
      else if Ascii.eqb c "e" || Ascii.eqb c "E" then
        match s' with
        | String d s'' =>
            PyStr.is_digit d ||
            ((Ascii.eqb d "+" || Ascii.eqb d "-") &&
             match s'' with
             | String d' _ => PyStr.is_digit d'
             | EmptyString => false
             end)
        | EmptyString => false
        end
      else false
  | EmptyString => false
  end.

(** The number at the head of a text: an optional minus sign, then a
    zero or a digit from 1 to 9 followed by digits ([NUMBER_RE]). *)
Definition scan_number (s : string) : parsed pyobj :=
  let (sign, s1) :=
    match s with
    | String c s' =>
        if Ascii.eqb c "-" then ("-", s') else (EmptyString, s)
    | EmptyString => (EmptyString, s)
    end in
  let (ds, rest) := span_digits s1 in
  match ds with
  | EmptyString =>
      if PyStr.startswith "NaN" s || PyStr.startswith "Infinity" s ||
         PyStr.startswith "-Infinity" s
      then Unmodelled else Malformed
  | String d ds' =>
      let (integer, rest) :=
        if Ascii.eqb d "0" then ("0", ds' +:+ rest) else (ds, rest) in
      if float_follows rest then Unmodelled
      else
        match NilZero.int_of_string (sign +:+ integer) with
        | Some i => Value (PyInt (Z.of_int i), rest)
        | None => Malformed
        end
  end.

Fixpoint drop (n : nat) (s : string) : string :=
  match n, s with
  | S n', String _ s' => drop n' s'
  | _, _ => s
  end.

Section Loops.
Variable value : string -> parsed pyobj.

(** The loop of [JSONArray], from the place of an item. *)
Fixpoint array_items (fuel : nat) (s : string) : parsed (list pyobj) :=
  match fuel with
  | O => Malformed
  | S fuel' =>
      and_then (value s) (fun vr =>
        match skip_ws vr.2 with
        | String c r =>
            if Ascii.eqb c "," then
              and_then (array_items fuel' (skip_ws r)) (fun vsr =>
                Value (vr.1 :: vsr.1, vsr.2))
            else if Ascii.eqb c "]" then Value ([vr.1], r)
            else Malformed
        | EmptyString => Malformed
        end)
  end.

(** The loop of [JSONObject], from the place of a name. *)
Fixpoint object_items (fuel : nat) (s : string)
  : parsed (list (string * pyobj)) :=
  match fuel with
  | O => Malformed
  | S fuel' =>
      match s with
      | String q s1 =>
          if Ascii.eqb q quote then
            and_then (scanstring s1) (fun kr =>
              match skip_ws kr.2 with
              | String c r =>
                  if Ascii.eqb c ":" then
                    and_then (value (skip_ws r)) (fun vr =>
                      match skip_ws vr.2 with
                      | String c' r' =>
                          if Ascii.eqb c' "," then
                            and_then (object_items fuel' (skip_ws r'))
                              (fun kvsr =>
                                 Value ((kr.1, vr.1) :: kvsr.1, kvsr.2))
                          else if Ascii.eqb c' "}"
                          then Value ([(kr.1, vr.1)], r')
                          else Malformed
                      | EmptyString => Malformed
                      end)
                  else Malformed
              | EmptyString => Malformed
              end)
          else Malformed
      | EmptyString => Malformed
      end
  end.
End Loops.

(** [scan_once]: the value at the head of a text. The fuel bounds the
    nesting and the number of items of a list or dictionary; the length
    of the text is enough, since a value and an item take a character
    at least. *)
Fixpoint scan_once (fuel : nat) (s : string) : parsed pyobj :=
  match fuel with
  | O => Malformed
  | S fuel' =>
      match s with
      | EmptyString => Malformed
      | String c s' =>
          if Ascii.eqb c quote then
            and_then (scanstring s') (fun tr => Value (PyStr tr.1, tr.2))
          else if Ascii.eqb c "{" then
            match skip_ws s' with
            | String c' r =>
                if Ascii.eqb c' "}" then Value (PyDict [], r)
                else
                  and_then (object_items (scan_once fuel') fuel' (skip_ws s'))
                    (fun kvsr => Value (PyDict (dict_of_items kvsr.1), kvsr.2))
            | EmptyString => Malformed
            end
          else if Ascii.eqb c "[" then
            match skip_ws s' with
            | String c' r =>
                if Ascii.eqb c' "]" then Value (PyList [], r)
                else
                  and_then (array_items (scan_once fuel') fuel' (skip_ws s'))
                    (fun vsr => Value (PyList vsr.1, vsr.2))
            | EmptyString => Malformed
            end
          else if PyStr.startswith "null" s then Value (PyNone, drop 4 s)
          else if PyStr.startswith "true" s then Value (PyBool true, drop 4 s)
          else if PyStr.startswith "false" s
          then Value (PyBool false, drop 5 s)
          else scan_number s
      end
  end.

(** [json.loads(text)]: one value, with nothing but blanks around it. *)
Definition loads (text : string) : outcome pyobj :=
  and_then (scan_once (String.length text) (skip_ws text)) (fun vr =>
    match skip_ws vr.2 with
    | EmptyString => Value vr.1
    | String _ _ => Malformed
    end).

(** What a value is read back as: its tuples are lists, and each of
    its dictionaries is the one built from its items in turn. *)
Fixpoint as_loaded (v : pyobj) : pyobj :=
  match v with
  | PyList l | PyTuple l => PyList (map as_loaded l)
  | PyDict d =>
      PyDict (dict_of_items
                (map (fun kv : string * pyobj => (kv.1, as_loaded kv.2)) d))
  | _ => v
  end.

End JsonText.

(** *** Notions about the text of a value *)

Section TextNotions.
Import JsonText.

(** The first character of a text is one a value can start with: not a
    blank, and not a closing bracket or brace. *)
Definition starts_value (s : string) : bool :=
  match s with
  | String c _ =>
      negb (is_ws c) && negb (Ascii.eqb c "]") && negb (Ascii.eqb c "}")
  | EmptyString => false
  end.

(** The text after a number does not go on with a digit, a fraction or
    an exponent. *)
Definition ends_number (rest : string) : bool :=
  negb (float_follows rest) &&
  match rest with
  | String c _ => negb (PyStr.is_digit c)
  | EmptyString => true
  end.

(** The number of values a value is made of. *)
Fixpoint weight (v : pyobj) : nat :=
  match v with
  | PyList l | PyTuple l => S (list_sum (map weight l))
  | PyDict d =>
      S (list_sum (map (fun kv : string * pyobj => weight kv.2) d))
  | _ => 1
  end.

(** The text of one item of a dictionary. *)
Definition member_text (level : nat) (kv : string * pyobj) : string :=
  encode_string kv.1 +:+ ": " +:+ dump (S level) kv.2.

End TextNotions.

(** The Python value of a record and of the data of a cycle. The fields
    of a record come in the order of its keys. *)
Definition obj_of_record (r : PullRequestRecord) : pyobj :=
  PyDict [ ("author", PyStr (author r));
           ("created_at", PyStr (created_at r));
           ("number", PyInt (number r));
           ("title", PyStr (title r));
           ("url", PyStr (url r)) ].

Definition obj_of_data (data : PyData) : pyobj :=
  match data with
  | None => PyNone
  | Some d =>
      PyDict (map (fun kr : string * PullRequestRecord =>
                     (kr.1, obj_of_record kr.2)) d)
  end.

(** ** JSON documents *)

Module Json.

(** The documents the program reads and writes: [null], or an object
    whose members are pull-request records. An object keeps its members
    in the order of the text and may repeat a name. *)
Inductive doc :=
| JNull
| JObject (members : list (string * PullRequestRecord)).

Global Instance doc_eq_dec : EqDecision doc.
Proof. solve_decision. Defined.

(** The document [json.dump] writes for data whose keys are strings;
    its text is [text] below. *)
Definition dumps (data : PyData) : doc :=
  match data with
  | None => JNull
  | Some d => JObject d
  end.

(** What [json.load] returns for the text of a document: a repeated
    name keeps its first place and its last value. *)
Definition loads (j : doc) : PyData :=
  match j with
  | JNull => None
  | JObject ms => Some (dict_of_items ms)
  end.

(** The text of a document, as [json.dump(data, cache, indent=4)] lays
    it out. *)
Definition text (j : doc) : string :=
  JsonText.dump 0
    (obj_of_data match j with
                 | JNull => None
                 | JObject ms => Some ms
                 end).

(** [sorted(d.items())] for integer keys, by insertion. *)
Fixpoint insert_by_key {V} (kv : Z * V) (l : list (Z * V)) : list (Z * V) :=
  match l with
  | [] => [kv]
  | kv' :: l' =>
      if kv.1 <=? kv'.1 then kv :: l else kv' :: insert_by_key kv l'
  end.

Definition sorted_items {V} (d : list (Z * V)) : list (Z * V) :=
  foldr insert_by_key [] d.

(** [json.dumps(prs, sort_keys=True)] for the integer-keyed [prs]: the
    members come in increasing key order and each key is written as
    its decimal text. *)
Definition dumps_sort_keys (prs : list (Z * PullRequestRecord)) : doc :=
  JObject (map (fun kv => (PyStr.str_of_Z kv.1, kv.2)) (sorted_items prs)).

End Json.

(** ** The difference library, on the data this program hands it

    [deepdiff.DeepDiff(t1, t2, ignore_order=True).to_json()] read back
    with [json.loads]. Both arguments are [None] or a dictionary of
    records, so the report can only hold [type_changes] (at the root),
    [dictionary_item_added], [dictionary_item_removed] and
    [values_changed]; a kind with nothing to report is left out.
    [ignore_order] concerns sequences, and there are none. The keys are
    those of the snapshots of this program, decimal identifiers: a path
    is written as the library writes it for a key without a quote, and
    no key starts with two underscores (a key the library would leave
    out).

    The program pins no version of the library and passes no option but
    [ignore_order], so the defaults of the current releases apply
    (deepdiff 8 and later). Among them is [threshold_to_diff_deeper =
    0.33]: two dictionaries that share less than this part of their
    keys are not compared key by key, and the report holds one
    [values_changed] entry for the whole dictionary. *)

Module DeepDiff.

(** A value shown in a change: a leaf of a record, or a whole
    dictionary of records. *)
Inductive value := VStr (s : string) | VInt (z : Z) | VDict (d : Snapshot).

Global Instance value_eq_dec : EqDecision value.
Proof. solve_decision. Defined.

Record change := { new_value : value; old_value : value }.

Record type_change := {
  old_type : string;
  new_type : string;
  old_root : PyData;
  new_root : PyData
}.

(** The content found under one kind of the report. *)
Inductive entry :=
| Paths (ps : list string)
| ValuesChanged (cs : list (string * change))
| TypeChanges (cs : list (string * type_change)).

(** The report, a dictionary from the name of a kind to its content. *)
Definition report : Type := list (string * entry).

(** The path of a top-level key, written for a string key that holds
    no quote character (the decimal identifiers of this program). *)
Definition path_of_key (k : string) : string :=
  "root['" +:+ k +:+ "']".

Definition path_of_field (k f : string) : string :=
  path_of_key k +:+ "['" +:+ f +:+ "']".

(** The items of a record, in the order of its keys. *)
Definition fields (r : PullRequestRecord) : list (string * value) :=
  [ ("author", VStr (author r));
    ("created_at", VStr (created_at r));
    ("number", VInt (number r));
    ("title", VStr (title r));
    ("url", VStr (url r)) ].

(** The leaves that differ between two records stored under [k]. *)
Definition diff_record (k : string) (old new : PullRequestRecord)
  : list (string * change) :=
  flat_map
    (fun p : (string * value) * (string * value) =>
       if decide (p.1.2 = p.2.2) then []
       else [(path_of_field k p.1.1,
              {| new_value := p.2.2; old_value := p.1.2 |})])
    (zip (fields old) (fields new)).

(** Keys of [t2] missing from [t1], in the order of [t2]. *)
Definition keys_added (t1 t2 : Snapshot) : list string :=
  filter (fun k => k ∉ t1.*1) t2.*1.

(** Keys of [t1] missing from [t2], in the order of [t1]. *)
Definition keys_removed (t1 t2 : Snapshot) : list string :=
  filter (fun k => k ∉ t2.*1) t1.*1.

(** Keys of both, in the order of [t2]. *)
Definition keys_common (t1 t2 : Snapshot) : list string :=
  filter (fun k => k ∈ t1.*1) t2.*1.

Definition values_changed (t1 t2 : Snapshot) : list (string * change) :=
  flat_map
    (fun k =>
       match dict_get k t1, dict_get k t2 with
       | Some old, Some new => diff_record k old new
       | _, _ => []
       end)
    (keys_common t1 t2).

(** A kind appears in the report only when it has something to show. *)
Definition kind {A} (name : string) (mk : list A -> entry) (l : list A)
  : report :=
  match l with
  | [] => []
  | _ => [(name, mk l)]
  end.

Definition type_name (d : PyData) : string :=
  match d with
  | None => "NoneType"
  | Some _ => "dict"
  end.

(** [set(t.keys())]: the keys, each once. *)
Definition key_set (t : Snapshot) : list string := remove_dups t.*1.

(** [t2_keys & t1_keys] and [t2_keys | t1_keys]. *)
Definition keys_intersect (t1 t2 : Snapshot) : list string :=
  filter (fun k => k ∈ t1.*1) (key_set t2).

Definition keys_union (t1 t2 : Snapshot) : list string :=
  key_set t1 ++ filter (fun k => k ∉ t1.*1) (key_set t2).

(** The test made on two dictionaries before their keys are compared:
    [t_keys_union_len > 1 and
     len(t_keys_intersect) / t_keys_union_len < threshold_to_diff_deeper]
    with the default threshold 0.33. The quotient is compared here as
    the fraction it is; the floating-point comparison of the library
    gives the same answer for dictionaries of less than 10^14 keys. *)
Definition too_distant (t1 t2 : Snapshot) : bool :=
  let union_len := length (keys_union t1 t2) in
  let intersect_len := length (keys_intersect t1 t2) in
  (1 <? union_len)%nat && (100 * intersect_len <? 33 * union_len)%nat.

(** The comparison key by key. *)
Definition diff_deeper (d1 d2 : Snapshot) : report :=
  kind "dictionary_item_added" Paths
       (map path_of_key (keys_added d1 d2)) ++
  kind "dictionary_item_removed" Paths
       (map path_of_key (keys_removed d1 d2)) ++
  kind "values_changed" ValuesChanged (values_changed d1 d2).

(** The report on two dictionaries that are too distant: one change, of
    the root. *)
Definition root_changed (d1 d2 : Snapshot) : report :=
  [("values_changed",
    ValuesChanged [("root", {| new_value := VDict d2;
                               old_value := VDict d1 |})])].

Definition diff (t1 t2 : PyData) : report :=
  match t1, t2 with
  | None, None => []
  | Some d1, Some d2 =>
      if too_distant d1 d2 then root_changed d1 d2 else diff_deeper d1 d2
  | _, _ =>
      [("type_changes",
        TypeChanges [("root", {| old_type := type_name t1;
                                 new_type := type_name t2;
                                 old_root := t1;
                                 new_root := t2 |})])]
  end.

End DeepDiff.

(** ** The world the program runs in *)

(** The exceptions of a run. [Unmodelled] is not one of Python: it
    marks a run that meets what the values of the model cannot show. *)
Inductive exn :=
| KeyError (key : string)
| TypeError (msg : string)
| FileNotFoundError (path : string)
| OSError (path : string)
| JSONDecodeError
| Unmodelled (what : string).

Inductive level := INFO | ERROR.

(** What the program does to the outside, in the order it does it. *)
Inductive event :=
| Logged (lvl : level) (msg : string)
| HttpGet (address : string)
| HttpPost (address text : string)
           (consumer_key consumer_secret token token_secret : string)
| Slept (seconds : Z).

(** The answer of the repository host to the one listing request. *)
Record gh_pull := {
  gh_id : Z;
  gh_title : string;
  gh_number : Z;
  gh_links_html_href : string;
  gh_user_html_url : string;
  gh_created_at : string
}.

Record Response := {
  status_code : Z;
  json_body : list gh_pull
}.

(** What [twitter.post] does: it answers, or it raises. *)
Inductive post_outcome :=
| Answered (text : string)
| RaisedValueError (msg : string)
| RaisedException (msg : string).

(** The surroundings a run cannot change: the process environment and the
    two remote services. The publishing service may answer differently at
    each call, so it is asked with the number of earlier posts. *)
Record Services := {
  environ : gmap string string;
  github : string -> Response;
  twitter : nat -> string -> post_outcome
}.

(** The state a run changes: the JSON files, the clock (in seconds) and
    the events so far, each stamped with the clock. *)
Record World := {
  files : gmap string Json.doc;
  clock : Z;
  trace : list (Z * event)
}.

Inductive result (A : Type) :=
| Ret (a : A)
| Raise (e : exn).
Arguments Ret {A} a.
Arguments Raise {A} e.

(** Computations: state passing with exceptions. *)
Definition M (A : Type) : Type := World -> result A * World.

Definition ret {A} (a : A) : M A := fun w => (Ret a, w).

Definition raise {A} (e : exn) : M A := fun w => (Raise e, w).

Definition bind {A B} (m : M A) (k : A -> M B) : M B :=
  fun w =>
    match m w with
    | (Ret a, w') => k a w'
    | (Raise e, w') => (Raise e, w')
    end.

Notation "'let*' x ':=' m 'in' k" := (bind m (fun x => k))
  (at level 10, x name, m at level 100, k at level 200).
Notation "m ';;' k" := (bind m (fun _ => k))
  (at level 100, k at level 200, right associativity).

(** A [for] loop over a list: an exception ends it. *)
Fixpoint for_each {A} (l : list A) (body : A -> M unit) : M unit :=
  match l with
  | [] => ret tt
  | x :: l' => body x ;; for_each l' body
  end.

(** An event is added to the trace. For a logging call the event stands
    for the line the two handlers of [__main__] write: one to the
    stream, one appended to the log file. *)
Definition emit (e : event) : M unit :=
  fun w => (Ret tt,
            {| files := files w; clock := clock w;
               trace := trace w ++ [(clock w, e)] |}).

Definition logging_info (msg : string) : M unit := emit (Logged INFO msg).
Definition logging_error (msg : string) : M unit := emit (Logged ERROR msg).

(** [time.sleep(n)]: at least [n] seconds pass; the model lets exactly
    [n] pass, and nothing else moves the clock. *)
Definition time_sleep (n : Z) : M unit :=
  fun w => (Ret tt,
            {| files := files w; clock := clock w + n;
               trace := trace w ++ [(clock w, Slept n)] |}).

(** [os.environ[name]]. *)
Definition os_environ (sv : Services) (name : string) : M string :=
  match environ sv !! name with
  | Some v => ret v
  | None => raise (KeyError name)
  end.

(** [os.path.isfile(path)]. *)
Definition os_path_isfile (path : string) : M bool :=
  fun w => (Ret (bool_decide (is_Some (files w !! path))), w).

(** [json.dump(data, open(path, 'w'), indent=4)], the file kept as the
    document written. The [open] is taken to succeed; its failure is in
    [TextCache.save_data_to_cache]. *)
Definition write_json (path : string) (data : PyData) : M unit :=
  fun w => (Ret tt,
            {| files := <[path := Json.dumps data]> (files w);
               clock := clock w; trace := trace w |}).

(** [json.load(open(path, 'r'))]: a file that is there holds a document
    (it was written by [write_json]); a text that is not JSON is in
    [TextCache.load_data_from_cache]. *)
Definition read_json (path : string) : M PyData :=
  fun w =>
    match files w !! path with
    | Some j => (Ret (Json.loads j), w)
    | None => (Raise (FileNotFoundError path), w)
    end.

(** ** Observations on a trace *)

Definition post_text (te : Z * event) : option string :=
  match te.2 with
  | HttpPost _ text _ _ _ _ => Some text
  | _ => None
  end.

Definition post_time (te : Z * event) : option Z :=
  match te.2 with
  | HttpPost _ _ _ _ _ _ => Some te.1
  | _ => None
  end.

Definition error_text (te : Z * event) : option string :=
  match te.2 with
  | Logged ERROR msg => Some msg
  | _ => None
  end.

(** The texts handed to the publishing service, in order: one per call of
    [post_tweet] that reaches [twitter.post]. *)
Definition published (tr : list (Z * event)) : list string :=
  omap post_text tr.

(** The clock at each of these calls. *)
Definition publish_times (tr : list (Z * event)) : list Z :=
  omap post_time tr.

(** The messages logged as errors. *)
Definition errors_logged (tr : list (Z * event)) : list string :=
  omap error_text tr.

(** ** The program *)

(** [os.path.join(a, b)] on a POSIX host. *)
Definition os_path_join (a b : string) : string :=
  match a with
  | EmptyString => b
  | _ =>
      if PyStr.startswith "/" b then b
      else if PyStr.startswith "/" (String.rev a) then a +:+ b
      else a +:+ "/" +:+ b
  end.

Module CacheManager.

(** [save_data_to_cache]: save data to a JSON file. *)
Definition save_data_to_cache (filename : string) (data : PyData) : M unit :=
  write_json filename data.

(** [load_data_from_cache]: load data from a JSON file. *)
Definition load_data_from_cache (filename : string) : M PyData :=
  read_json filename.

(** [get_cache_difference]: compare the provided data with the cached
    data; a missing file is created from the data and nothing is
    reported. *)
Definition get_cache_difference (filename : string) (data : PyData)
  : M DeepDiff.report :=
  let full_path := os_path_join EmptyString filename in
  let* present := os_path_isfile full_path in
  if negb present then
    save_data_to_cache full_path data ;;
    ret []
  else
    let* cached_data := load_data_from_cache full_path in
    let result := DeepDiff.diff cached_data data in
    if (length result =? 0)%nat then ret [] else ret result.

End CacheManager.

(** *** The two cache functions on the text of the file

    In a cycle a file is kept as the JSON document its text denotes.
    Here the same two functions are taken one level down, for any value
    and on the text itself: [json.dump] lays the value out and
    [json.load] parses what the file holds. *)

(** The files as the system keeps them: their text, and the paths at
    which [open(path, 'w')] succeeds (the directory is there and may be
    written to). *)
Record Disk := {
  texts : gmap string string;
  writable : string -> bool
}.

Module TextCache.

(** [save_data_to_cache]: [open] raises an [OSError]
    ([FileNotFoundError] for a missing directory) or the file is
    replaced by the text of the data. *)
Definition save_data_to_cache (filename : string) (data : pyobj) (dk : Disk)
  : result unit * Disk :=
  if writable dk filename then
    (Ret tt, {| texts := <[filename := JsonText.dump 0 data]> (texts dk);
                writable := writable dk |})
  else (Raise (OSError filename), dk).

(** [load_data_from_cache]: [open] raises [FileNotFoundError] on a
    missing file, [json.load] raises [JSONDecodeError] on a text that is
    not JSON. *)
Definition load_data_from_cache (filename : string) (dk : Disk)
  : result pyobj * Disk :=
  match texts dk !! filename with
  | None => (Raise (FileNotFoundError filename), dk)
  | Some text =>
      match JsonText.loads text with
      | JsonText.Value v => (Ret v, dk)
      | JsonText.Malformed => (Raise JSONDecodeError, dk)
      | JsonText.Unmodelled =>
          (Raise (Unmodelled "a float or a character above 255"), dk)
      end
  end.

End TextCache.

(** The disk that holds the text of each document of a world. *)
Definition disk_of (w : World) (writable : string -> bool) : Disk :=
  {| texts := Json.text <$> files w; writable := writable |}.

(** [twitter.post(url, headers, data)]: the request is recorded and the
    service decides the outcome. *)
Definition twitter_post (sv : Services) (address text : string)
    (consumer_key consumer_secret token token_secret : string)
  : M post_outcome :=
  fun w =>
    (Ret (twitter sv (length (published (trace w))) text),
     {| files := files w; clock := clock w;
        trace := trace w ++
                 [(clock w, HttpPost address text consumer_key
                                     consumer_secret token token_secret)] |}).

(** [post_tweet]: both handlers log and return [None]. *)
Definition post_tweet (sv : Services) (text : string)
    (consumer_key consumer_secret access_token access_token_secret : string)
  : M (option string) :=
  logging_info "Composing tweet, please wait..." ;;
  let address := "https://api.twitter.com/2/tweets" in
  let* response := twitter_post sv address text consumer_key consumer_secret
                                access_token access_token_secret in
  match response with
  | Answered body =>
      logging_info "Executed tweet" ;;
      ret (Some body)
  | RaisedValueError e =>
      logging_error ("Invalid data input: " +:+ e) ;;
      ret None
  | RaisedException e =>
      logging_error ("An error occurred: " +:+ e) ;;
      ret None
  end.

(** [requests.get(url, params)], taken to be answered: the answer is the
    one of the oracle, with a status and, read by [response.json()], a
    list of pull requests. A request that raises (no network, a body
    that is not JSON) is not modelled. *)
Definition requests_get (sv : Services) (address : string) : M Response :=
  emit (HttpGet address) ;;
  ret (github sv address).

(** The dictionary literal of the loop of [pull_requests]. *)
Definition record_of (pr : gh_pull) : PullRequestRecord :=
  {| title := gh_title pr;
     number := gh_number pr;
     url := gh_links_html_href pr;
     author := gh_user_html_url pr;
     created_at := gh_created_at pr |}.

(** The loop of [pull_requests]: [prs[pr['id']] = {...}] for each item. *)
Definition collect (body : list gh_pull) : list (Z * PullRequestRecord) :=
  fold_left (fun prs pr => dict_set (gh_id pr) (record_of pr) prs) body [].

(** The address of the listing of a repository. *)
Definition listing_address (owner repo : string) : string :=
  "https://api.github.com/repos/" +:+ owner +:+ "/" +:+ repo +:+ "/pulls".

(** [pull_requests]: the open pull requests, or [None] when the answer is
    not a success. *)
Definition pull_requests (sv : Services) (owner repo : string) : M PyData :=
  let address := listing_address owner repo in
  let* response := requests_get sv address in
  logging_info ("Pulling PRs from " +:+ address +:+ ", please wait...") ;;
  if status_code response =? 200 then
    let prs := collect (json_body response) in
    ret (Json.loads (Json.dumps_sort_keys prs))
  else
    logging_error ("Failed to fetch pull requests: " +:+
                   PyStr.str_of_Z (status_code response)) ;;
    ret None.

Definition cache_file : string := "../data/pull_requests.json".

(** [index.strip('root')] followed by the two [replace] calls, which
    delete the opening bracket-quote and the closing quote-bracket. *)
Definition parse_index (index : string) : string :=
  PyStr.replace "']" EmptyString (PyStr.replace "['" EmptyString (PyStr.strip "root" index)).

(** The message template. *)
Definition tweet_text (data : PullRequestRecord) : string :=
  PyStr.nl +:+
  "A new @Polkadot RFC has been raised! #RFC" +:+
  PyStr.str_of_Z (number data) +:+ " #Polkadot" +:+ PyStr.nl +:+
  PyStr.nl +:+
  "Title: " +:+ title data +:+ PyStr.nl +:+
  "Author: " +:+ author data +:+ PyStr.nl +:+
  PyStr.nl +:+
  url data +:+ PyStr.nl +:+
  "                    ".

(** [pull_request_info[index]]. *)
Definition subscript (d : PyData) (k : string) : M PullRequestRecord :=
  match d with
  | None => raise (TypeError "'NoneType' object is not subscriptable")
  | Some d =>
      match dict_get k d with
      | Some r => ret r
      | None => raise (KeyError k)
      end
  end.

(** [result[name]]. *)
Definition report_get (r : DeepDiff.report) (name : string)
  : M DeepDiff.entry :=
  match dict_get name r with
  | Some e => ret e
  | None => raise (KeyError name)
  end.

(** What iterating over the content of a kind yields: the paths of a
    list, the keys of a dictionary. *)
Definition entry_items (e : DeepDiff.entry) : list string :=
  match e with
  | DeepDiff.Paths ps => ps
  | DeepDiff.ValuesChanged cs => cs.*1
  | DeepDiff.TypeChanges cs => cs.*1
  end.

(** The body of the inner loop: one added entry. *)
Definition announce (sv : Services) (pull_request_info : PyData)
    (index : string) : M unit :=
  let index := parse_index index in
  let* data := subscript pull_request_info index in
  logging_info ("Crafting tweet for RFC #" +:+ PyStr.str_of_Z (number data)) ;;
  let tweet := tweet_text data in
  let* consumer_key := os_environ sv "CONSUMER_KEY" in
  let* consumer_secret := os_environ sv "CONSUMER_SECRET" in
  let* access_token := os_environ sv "ACCESS_TOKEN" in
  let* access_token_secret := os_environ sv "ACCESS_TOKEN_SECRET" in
  post_tweet sv tweet consumer_key consumer_secret access_token
             access_token_secret ;;
  time_sleep 10.

(** The loops under [if result:]. *)
Definition notify (sv : Services) (pull_request_info : PyData)
    (result : DeepDiff.report) : M unit :=
  for_each result (fun kv =>
    if PyStr.contains "added" kv.1 then
      let* added := report_get result "dictionary_item_added" in
      logging_info
        (PyStr.str_of_Z (Z.of_nat (length (entry_items added))) +:+
         " new RFC(s)! Parsing data, please wait...") ;;
      let* added := report_get result "dictionary_item_added" in
      for_each (entry_items added) (announce sv pull_request_info)
    else ret tt).

(** [check_for_new_pr]: one cycle. *)
Definition check_for_new_pr (sv : Services) : M unit :=
  logging_info "Checking for new RFC(s)" ;;
  let* owner := os_environ sv "REPO_OWNER" in
  let* repo := os_environ sv "REPO" in
  let* pull_request_info := pull_requests sv owner repo in
  let* result :=
    CacheManager.get_cache_difference cache_file pull_request_info in
  CacheManager.save_data_to_cache cache_file pull_request_info ;;
  match result with
  | [] => ret tt
  | _ => notify sv pull_request_info result
  end.

(** A run starts with the files it finds, at some time, with nothing
    done yet. *)
Definition start (fs : gmap string Json.doc) (t0 : Z) : World :=
  {| files := fs; clock := t0; trace := [] |}.

(** The snapshot a successful answer is turned into. *)
Definition snapshot_of (body : list gh_pull) : PyData :=
  Json.loads (Json.dumps_sort_keys (collect body)).

(** What [pull_requests] returns for an answer. *)
Definition fetched (r : Response) : PyData :=
  if status_code r =? 200 then snapshot_of (json_body r) else None.

(** The report [get_cache_difference] returns in a cycle that starts with
    the files [fs] and fetches [data]. *)
Definition cycle_delta (fs : gmap string Json.doc) (data : PyData)
  : DeepDiff.report :=
  match fs !! cache_file with
  | Some j => DeepDiff.diff (Json.loads j) data
  | None => []
  end.

(** The records of [current] stored under a key that [previous] lacks,
    in the order of [current]. *)
Definition added_records (previous current : Snapshot)
  : list PullRequestRecord :=
  (filter (fun kv : string * PullRequestRecord => kv.1 ∉ previous.*1)
          current).*2.

(** The records the report on two snapshots lists as added: those of
    [added_records], and none when the two snapshots are too distant to
    be compared key by key. *)
Definition reported_added (previous current : Snapshot)
  : list PullRequestRecord :=
  if DeepDiff.too_distant previous current then []
  else added_records previous current.

(** Consecutive instants are at least ten seconds apart. *)
Definition spaced (ts : list Z) : Prop :=
  forall (i : nat) (t1 t2 : Z),
    ts !! i = Some t1 -> ts !! S i = Some t2 -> t1 + 10 <= t2.

(** The state between two iterations of the inner loop: the posts so far
    are spaced, and the last one is at least ten seconds old. *)
Definition paced (w : World) : Prop :=
  spaced (publish_times (trace w)) /\
  Forall (fun t => t + 10 <= clock w) (publish_times (trace w)).

(** A computation keeps a property of the world, however it ends. *)
Definition preserves {A} (I : World -> Prop) (m : M A) : Prop :=
  forall w, I w -> I (m w).2.

(** ** Reading a report as the delta of two snapshots *)

(** The items found under a kind of a report; nothing when the kind is
    left out. *)
Definition report_items (name : string) (r : DeepDiff.report) : list string :=
  match dict_get name r with
  | Some e => entry_items e
  | None => []
  end.

Definition added_paths (r : DeepDiff.report) : list string :=
  report_items "dictionary_item_added" r.

Definition removed_paths (r : DeepDiff.report) : list string :=
  report_items "dictionary_item_removed" r.

Definition changed_paths (r : DeepDiff.report) : list string :=
  report_items "values_changed" r.

(** The changes with their old and new values. *)
Definition changes (r : DeepDiff.report)
  : list (string * DeepDiff.change) :=
  match dict_get "values_changed" r with
  | Some (DeepDiff.ValuesChanged cs) => cs
  | _ => []
  end.

Definition field_names : list string :=
  ["author"; "created_at"; "number"; "title"; "url"].

(** A key is classified as added, removed or changed by a report. *)
Definition added_key (k : string) (r : DeepDiff.report) : Prop :=
  DeepDiff.path_of_key k ∈ added_paths r.

Definition removed_key (k : string) (r : DeepDiff.report) : Prop :=
  DeepDiff.path_of_key k ∈ removed_paths r.

Definition changed_key (k : string) (r : DeepDiff.report) : Prop :=
  exists f, f ∈ field_names /\ DeepDiff.path_of_field k f ∈ changed_paths r.

(** [a == b] for the values shown in a change: two dictionaries are
    equal when they hold the same records under the same keys, in any
    order. *)
Definition value_eq (a b : DeepDiff.value) : Prop :=
  match a, b with
  | DeepDiff.VDict d1, DeepDiff.VDict d2 => dict_eq d1 d2
  | _, _ => a = b
  end.

(** The same path with equal old and new values. *)
Definition change_eq (c1 c2 : string * DeepDiff.change) : Prop :=
  c1.1 = c2.1 /\
  value_eq (DeepDiff.new_value c1.2) (DeepDiff.new_value c2.2) /\
  value_eq (DeepDiff.old_value c1.2) (DeepDiff.old_value c2.2).

(** Two reports hold the same delta: the same kinds, and under each kind
    the same content, whatever the order in which a kind lists it. *)
Definition same_delta (r1 r2 : DeepDiff.report) : Prop :=
  r1.*1 = r2.*1 /\
  added_paths r1 ≡ₚ added_paths r2 /\
  removed_paths r1 ≡ₚ removed_paths r2 /\
  exists cs, changes r1 ≡ₚ cs /\ Forall2 change_eq cs (changes r2).

(** [r1 == r2] for two reports, as Python compares them: dictionaries
    key by key, the lists of paths item by item in their order. *)
Definition entry_eq (e1 e2 : DeepDiff.entry) : Prop :=
  match e1, e2 with
  | DeepDiff.Paths ps1, DeepDiff.Paths ps2 => ps1 = ps2
  | DeepDiff.ValuesChanged cs1, DeepDiff.ValuesChanged cs2 =>
      cs1.*1 ≡ₚ cs2.*1 /\
      forall p c1 c2, dict_get p cs1 = Some c1 -> dict_get p cs2 = Some c2 ->
                      change_eq (p, c1) (p, c2)
  | DeepDiff.TypeChanges cs1, DeepDiff.TypeChanges cs2 => cs1 = cs2
  | _, _ => False
  end.

Definition report_eq (r1 r2 : DeepDiff.report) : Prop :=
  forall name,
    match dict_get name r1, dict_get name r2 with
    | Some e1, Some e2 => entry_eq e1 e2
    | None, None => True
    | _, _ => False
    end.

(** [a == b] for what the cache functions handle. *)
Definition py_eq (a b : PyData) : Prop :=
  match a, b with
  | None, None => True
  | Some d1, Some d2 => dict_eq d1 d2
  | _, _ => False
  end.

(** ** Sample data *)

Module Sample.

Definition PR_A : PullRequestRecord :=
  {| author := "https://github.com/alice";
     created_at := "2024-01-15T10:00:00Z";
     number := 70;
     title := "Treasury tips";
     url := "https://github.com/polkadot-fellows/RFCs/pull/70" |}.

(** [PR_A] with another title. *)
Definition PR_A_v2 : PullRequestRecord :=
  {| author := "https://github.com/alice";
     created_at := "2024-01-15T10:00:00Z";
     number := 70;
     title := "Treasury tips, revised";
     url := "https://github.com/polkadot-fellows/RFCs/pull/70" |}.

Definition PR_B : PullRequestRecord :=
  {| author := "https://github.com/bob";
     created_at := "2024-02-01T08:30:00Z";
     number := 71;
     title := "Coretime renewal";
     url := "https://github.com/polkadot-fellows/RFCs/pull/71" |}.

(** [PR_B] seen later under another address of its author. *)
Definition PR_B_v2 : PullRequestRecord :=
  {| author := "https://github.com/robert";
     created_at := "2024-02-01T08:30:00Z";
     number := 71;
     title := "Coretime renewal";
     url := "https://github.com/polkadot-fellows/RFCs/pull/71" |}.

Definition PR_C : PullRequestRecord :=
  {| author := "https://github.com/carol";
     created_at := "2024-02-03T12:00:00Z";
     number := 72;
     title := "Light client hints";
     url := "https://github.com/polkadot-fellows/RFCs/pull/72" |}.

Definition PR_D : PullRequestRecord :=
  {| author := "https://github.com/dave";
     created_at := "2024-02-09T17:45:00Z";
     number := 73;
     title := "Parachain slot swaps";
     url := "https://github.com/polkadot-fellows/RFCs/pull/73" |}.

(** The item of a listing from which [pull_requests] builds the record
    [r] under the identifier [id]. *)
Definition item (id : Z) (r : PullRequestRecord) : gh_pull :=
  {| gh_id := id;
     gh_title := title r;
     gh_number := number r;
     gh_links_html_href := url r;
     gh_user_html_url := author r;
     gh_created_at := created_at r |}.

Definition env : gmap string string :=
  list_to_map
    [ ("REPO_OWNER", "polkadot-fellows"); ("REPO", "RFCs");
      ("CONSUMER_KEY", "ck"); ("CONSUMER_SECRET", "cs");
      ("ACCESS_TOKEN", "at"); ("ACCESS_TOKEN_SECRET", "ats") ].

(** A publishing service that cannot be reached at the first call
    ([twitter.post] raises a connection error) and answers afterwards. An
    answer that reports a refusal (status 401, 403 or 429) is an answer:
    [twitter.post] returns it and raises nothing. *)
Definition first_post_fails (n : nat) (text : string) : post_outcome :=
  match n with
  | O => RaisedException "Connection aborted."
  | S _ => Answered "{}"
  end.

Definition services (status : Z) (body : list gh_pull) : Services :=
  {| environ := env;
     github := fun _ => {| status_code := status; json_body := body |};
     twitter := first_post_fails |}.

Definition cached (d : Snapshot) : gmap string Json.doc :=
  {[ cache_file := Json.JObject d ]}.

End Sample.


(** ** Further notions for the rest of the program *)

(** The records a cycle announces, given the files it starts with and the
    data it fetches: the records reported as added since the dictionary
    the cache file holds; none when the file is missing or holds [null],
    or when the fetch gave [None]. *)
Definition announced (fs : gmap string Json.doc) (data : PyData)
  : list PullRequestRecord :=
  match fs !! cache_file, data with
  | Some j, Some current =>
      match Json.loads j with
      | Some previous => reported_added previous current
      | None => []
      end
  | _, _ => []
  end.

(** Strictly increasing integers. *)
Fixpoint increasing (l : list Z) : Prop :=
  match l with
  | [] => True
  | x :: l' => Forall (fun y => x < y) l' /\ increasing l'
  end.

(** The four variables read for each post, in the order they are read. *)
Definition credentials : list string :=
  ["CONSUMER_KEY"; "CONSUMER_SECRET"; "ACCESS_TOKEN"; "ACCESS_TOKEN_SECRET"].

(** A request that uses the configured values: a listing request goes to
    the address of the configured repository, a post goes to the tweets
    address with the four configured credentials, each in its role. *)
Definition configured_request (sv : Services) (te : Z * event) : Prop :=
  match te.2 with
  | HttpGet address =>
      exists owner repo,
        environ sv !! "REPO_OWNER" = Some owner /\
        environ sv !! "REPO" = Some repo /\
        address = listing_address owner repo
  | HttpPost address _ ck cs tk ts =>
      address = "https://api.twitter.com/2/tweets" /\
      environ sv !! "CONSUMER_KEY" = Some ck /\
      environ sv !! "CONSUMER_SECRET" = Some cs /\
      environ sv !! "ACCESS_TOKEN" = Some tk /\
      environ sv !! "ACCESS_TOKEN_SECRET" = Some ts
  | _ => True
  end.


(** The file the [FileHandler] set up in [__main__] appends to, one line
    for each logging call. It is not a JSON file and is not kept in
    [files]: the lines appended to it during a run are the [Logged]
    events of the trace. *)
Definition log_file : string := "../logs/app.log".

Definition log_lines (tr : list (Z * event)) : list (level * string) :=
  omap (fun te : Z * event =>
          match te.2 with
          | Logged lvl msg => Some (lvl, msg)
          | _ => None
          end) tr.

(** The [__main__] block once logging is set up and [load_dotenv()] has
    filled the environment (the one of [Services]): the cycle, then the
    closing log line. *)
Definition main (sv : Services) : M unit :=
  check_for_new_pr sv ;;
  logging_info "Finished".

(** * Properties *)

(** ** The string primitives on sample inputs *)

Example strip_root : PyStr.strip "root" "root['123']" = "['123']".
Proof. reflexivity. Qed.

Example strip_both_ends : PyStr.strip "root" "toor[x]root" = "[x]".
Proof. reflexivity. Qed.

Example replace_open : PyStr.replace "['" EmptyString "['123']" = "123']".
Proof. reflexivity. Qed.

Example replace_no_overlap : PyStr.replace "aa" "b" "aaaaa" = "bba".
Proof. reflexivity. Qed.

Example replace_empty_old : PyStr.replace EmptyString "-" "abc" = "-a-b-c-".
Proof. reflexivity. Qed.

Example added_in_key :
  PyStr.contains "added" "dictionary_item_added" = true /\
  PyStr.contains "added" "dictionary_item_removed" = false /\
  PyStr.contains "added" "values_changed" = false /\
  PyStr.contains "added" "type_changes" = false.
Proof. repeat split; reflexivity. Qed.

Example str_of_Z_samples :
  PyStr.str_of_Z 0 = "0" /\ PyStr.str_of_Z 1745 = "1745" /\
  PyStr.str_of_Z (-8) = "-8".
Proof. repeat split; reflexivity. Qed.

(** ** Strings *)

Section StringFacts.
Import PyStr.

Lemma app_cons (a : ascii) (s t : string) :
  String a s +:+ t = String a (s +:+ t).
Proof. reflexivity. Qed.

Lemma app_nil_l (t : string) : EmptyString +:+ t = t.
Proof. reflexivity. Qed.

Lemma app_assoc_s (s1 s2 s3 : string) :
  (s1 +:+ s2) +:+ s3 = s1 +:+ (s2 +:+ s3).
Proof.
  induction s1 as [|a s1 IH]; [reflexivity|].
  rewrite !app_cons. now f_equal.
Qed.

Lemma length_app_s (s1 s2 : string) :
  String.length (s1 +:+ s2) = (String.length s1 + String.length s2)%nat.
Proof.
  induction s1 as [|a s1 IH]; [reflexivity|].
  rewrite app_cons. cbn [String.length]. now rewrite IH.
Qed.

Lemma mem_char_app (c : ascii) (s1 s2 : string) :
  mem_char c (s1 +:+ s2) = mem_char c s1 || mem_char c s2.
Proof.
  induction s1 as [|a s1 IH]; [reflexivity|].
  rewrite app_cons. simpl. rewrite IH. now rewrite orb_assoc.
Qed.

Lemma mem_char_self (q : ascii) (x y : string) :
  mem_char q (x +:+ String q y) = true.
Proof.
  rewrite mem_char_app. simpl. rewrite Ascii.eqb_refl.
  now rewrite orb_true_r.
Qed.

(** A string is cut in one way only at the last occurrence of a
    character. *)
Lemma cut_at_last (q : ascii) (x x' y y' : string) :
  mem_char q y = false -> mem_char q y' = false ->
  x +:+ String q y = x' +:+ String q y' -> x = x' /\ y = y'.
Proof.
  intros Hy Hy'. revert x'.
  induction x as [|a x IH]; intros [|a' x'] E;
    rewrite ?app_cons, ?app_nil_l in E.
  - now inversion E.
  - inversion E; subst. now rewrite mem_char_self in Hy.
  - inversion E; subst. now rewrite mem_char_self in Hy'.
  - inversion E; subst. destruct (IH x' H1) as [-> ->]. now split.
Qed.

Lemma rstrip_keeps_last (chars s : string) (c : ascii) :
  mem_char c chars = false ->
  rstrip chars (s +:+ String c EmptyString) = s +:+ String c EmptyString.
Proof.
  intros Hc. induction s as [|a s IH].
  - rewrite app_nil_l. simpl. now rewrite Hc.
  - rewrite app_cons. simpl. rewrite IH.
    destruct s; reflexivity.
Qed.

Lemma strip_root_path (k : string) :
  strip "root" (DeepDiff.path_of_key k) = "['" +:+ k +:+ "']".
Proof.
  unfold strip, DeepDiff.path_of_key.
  change (lstrip "root" ("root['" +:+ k +:+ "']"))
    with ("['" +:+ k +:+ "']").
  replace ("['" +:+ k +:+ "']") with (("['" +:+ k +:+ "'") +:+ "]").
  - now apply rstrip_keeps_last.
  - now rewrite !app_assoc_s.
Qed.

Lemma mem_char_cons (c a : ascii) (s : string) :
  mem_char c (String a s) = Ascii.eqb c a || mem_char c s.
Proof. reflexivity. Qed.

Lemma replace_from_two (o1 o2 c : ascii) (new s : string) :
  replace_from 0 (String o1 (String o2 EmptyString)) new (String c s) =
  if Ascii.eqb o1 c
  then match s with
       | String c' s' =>
           if Ascii.eqb o2 c'
           then new +:+ replace_from 0 (String o1 (String o2 EmptyString)) new s'
           else String c (replace_from 0 (String o1 (String o2 EmptyString)) new s)
       | EmptyString => String c EmptyString
       end
  else String c (replace_from 0 (String o1 (String o2 EmptyString)) new s).
Proof.
  cbn [replace_from startswith String.length].
  destruct (Ascii.eqb o1 c); [|reflexivity].
  destruct s as [|c' s']; [reflexivity|].
  destruct (Ascii.eqb o2 c'); reflexivity.
Qed.

Lemma replace_open_tail (d : string) :
  mem_char "[" d = false ->
  replace_from 0 "['" EmptyString (d +:+ "']") = d +:+ "']".
Proof.
  induction d as [|c d IH]; intros Hd; [reflexivity|].
  rewrite mem_char_cons in Hd. apply orb_false_elim in Hd as [Hc Hd].
  rewrite app_cons, replace_from_two, Hc. now rewrite IH.
Qed.

Lemma replace_close_tail (d : string) :
  mem_char "'" d = false ->
  replace_from 0 "']" EmptyString (d +:+ "']") = d.
Proof.
  induction d as [|c d IH]; intros Hd; [reflexivity|].
  rewrite mem_char_cons in Hd. apply orb_false_elim in Hd as [Hc Hd].
  rewrite app_cons, replace_from_two, Hc. now rewrite IH.
Qed.

(** The parsing of [check_for_new_pr] gives back a key that holds no
    opening bracket and no quote. *)
Lemma parse_index_path (k : string) :
  mem_char "[" k = false -> mem_char "'" k = false ->
  parse_index (DeepDiff.path_of_key k) = k.
Proof.
  intros Hb Hq. unfold parse_index. rewrite strip_root_path.
  unfold replace.
  change (replace_from 0 "['" EmptyString ("['" +:+ k +:+ "']"))
    with (replace_from 0 "['" EmptyString (k +:+ "']")).
  rewrite replace_open_tail by assumption.
  now apply replace_close_tail.
Qed.

Lemma decimal_char_plain (c : ascii) :
  decimal_char c = true ->
  Ascii.eqb "[" c = false /\ Ascii.eqb "'" c = false.
Proof.
  destruct c as [[] [] [] [] [] [] [] []]; vm_compute; intros H;
    try discriminate H; split; reflexivity.
Qed.

Lemma is_digit_decimal (c : ascii) : is_digit c = true -> decimal_char c = true.
Proof.
  unfold is_digit, decimal_char. intros H.
  change (mem_char c "-0123456789")
    with (Ascii.eqb c "-" || mem_char c "0123456789").
  rewrite H. apply orb_true_r.
Qed.

Lemma decimal_plain (s : string) :
  all_chars decimal_char s = true ->
  mem_char "[" s = false /\ mem_char "'" s = false.
Proof.
  induction s as [|c s IH]; [now split|].
  cbn [all_chars]. intros H. apply andb_prop in H as [Hc Hs].
  rewrite !mem_char_cons.
  destruct (decimal_char_plain c Hc) as [-> ->].
  now apply IH.
Qed.

Lemma all_chars_impl (p q : ascii -> bool) (s : string) :
  (forall c, p c = true -> q c = true) ->
  all_chars p s = true -> all_chars q s = true.
Proof.
  intros Hpq. induction s as [|c s IH]; cbn [all_chars]; [trivial|].
  intros H. apply andb_prop in H as [Hc Hs].
  now rewrite (Hpq c Hc), IH.
Qed.

Lemma uint_chars (d : Decimal.uint) :
  all_chars decimal_char (NilEmpty.string_of_uint d) = true.
Proof. induction d; simpl; trivial. Qed.

Lemma str_of_Z_chars (z : Z) : all_chars decimal_char (str_of_Z z) = true.
Proof.
  unfold str_of_Z. destruct (Z.to_int z) as [d|d]; simpl.
  - destruct d; try apply uint_chars. reflexivity.
  - destruct d; try apply uint_chars. reflexivity.
Qed.

Lemma str_of_Z_inj (z1 z2 : Z) : str_of_Z z1 = str_of_Z z2 -> z1 = z2.
Proof.
  intros E.
  assert (R : forall z, Z.of_int <$> NilZero.int_of_string (str_of_Z z) = Some z).
  { intros z. unfold str_of_Z.
    rewrite <- (DecimalZ.of_to z) at 2.
    destruct (Z.to_int z) as [d|d]; destruct d;
      first [ now rewrite NilZero.isi_posnil
            | now rewrite NilZero.isi_negnil
            | now rewrite NilZero.isi by discriminate ]. }
  pose proof (R z1) as R1. rewrite E, R in R1. now inversion R1.
Qed.

End StringFacts.

(** ** Dictionaries and JSON documents *)

Section DictFacts.
Context {K V : Type} `{EqDecision K}.
Implicit Types (d : list (K * V)) (k : K) (v : V).

Lemma dict_get_None k d : dict_get k d = None <-> k ∉ d.*1.
Proof.
  induction d as [|[k' v'] d IH]; simpl.
  - split; [intros _; apply not_elem_of_nil | trivial].
  - rewrite not_elem_of_cons. destruct (decide (k = k')) as [->|n].
    + split; [discriminate | intros [? _]; congruence].
    + rewrite IH. tauto.
Qed.

Lemma dict_get_is_Some k d : is_Some (dict_get k d) <-> k ∈ d.*1.
Proof.
  rewrite <- not_eq_None_Some, dict_get_None.
  destruct (decide (k ∈ d.*1)); tauto.
Qed.

Lemma dict_get_elem k v d : dict_get k d = Some v -> (k, v) ∈ d.
Proof.
  induction d as [|[k' v'] d IH]; simpl; [discriminate|].
  destruct (decide (k = k')) as [->|n].
  - intros [= ->]. apply list_elem_of_here.
  - intros E. apply list_elem_of_further. auto.
Qed.

Lemma dict_get_NoDup k v d :
  NoDup d.*1 -> (k, v) ∈ d -> dict_get k d = Some v.
Proof.
  induction d as [|[k' v'] d IH]; simpl; intros ND Hin.
  - now apply elem_of_nil in Hin.
  - apply NoDup_cons in ND as [Hk ND].
    apply elem_of_cons in Hin as [[= -> ->]|Hin].
    + now rewrite decide_True.
    + destruct (decide (k = k')) as [->|n]; [|auto].
      exfalso. apply Hk. apply list_elem_of_fmap.
      now exists (k', v).
Qed.

Lemma dict_get_Permutation k d d' :
  NoDup d.*1 -> d ≡ₚ d' -> dict_get k d = dict_get k d'.
Proof.
  intros ND P.
  assert (ND' : NoDup d'.*1) by now rewrite <- P.
  destruct (dict_get k d) as [v|] eqn:E.
  - symmetry. apply dict_get_NoDup; [assumption|].
    rewrite <- P. now apply dict_get_elem.
  - symmetry. apply dict_get_None. rewrite <- P. now apply dict_get_None.
Qed.

Lemma dict_set_fresh k v d : k ∉ d.*1 -> dict_set k v d = d ++ [(k, v)].
Proof.
  induction d as [|[k' v'] d IH]; simpl; [reflexivity|].
  rewrite not_elem_of_cons. intros [n Hk].
  rewrite decide_False by assumption. now rewrite IH.
Qed.

Lemma dict_set_keys_old k v d : k ∈ d.*1 -> (dict_set k v d).*1 = d.*1.
Proof.
  induction d as [|[k' v'] d IH]; simpl; intros Hk.
  - now apply elem_of_nil in Hk.
  - destruct (decide (k = k')) as [->|n]; [reflexivity|].
    simpl. f_equal. apply IH.
    apply elem_of_cons in Hk as [?|?]; [contradiction | assumption].
Qed.

Lemma dict_set_NoDup k v d : NoDup d.*1 -> NoDup (dict_set k v d).*1.
Proof.
  intros ND. destruct (decide (k ∈ d.*1)) as [Hk|Hk].
  - now rewrite dict_set_keys_old.
  - rewrite dict_set_fresh, fmap_app by assumption. simpl.
    apply NoDup_app. split; [assumption|]. split; [|apply NoDup_singleton].
    intros x Hx Hx'. apply list_elem_of_singleton in Hx'. now subst.
Qed.

Lemma assign_all_NoDup {A} (key : A -> K) (val : A -> V) (l : list A) d :
  NoDup d.*1 ->
  NoDup (fold_left (fun d x => dict_set (key x) (val x) d) l d).*1.
Proof.
  revert d. induction l as [|x l IH]; intros d ND; simpl; [assumption|].
  apply IH. now apply dict_set_NoDup.
Qed.

Lemma assign_all_fresh (items : list (K * V)) d :
  NoDup (d ++ items).*1 ->
  fold_left (fun d kv => dict_set kv.1 kv.2 d) items d = d ++ items.
Proof.
  revert d. induction items as [|[k v] items IH]; intros d ND; simpl.
  - now rewrite app_nil_r.
  - rewrite dict_set_fresh.
    + rewrite IH; rewrite <- app_assoc; [reflexivity | exact ND].
    + rewrite fmap_app in ND. apply NoDup_app in ND as (_ & Hd & _).
      intros Hk. apply (Hd k Hk). simpl. apply list_elem_of_here.
Qed.

(** Reading back the items of a dictionary gives the dictionary. *)
Lemma dict_of_items_id (items : list (K * V)) :
  NoDup items.*1 -> dict_of_items items = items.
Proof. intros ND. unfold dict_of_items. now rewrite assign_all_fresh. Qed.

End DictFacts.

Section JsonFacts.

Lemma insert_by_key_Permutation {V} (kv : Z * V) (l : list (Z * V)) :
  Json.insert_by_key kv l ≡ₚ kv :: l.
Proof.
  induction l as [|kv' l IH]; simpl; [reflexivity|].
  destruct (kv.1 <=? kv'.1); [reflexivity|].
  rewrite IH. apply Permutation_swap.
Qed.

Lemma sorted_items_Permutation {V} (d : list (Z * V)) :
  Json.sorted_items d ≡ₚ d.
Proof.
  induction d as [|kv d IH]; simpl; [reflexivity|].
  now rewrite insert_by_key_Permutation, IH.
Qed.

Lemma collect_NoDup (body : list gh_pull) : NoDup (collect body).*1.
Proof. apply assign_all_NoDup. apply NoDup_nil_2. Qed.

Lemma members_NoDup (prs : list (Z * PullRequestRecord)) :
  NoDup prs.*1 ->
  NoDup ((fun kv : Z * PullRequestRecord =>
            (PyStr.str_of_Z kv.1, kv.2)) <$> Json.sorted_items prs).*1.
Proof.
  intros ND. rewrite <- list_fmap_compose.
  assert (E : (fst ∘ (fun kv : Z * PullRequestRecord =>
                        (PyStr.str_of_Z kv.1, kv.2))) <$> Json.sorted_items prs
              = PyStr.str_of_Z <$> (Json.sorted_items prs).*1).
  { now rewrite <- list_fmap_compose. }
  rewrite E. apply NoDup_fmap_2.
  - intros z1 z2. apply str_of_Z_inj.
  - now rewrite sorted_items_Permutation.
Qed.

(** The snapshot made from an answer: its keys are distinct decimal
    texts. *)
Lemma snapshot_of_Some (body : list gh_pull) :
  exists d, snapshot_of body = Some d /\ NoDup d.*1 /\
            Forall (fun k => PyStr.all_chars PyStr.decimal_char k = true) d.*1.
Proof.
  unfold snapshot_of, Json.dumps_sort_keys, Json.loads.
  pose proof (members_NoDup (collect body) (collect_NoDup body)) as ND.
  eexists. split; [reflexivity|].
  rewrite dict_of_items_id by exact ND. split; [exact ND|].
  apply Forall_forall. intros k Hk.
  apply list_elem_of_fmap in Hk as ([k' r] & -> & Hk).
  apply list_elem_of_fmap in Hk as ([z r'] & [= -> ->] & _).
  apply str_of_Z_chars.
Qed.

(** The identifiers are ordered as numbers, then written as text. *)
Example snapshot_of_sorts_by_identifier :
  snapshot_of [Sample.item 101 Sample.PR_A; Sample.item 22 Sample.PR_B;
               Sample.item 101 Sample.PR_A_v2] =
  Some [("22", Sample.PR_B); ("101", Sample.PR_A_v2)].
Proof. reflexivity. Qed.

(** What is written for a snapshot is read back unchanged. *)
Lemma loads_dumps (data : PyData) :
  (forall d, data = Some d -> NoDup d.*1) ->
  Json.loads (Json.dumps data) = data.
Proof.
  destruct data as [d|]; simpl; [|reflexivity].
  intros ND. now rewrite dict_of_items_id by now apply ND.
Qed.

End JsonFacts.

(** ** The JSON text of a value, read back *)

Section JsonTextFacts.
Import JsonText.

Lemma app_nil_r_s (s : string) : s +:+ EmptyString = s.
Proof. induction s as [|a s IH]; [reflexivity|]. rewrite app_cons. now f_equal. Qed.

(** Induction on a value, with the property at hand for the items. *)
Lemma pyobj_induction (P : pyobj -> Prop) :
  P PyNone ->
  (forall b, P (PyBool b)) ->
  (forall z, P (PyInt z)) ->
  (forall s, P (PyStr s)) ->
  (forall l, Forall P l -> P (PyList l)) ->
  (forall l, Forall P l -> P (PyTuple l)) ->
  (forall d, Forall (fun kv : string * pyobj => P kv.2) d -> P (PyDict d)) ->
  forall v, P v.
Proof.
  intros HN HB HI HS HL HT HD. fix IH 1. intros [ |b|z|s|l|l|d].
  - exact HN.
  - apply HB.
  - apply HI.
  - apply HS.
  - apply HL. induction l as [|x l IHl]; constructor; [apply IH | exact IHl].
  - apply HT. induction l as [|x l IHl]; constructor; [apply IH | exact IHl].
  - apply HD. induction d as [|[k x] d IHd]; constructor;
      [apply IH | exact IHd].
Qed.

(** *** Blanks *)

Lemma skip_ws_spaces (n : nat) (s : string) :
  skip_ws (spaces n +:+ s) = skip_ws s.
Proof. induction n as [|n IH]; [reflexivity|]. exact IH. Qed.

Lemma skip_ws_newline_indent (level : nat) (s : string) :
  skip_ws (newline_indent level +:+ s) = skip_ws s.
Proof.
  unfold newline_indent. rewrite app_assoc_s.
  change (skip_ws (PyStr.nl +:+ (spaces (4 * level) +:+ s)))
    with (skip_ws (spaces (4 * level) +:+ s)).
  apply skip_ws_spaces.
Qed.

Lemma skip_ws_starts_value (s : string) : starts_value s = true -> skip_ws s = s.
Proof.
  destruct s as [|c s]; [discriminate|]. cbn [starts_value skip_ws].
  destruct (is_ws c); [discriminate | reflexivity].
Qed.

(** *** Strings *)

Lemma scanstring_escape (c : ascii) (rest : string) :
  scanstring (escape c +:+ rest) = push c (scanstring rest).
Proof.
  destruct c as [[] [] [] [] [] [] [] []]; reflexivity.
Qed.

Lemma scanstring_escape_all (s rest : string) :
  scanstring (escape_all s +:+ String quote rest) = Value (s, rest).
Proof.
  induction s as [|c s IH]; [reflexivity|].
  cbn [escape_all]. rewrite app_assoc_s, scanstring_escape, IH. reflexivity.
Qed.

Lemma scan_once_string (fuel : nat) (s rest : string) :
  scan_once (S fuel) (encode_string s +:+ rest) = Value (PyStr s, rest).
Proof.
  unfold encode_string. rewrite app_cons, app_assoc_s, app_cons, app_nil_l.
  change (scan_once (S fuel) (String quote (escape_all s +:+ String quote rest)))
    with (and_then (scanstring (escape_all s +:+ String quote rest))
            (fun tr => Value (PyStr tr.1, tr.2))).
  now rewrite scanstring_escape_all.
Qed.

(** *** Integers *)

Lemma span_digits_stop (rest : string) :
  ends_number rest = true -> span_digits rest = (EmptyString, rest).
Proof.
  unfold ends_number. destruct rest as [|c rest]; [reflexivity|].
  intros H. apply andb_prop in H as [_ H]. cbn [span_digits].
  now destruct (PyStr.is_digit c).
Qed.

Lemma span_digits_uint (u : Decimal.uint) (rest : string) :
  ends_number rest = true ->
  span_digits (NilEmpty.string_of_uint u +:+ rest) =
  (NilEmpty.string_of_uint u, rest).
Proof.
  intros H. induction u; cbn [NilEmpty.string_of_uint];
    rewrite ?app_cons, ?app_nil_l;
    [now apply span_digits_stop|..];
    cbn [span_digits];
    match goal with
    | |- context [PyStr.is_digit ?c] =>
        change (PyStr.is_digit c) with true
    end; cbv iota; now rewrite IHu.
Qed.

Lemma to_uint_head (p : positive) :
  exists d ds,
    NilEmpty.string_of_uint (Pos.to_uint p) = String d ds /\
    Ascii.eqb d "0" = false /\ Ascii.eqb d "-" = false.
Proof.
  pose proof (DecimalPos.Unsigned.to_uint_nonzero p) as Hz.
  pose proof (DecimalPos.Unsigned.to_uint_nonnil p) as Hn.
  assert (E : Decimal.unorm (Pos.to_uint p) = Pos.to_uint p).
  { pose proof (DecimalPos.Unsigned.to_of (Pos.to_uint p)) as T.
    rewrite DecimalPos.Unsigned.of_to in T. symmetry. exact T. }
  assert (Hh : forall u', Pos.to_uint p <> Decimal.D0 u').
  { intros u' Eu. rewrite <- E in Eu.
    unfold Decimal.unorm in Eu.
    destruct (Decimal.nzhead (Pos.to_uint p)) eqn:En;
      try discriminate Eu.
    - injection Eu as <-. apply Hz. now rewrite <- E at 1; unfold Decimal.unorm; rewrite En.
    - now apply (DecimalFacts.nzhead_nonzero (Pos.to_uint p) u). }
  destruct (Pos.to_uint p) as [|u|u|u|u|u|u|u|u|u|u];
    [now elim Hn | now elim (Hh u) |..];
    cbn [NilEmpty.string_of_uint]; eexists _, _; repeat split.
Qed.

Lemma int_of_str_of_Z (z : Z) :
  Z.of_int <$> NilZero.int_of_string (PyStr.str_of_Z z) = Some z.
Proof.
  unfold PyStr.str_of_Z.
  rewrite <- (DecimalZ.of_to z) at 2.
  destruct (Z.to_int z) as [d|d]; destruct d;
    first [ now rewrite NilZero.isi_posnil
          | now rewrite NilZero.isi_negnil
          | now rewrite NilZero.isi by discriminate ].
Qed.

Lemma scan_number_str_of_Z (z : Z) (rest : string) :
  ends_number rest = true ->
  scan_number (PyStr.str_of_Z z +:+ rest) = Value (PyInt z, rest).
Proof.
  intros H. pose proof (int_of_str_of_Z z) as R.
  assert (Hf : float_follows rest = false).
  { unfold ends_number in H. apply andb_prop in H as [H _].
    now apply negb_true_iff in H. }
  unfold PyStr.str_of_Z in *. destruct z as [|p|p]; cbn [Z.to_int] in *.
  - change (NilZero.string_of_int (Decimal.Pos (Decimal.D0 Decimal.Nil)))
      with "0" in *.
    rewrite app_cons, app_nil_l. unfold scan_number.
    change (Ascii.eqb "0" "-") with false. cbv iota.
    cbn [span_digits]. change (PyStr.is_digit "0") with true. cbv iota.
    rewrite (span_digits_stop rest H).
    change (Ascii.eqb "0" "0") with true. cbv iota.
    rewrite !app_nil_l, Hf. reflexivity.
  - destruct (to_uint_head p) as (d & ds & E & H0 & Hm).
    assert (Es : NilZero.string_of_int (Decimal.Pos (Pos.to_uint p))
                 = String d ds).
    { cbn [NilZero.string_of_int]. unfold NilZero.string_of_uint.
      rewrite <- E. destruct (Pos.to_uint p); try reflexivity.
      discriminate E. }
    rewrite Es in *. rewrite app_cons. unfold scan_number. rewrite Hm.
    rewrite <- app_cons, <- E, (span_digits_uint _ rest H), E.
    rewrite H0, Hf, app_nil_l.
    destruct (NilZero.int_of_string (String d ds)) as [i|]; [|discriminate R].
    cbn in R. now injection R as ->.
  - destruct (to_uint_head p) as (d & ds & E & H0 & Hm).
    assert (Es : NilZero.string_of_int (Decimal.Neg (Pos.to_uint p))
                 = String "-" (String d ds)).
    { cbn [NilZero.string_of_int]. unfold NilZero.string_of_uint.
      rewrite <- E. destruct (Pos.to_uint p); try reflexivity.
      discriminate E. }
    rewrite Es in *. rewrite app_cons. unfold scan_number.
    change (Ascii.eqb "-" "-") with true. cbv iota.
    rewrite <- E, (span_digits_uint _ rest H), E.
    rewrite H0, Hf.
    change ("-" +:+ String d ds) with (String "-" (String d ds)).
    destruct (NilZero.int_of_string (String "-" (String d ds))) as [i|];
      [|discriminate R].
    cbn in R. now injection R as ->.
Qed.

Lemma str_of_Z_head (z : Z) :
  exists c s, PyStr.str_of_Z z = String c s /\ PyStr.decimal_char c = true.
Proof.
  pose proof (str_of_Z_chars z) as H.
  destruct (PyStr.str_of_Z z) as [|c s] eqn:E.
  - exfalso. pose proof (int_of_str_of_Z z) as R. rewrite E in R. discriminate R.
  - exists c, s. split; [reflexivity|]. cbn [PyStr.all_chars] in H.
    now apply andb_prop in H as [H _].
Qed.

Lemma scan_once_number (fuel : nat) (c : ascii) (s : string) :
  PyStr.decimal_char c = true ->
  scan_once (S fuel) (String c s) = scan_number (String c s).
Proof.
  destruct c as [[] [] [] [] [] [] [] []]; intros H;
    try discriminate H; reflexivity.
Qed.

Lemma starts_value_decimal (c : ascii) (s : string) :
  PyStr.decimal_char c = true -> starts_value (String c s) = true.
Proof.
  destruct c as [[] [] [] [] [] [] [] []]; intros H;
    try discriminate H; reflexivity.
Qed.

(** *** Values *)

Lemma dump_starts_value (level : nat) (v : pyobj) (rest : string) :
  starts_value (dump level v +:+ rest) = true.
Proof.
  destruct v as [ |[]|z|s|[|x l]|[|x l]|[|kv d]]; try reflexivity.
  cbn [dump]. destruct (str_of_Z_head z) as (c & s & -> & Hc).
  rewrite app_cons. now apply starts_value_decimal.
Qed.

Lemma separator_ends_number (level : nat) (s : string) :
  ends_number (("," +:+ newline_indent level) +:+ s) = true.
Proof. reflexivity. Qed.

Lemma closing_ends_number (level : nat) (s : string) :
  ends_number (newline_indent level +:+ s) = true.
Proof. reflexivity. Qed.

Lemma items_tail_app {A} (item : A -> string) (separator closing rest : string)
      (l : list A) :
  items_tail item separator closing l +:+ rest =
  items_tail item separator (closing +:+ rest) l.
Proof.
  induction l as [|x l IH]; [reflexivity|].
  cbn [items_tail]. now rewrite !app_assoc_s, IH.
Qed.

Section Loop.
Variable value : string -> parsed pyobj.
Variable level : nat.

Let separator : string := "," +:+ newline_indent (S level).

(** The loop of [JSONArray] on the text of the items of a list. *)
Lemma array_items_dump (l : list pyobj) (x : pyobj) (fuel : nat)
      (rest : string) :
  (length l < fuel)%nat ->
  Forall (fun y => forall rest',
            ends_number rest' = true ->
            value (dump (S level) y +:+ rest') = Value (as_loaded y, rest'))
         (x :: l) ->
  array_items value fuel
    (dump (S level) x +:+
     items_tail (dump (S level)) separator
                (newline_indent level +:+ String "]" rest) l)
  = Value (as_loaded x :: map as_loaded l, rest).
Proof.
  revert x fuel. induction l as [|y l IH]; intros x fuel Hf Hv;
    (destruct fuel as [|fuel]; [cbn [length] in Hf; lia|]);
    apply Forall_cons in Hv as [Hx Hv]; cbn [array_items items_tail].
  - rewrite Hx by reflexivity. cbn [and_then snd fst].
    rewrite skip_ws_newline_indent. reflexivity.
  - unfold separator at 1. rewrite app_assoc_s, app_cons, app_nil_l.
    rewrite Hx by reflexivity.
    cbn [and_then snd fst skip_ws].
    change (is_ws ",") with false. cbv iota.
    change (Ascii.eqb "," ",") with true. cbv iota.
    rewrite skip_ws_newline_indent.
    rewrite skip_ws_starts_value by apply dump_starts_value.
    rewrite IH; [reflexivity | cbn [length] in Hf; lia | exact Hv].
Qed.

Let member : string * pyobj -> string := member_text level.

Lemma member_shape (kv : string * pyobj) (s : string) :
  member kv +:+ s =
  String quote (escape_all kv.1 +:+
                String quote (String ":" (String " " (dump (S level) kv.2 +:+ s)))).
Proof.
  unfold member, member_text, encode_string.
  rewrite !app_cons, !app_assoc_s. reflexivity.
Qed.

(** The text of a member, read: the name, the colon and the value. *)
Lemma member_read (kv : string * pyobj) (fuel : nat) (s : string) :
  ends_number s = true ->
  (forall rest', ends_number rest' = true ->
     value (dump (S level) kv.2 +:+ rest') = Value (as_loaded kv.2, rest')) ->
  object_items value (S fuel) (member kv +:+ s) =
  match skip_ws s with
  | String c' r' =>
      if Ascii.eqb c' "," then
        and_then (object_items value fuel (skip_ws r'))
          (fun kvsr => Value ((kv.1, as_loaded kv.2) :: kvsr.1, kvsr.2))
      else if Ascii.eqb c' "}" then Value ([(kv.1, as_loaded kv.2)], r')
      else Malformed
  | EmptyString => Malformed
  end.
Proof.
  intros Hs Hx. rewrite member_shape. cbn [object_items].
  rewrite Ascii.eqb_refl, scanstring_escape_all.
  cbn [and_then fst snd skip_ws].
  change (is_ws ":") with false. cbv iota.
  change (Ascii.eqb ":" ":") with true. cbv iota.
  cbn [skip_ws]. change (is_ws " ") with true. cbv iota.
  rewrite skip_ws_starts_value by apply dump_starts_value.
  rewrite Hx by exact Hs. reflexivity.
Qed.

(** The loop of [JSONObject] on the text of the items of a
    dictionary. *)
Lemma object_items_dump (d : list (string * pyobj)) (kv : string * pyobj)
      (fuel : nat) (rest : string) :
  (length d < fuel)%nat ->
  Forall (fun kv : string * pyobj => forall rest',
            ends_number rest' = true ->
            value (dump (S level) kv.2 +:+ rest')
            = Value (as_loaded kv.2, rest'))
         (kv :: d) ->
  object_items value fuel
    (member kv +:+
     items_tail member separator (newline_indent level +:+ String "}" rest) d)
  = Value ((kv.1, as_loaded kv.2) ::
           map (fun kv : string * pyobj => (kv.1, as_loaded kv.2)) d, rest).
Proof.
  revert kv fuel. induction d as [|kv' d IH]; intros kv fuel Hf Hv;
    (destruct fuel as [|fuel]; [cbn [length] in Hf; lia|]);
    apply Forall_cons in Hv as [Hx Hv]; cbn [items_tail].
  - rewrite (member_read kv fuel) by
      first [reflexivity | exact Hx].
    rewrite skip_ws_newline_indent. reflexivity.
  - unfold separator at 1. rewrite app_assoc_s, app_cons, app_nil_l.
    rewrite (member_read kv fuel) by
      first [reflexivity | exact Hx].
    cbn [skip_ws]. change (is_ws ",") with false. cbv iota.
    change (Ascii.eqb "," ",") with true. cbv iota.
    rewrite skip_ws_newline_indent.
    assert (Hq : forall s, skip_ws (member kv' +:+ s) = member kv' +:+ s).
    { intros s. now rewrite member_shape. }
    rewrite Hq.
    rewrite IH; [reflexivity | cbn [length] in Hf; lia | exact Hv].
Qed.

End Loop.

Lemma list_sum_elem (x : nat) (l : list nat) : x ∈ l -> (x <= list_sum l)%nat.
Proof.
  induction l as [|y l IH]; intros H; [now apply elem_of_nil in H|].
  simpl. apply elem_of_cons in H as [->|H]; [lia|].
  specialize (IH H). lia.
Qed.

Lemma weight_pos (v : pyobj) : (1 <= weight v)%nat.
Proof. destruct v; cbn [weight]; lia. Qed.

Lemma list_sum_length (l : list nat) :
  Forall (fun x => 1 <= x)%nat l -> (length l <= list_sum l)%nat.
Proof.
  induction 1 as [|x l Hx _ IH]; [reflexivity|]. simpl. lia.
Qed.

Lemma length_le_weights {A} (w : A -> nat) (l : list A) :
  (forall x, 1 <= w x)%nat -> (length l <= list_sum (map w l))%nat.
Proof.
  intros Hw. induction l as [|x l IH]; [reflexivity|].
  simpl. specialize (Hw x). lia.
Qed.

Lemma weight_le_weights {A} (w : A -> nat) (l : list A) (x : A) :
  x ∈ l -> (w x <= list_sum (map w l))%nat.
Proof.
  intros H. apply list_sum_elem. apply list_elem_of_fmap. now exists x.
Qed.

(** The text of a list with an item at least, read. *)
Lemma scan_once_items (fuel level : nat) (x : pyobj) (l : list pyobj)
      (rest : string) :
  (list_sum (map weight (x :: l)) <= fuel)%nat ->
  Forall (fun y => forall level fuel rest,
            (weight y <= fuel)%nat -> ends_number rest = true ->
            scan_once fuel (dump level y +:+ rest) = Value (as_loaded y, rest))
         (x :: l) ->
  scan_once (S fuel)
    (("[" +:+ newline_indent (S level) +:+ dump (S level) x +:+
      items_tail (dump (S level)) ("," +:+ newline_indent (S level))
                 (newline_indent level +:+ "]") l) +:+ rest)
  = Value (PyList (map as_loaded (x :: l)), rest).
Proof.
  intros Hf IH.
  rewrite !app_assoc_s, items_tail_app, app_assoc_s, app_cons, app_nil_l.
  change ("]" +:+ rest) with (String "]" rest).
  set (tail := items_tail _ _ _ l).
  change (scan_once (S fuel) (String "[" (newline_indent (S level) +:+
                                          dump (S level) x +:+ tail)))
    with (match skip_ws (newline_indent (S level) +:+
                         dump (S level) x +:+ tail) with
          | String c' r =>
              if Ascii.eqb c' "]" then Value (PyList [], r)
              else
                and_then (array_items (scan_once fuel) fuel
                            (skip_ws (newline_indent (S level) +:+
                                      dump (S level) x +:+ tail)))
                  (fun vsr => Value (PyList vsr.1, vsr.2))
          | EmptyString => Malformed
          end).
  rewrite skip_ws_newline_indent.
  pose proof (dump_starts_value (S level) x tail) as Hs.
  rewrite (skip_ws_starts_value _ Hs).
  destruct (dump (S level) x +:+ tail) as [|c' r] eqn:Ed; [discriminate Hs|].
  cbn [starts_value] in Hs.
  destruct (Ascii.eqb c' "]"); [now rewrite andb_false_r in Hs|].
  rewrite <- Ed. subst tail.
  rewrite (array_items_dump (scan_once fuel) level l x fuel rest).
  - reflexivity.
  - pose proof (length_le_weights weight l weight_pos).
    pose proof (weight_pos x). simpl in Hf. lia.
  - apply Forall_forall. intros y Hy rest' Hr'.
    rewrite Forall_forall in IH. apply (IH y Hy); [|exact Hr'].
    pose proof (weight_le_weights weight (x :: l) y Hy). lia.
Qed.

(** The text of a dictionary with an item at least, read. *)
Lemma scan_once_members (fuel level : nat) (kv : string * pyobj)
      (d : list (string * pyobj)) (rest : string) :
  (list_sum (map (fun kv : string * pyobj => weight kv.2) (kv :: d))
   <= fuel)%nat ->
  Forall (fun kv : string * pyobj => forall level fuel rest,
            (weight kv.2 <= fuel)%nat -> ends_number rest = true ->
            scan_once fuel (dump level kv.2 +:+ rest)
            = Value (as_loaded kv.2, rest))
         (kv :: d) ->
  scan_once (S fuel) (dump level (PyDict (kv :: d)) +:+ rest)
  = Value (as_loaded (PyDict (kv :: d)), rest).
Proof.
  intros Hf IH. cbn [as_loaded map].
  change (dump level (PyDict (kv :: d)))
    with ("{" +:+ newline_indent (S level) +:+ member_text level kv +:+
          items_tail (member_text level) ("," +:+ newline_indent (S level))
                     (newline_indent level +:+ "}") d).
  set (M := member_text level kv).
  rewrite !app_assoc_s, items_tail_app, app_assoc_s, app_cons, app_nil_l.
  change ("}" +:+ rest) with (String "}" rest).
  set (tail := items_tail _ _ _ d).
  change (scan_once (S fuel) (String "{" (newline_indent (S level) +:+
                                          M +:+ tail)))
    with (match skip_ws (newline_indent (S level) +:+ M +:+ tail) with
          | String c' r =>
              if Ascii.eqb c' "}" then Value (PyDict [], r)
              else
                and_then (object_items (scan_once fuel) fuel
                            (skip_ws (newline_indent (S level) +:+
                                      M +:+ tail)))
                  (fun kvsr => Value (PyDict (dict_of_items kvsr.1), kvsr.2))
          | EmptyString => Malformed
          end).
  rewrite skip_ws_newline_indent.
  assert (Hh : exists r, M +:+ tail = String quote r).
  { subst M. rewrite member_shape. eauto. }
  assert (Hq : skip_ws (M +:+ tail) = M +:+ tail).
  { destruct Hh as [r ->]. reflexivity. }
  rewrite Hq.
  destruct Hh as [r Hh]. rewrite Hh at 1.
  change (Ascii.eqb quote "}") with false. cbv iota.
  subst tail M.
  rewrite (object_items_dump (scan_once fuel) level d kv fuel rest).
  - reflexivity.
  - pose proof (length_le_weights (fun kv : string * pyobj => weight kv.2) d
                  (fun kv => weight_pos kv.2)).
    pose proof (weight_pos kv.2). simpl in Hf. lia.
  - apply Forall_forall. intros y Hy rest' Hr'.
    rewrite Forall_forall in IH. apply (IH y Hy); [|exact Hr'].
    pose proof (weight_le_weights (fun kv : string * pyobj => weight kv.2)
                  (kv :: d) y Hy). lia.
Qed.

(** The scanner on the text of a value: with fuel for the values it is
    made of, it gives the value as it is read back, and the text that
    follows. *)
Lemma scan_once_dump (v : pyobj) :
  forall (level fuel : nat) (rest : string),
    (weight v <= fuel)%nat ->
    ends_number rest = true ->
    scan_once fuel (dump level v +:+ rest) = Value (as_loaded v, rest).
Proof.
  induction v as [ |b|z|s|l IHl|l IHl|d IHd] using pyobj_induction;
    intros level fuel rest Hf Hr;
    (destruct fuel as [|fuel];
     [pose proof (weight_pos PyNone); cbn [weight] in Hf; lia|]).
  - reflexivity.
  - destruct b; reflexivity.
  - cbn [dump as_loaded]. destruct (str_of_Z_head z) as (c & s & E & Hc).
    rewrite <- (scan_number_str_of_Z z rest Hr). rewrite E, app_cons.
    now apply scan_once_number.
  - apply scan_once_string.
  - destruct l as [|x l]; [reflexivity|].
    cbn [weight] in Hf. cbn [dump as_loaded].
    apply scan_once_items; [lia | exact IHl].
  - destruct l as [|x l]; [reflexivity|].
    cbn [weight] in Hf. cbn [dump as_loaded].
    apply scan_once_items; [lia | exact IHl].
  - destruct d as [|kv d]; [reflexivity|].
    cbn [weight] in Hf.
    apply scan_once_members; [lia | exact IHd].
Qed.

(** Every character written for a value counts towards the fuel. *)
Lemma str_of_Z_nonempty (z : Z) : (1 <= String.length (PyStr.str_of_Z z))%nat.
Proof.
  destruct (str_of_Z_head z) as (c & s & -> & _). cbn [String.length]. lia.
Qed.

Lemma items_tail_weight {A} (item : A -> string) (w : A -> nat)
      (separator closing : string) (l : list A) :
  Forall (fun x => w x <= String.length (item x))%nat l ->
  (list_sum (map w l) <=
   String.length (items_tail item separator closing l))%nat.
Proof.
  induction 1 as [|x l Hx _ IH]; simpl; [lia|].
  rewrite !length_app_s. lia.
Qed.

Lemma weight_dump (v : pyobj) :
  forall level, (weight v <= String.length (dump level v))%nat.
Proof.
  induction v as [ |b|z|s|l IHl|l IHl|d IHd] using pyobj_induction;
    intros level.
  - cbn. lia.
  - destruct b; cbn; lia.
  - apply str_of_Z_nonempty.
  - cbn [weight dump]. unfold encode_string. cbn [String.length]. lia.
  - destruct l as [|x l]; [cbn; lia|].
    apply Forall_cons in IHl as [Hx Hl].
    cbn [weight dump]. rewrite !length_app_s. simpl list_sum.
    pose proof (items_tail_weight (dump (S level)) weight
                  ("," +:+ newline_indent (S level))
                  (newline_indent level +:+ "]") l) as Ht.
    specialize (Hx (S level)).
    assert (Hl' : Forall (fun x => weight x <= String.length (dump (S level) x))%nat l).
    { eapply Forall_impl; [exact Hl|]. intros y Hy. apply Hy. }
    specialize (Ht Hl'). cbn [String.length]. lia.
  - destruct l as [|x l]; [cbn; lia|].
    apply Forall_cons in IHl as [Hx Hl].
    cbn [weight dump]. rewrite !length_app_s. simpl list_sum.
    pose proof (items_tail_weight (dump (S level)) weight
                  ("," +:+ newline_indent (S level))
                  (newline_indent level +:+ "]") l) as Ht.
    specialize (Hx (S level)).
    assert (Hl' : Forall (fun x => weight x <= String.length (dump (S level) x))%nat l).
    { eapply Forall_impl; [exact Hl|]. intros y Hy. apply Hy. }
    specialize (Ht Hl'). cbn [String.length]. lia.
  - destruct d as [|kv d]; [cbn; lia|].
    apply Forall_cons in IHd as [Hx Hd].
    cbn [weight dump]. cbv zeta. rewrite !length_app_s. simpl list_sum.
    pose proof (items_tail_weight
                  (fun kv : string * pyobj =>
                     encode_string kv.1 +:+ ": " +:+ dump (S level) kv.2)
                  (fun kv : string * pyobj => weight kv.2)
                  ("," +:+ newline_indent (S level))
                  (newline_indent level +:+ "}") d) as Ht.
    specialize (Hx (S level)).
    assert (Hd' : Forall (fun kv : string * pyobj =>
                            weight kv.2 <=
                            String.length
                              (encode_string kv.1 +:+ ": " +:+
                               dump (S level) kv.2))%nat d).
    { eapply Forall_impl; [exact Hd|]. intros y Hy. cbv beta.
      rewrite !length_app_s. specialize (Hy (S level)). lia. }
    specialize (Ht Hd'). cbn [String.length]. lia.
Qed.

(** Reading the text written for a value gives the value as it is read
    back. *)
Lemma loads_dump (v : pyobj) : loads (dump 0 v) = Value (as_loaded v).
Proof.
  unfold loads.
  pose proof (dump_starts_value 0 v EmptyString) as Hs.
  rewrite app_nil_r_s in Hs. rewrite (skip_ws_starts_value _ Hs).
  rewrite <- (app_nil_r_s (dump 0 v)) at 2.
  rewrite scan_once_dump; [reflexivity | apply weight_dump | reflexivity].
Qed.



(** Building a dictionary from items whose values are mapped. *)
Lemma dict_set_values {V W : Type} (f : V -> W) (k : string) (v : V)
      (d : list (string * V)) :
  dict_set k (f v) (map (fun kv : string * V => (kv.1, f kv.2)) d) =
  map (fun kv : string * V => (kv.1, f kv.2)) (dict_set k v d).
Proof.
  induction d as [|[k' v'] d IH]; [reflexivity|].
  cbn [map dict_set fst snd].
  destruct (decide (k = k')); [reflexivity|].
  cbn [map fst snd]. now rewrite IH.
Qed.

Lemma dict_of_items_values {V W : Type} (f : V -> W)
      (items : list (string * V)) :
  dict_of_items (map (fun kv : string * V => (kv.1, f kv.2)) items) =
  map (fun kv : string * V => (kv.1, f kv.2)) (dict_of_items items).
Proof.
  unfold dict_of_items.
  change (@nil (string * W))
    with (map (fun kv : string * V => (kv.1, f kv.2)) []) at 1.
  generalize (@nil (string * V)).
  induction items as [|[k v] items IH]; intros d; [reflexivity|].
  cbn [map fold_left fst snd]. now rewrite dict_set_values, IH.
Qed.

(** The text of a document is read back as the data the document is
    loaded as. *)
Lemma loads_text (j : Json.doc) :
  loads (Json.text j) = Value (obj_of_data (Json.loads j)).
Proof.
  unfold Json.text. rewrite loads_dump. f_equal.
  destruct j as [|ms]; [reflexivity|].
  cbn [obj_of_data as_loaded Json.loads]. f_equal.
  rewrite map_map. cbn [fst snd].
  rewrite (map_ext _ (fun kr : string * PullRequestRecord =>
                        (kr.1, obj_of_record kr.2)))
    by (intros [k r]; reflexivity).
  apply (dict_of_items_values obj_of_record).
Qed.


End JsonTextFacts.

(** ** The difference of two snapshots *)

Section DiffFacts.
Import DeepDiff.

Lemma diff_record_refl (k : string) (r : PullRequestRecord) :
  diff_record k r r = [].
Proof.
  unfold diff_record, fields. simpl. rewrite !decide_True by reflexivity.
  reflexivity.
Qed.



Lemma path_of_key_inj (k k' : string) :
  path_of_key k = path_of_key k' -> k = k'.
Proof.
  unfold path_of_key. intros E. apply (inj (String.append "root['")) in E.
  now apply (cut_at_last "'" k k' "]" "]") in E as [E _].
Qed.




(** The three kinds of a comparison key by key. *)
Lemma deeper_added (t1 t2 : Snapshot) :
  added_paths (diff_deeper t1 t2) = path_of_key <$> keys_added t1 t2.
Proof.
  unfold added_paths, report_items, diff_deeper, kind.
  destruct (keys_added t1 t2), (keys_removed t1 t2), (values_changed t1 t2);
    reflexivity.
Qed.

Lemma deeper_removed (t1 t2 : Snapshot) :
  removed_paths (diff_deeper t1 t2) = path_of_key <$> keys_removed t1 t2.
Proof.
  unfold removed_paths, report_items, diff_deeper, kind.
  destruct (keys_added t1 t2), (keys_removed t1 t2), (values_changed t1 t2);
    reflexivity.
Qed.

Lemma deeper_changes (t1 t2 : Snapshot) :
  changes (diff_deeper t1 t2) = values_changed t1 t2.
Proof.
  unfold changes, diff_deeper, kind.
  destruct (keys_added t1 t2), (keys_removed t1 t2), (values_changed t1 t2);
    reflexivity.
Qed.

Lemma deeper_changed (t1 t2 : Snapshot) :
  changed_paths (diff_deeper t1 t2) = (values_changed t1 t2).*1.
Proof.
  unfold changed_paths, report_items, diff_deeper, kind.
  destruct (keys_added t1 t2), (keys_removed t1 t2), (values_changed t1 t2);
    reflexivity.
Qed.

(** The two cases of a report on two dictionaries. *)
Lemma diff_close (t1 t2 : Snapshot) :
  too_distant t1 t2 = false -> diff (Some t1) (Some t2) = diff_deeper t1 t2.
Proof. intros E. unfold diff. now rewrite E. Qed.

Lemma diff_distant (t1 t2 : Snapshot) :
  too_distant t1 t2 = true -> diff (Some t1) (Some t2) = root_changed t1 t2.
Proof. intros E. unfold diff. now rewrite E. Qed.

Lemma diff_added (t1 t2 : Snapshot) :
  too_distant t1 t2 = false ->
  added_paths (diff (Some t1) (Some t2)) = path_of_key <$> keys_added t1 t2.
Proof. intros E. rewrite diff_close by exact E. apply deeper_added. Qed.

Lemma diff_removed (t1 t2 : Snapshot) :
  too_distant t1 t2 = false ->
  removed_paths (diff (Some t1) (Some t2)) =
  path_of_key <$> keys_removed t1 t2.
Proof. intros E. rewrite diff_close by exact E. apply deeper_removed. Qed.

Lemma diff_changes (t1 t2 : Snapshot) :
  too_distant t1 t2 = false ->
  changes (diff (Some t1) (Some t2)) = values_changed t1 t2.
Proof. intros E. rewrite diff_close by exact E. apply deeper_changes. Qed.

Lemma diff_changed (t1 t2 : Snapshot) :
  too_distant t1 t2 = false ->
  changed_paths (diff (Some t1) (Some t2)) = (values_changed t1 t2).*1.
Proof. intros E. rewrite diff_close by exact E. apply deeper_changed. Qed.

Lemma kind_names {A B} (name : string) (mk : list A -> entry)
      (mk' : list B -> entry) (l : list A) (l' : list B) :
  (l = [] <-> l' = []) -> (kind name mk l).*1 = (kind name mk' l').*1.
Proof.
  destruct l, l'; simpl; intros [H1 H2]; try reflexivity.
  - now specialize (H1 eq_refl).
  - now specialize (H2 eq_refl).
Qed.

(** The names a report can hold. *)
Lemma diff_names (t1 t2 : PyData) (name : string) :
  name ∈ (diff t1 t2).*1 ->
  name ∈ ["type_changes"; "dictionary_item_added";
          "dictionary_item_removed"; "values_changed"].
Proof.
  assert (T : forall {A} n (mk : list A -> entry) l x,
             x ∈ (kind n mk l).*1 -> x = n).
  { intros A n mk [|a l] x Hx; simpl in Hx.
    - now apply elem_of_nil in Hx.
    - now apply list_elem_of_singleton in Hx. }
  destruct t1 as [d1|], t2 as [d2|]; simpl; intros Hn;
    try (apply list_elem_of_singleton in Hn as ->; apply list_elem_of_here);
    try now apply elem_of_nil in Hn.
  destruct (too_distant d1 d2).
  { apply list_elem_of_singleton in Hn as ->.
    repeat first [apply list_elem_of_here | apply list_elem_of_further]. }
  unfold diff_deeper in Hn. rewrite !fmap_app, !elem_of_app in Hn.
  destruct Hn as [Hn|[Hn|Hn]]; apply T in Hn as ->;
    repeat first [apply list_elem_of_here | apply list_elem_of_further].
Qed.

Lemma keys_added_spec (t1 t2 : Snapshot) (k : string) :
  k ∈ keys_added t1 t2 <-> (k ∈ t2.*1) /\ (k ∉ t1.*1).
Proof. unfold keys_added. rewrite list_elem_of_filter. tauto. Qed.





(** Equal dictionaries have nothing to report. *)
Lemma values_changed_same (t1 t2 : Snapshot) :
  dict_eq t1 t2 -> values_changed t1 t2 = [].
Proof.
  intros E. unfold values_changed.
  induction (keys_common t1 t2) as [|k l IH]; simpl; [reflexivity|].
  rewrite IH, app_nil_r, (E k).
  destruct (dict_get k t2); [apply diff_record_refl | reflexivity].
Qed.

Lemma dict_eq_keys (t1 t2 : Snapshot) (k : string) :
  dict_eq t1 t2 -> (k ∈ t1.*1) <-> (k ∈ t2.*1).
Proof. intros E. now rewrite <- !dict_get_is_Some, (E k). Qed.

Lemma filter_none {A} (P : A -> Prop) `{forall x, Decision (P x)}
      (l : list A) :
  (forall x, x ∈ l -> ~ P x) -> filter P l = [].
Proof.
  induction l as [|x l IH]; intros Hl; [reflexivity|].
  rewrite filter_cons_False by (apply Hl, list_elem_of_here).
  apply IH. intros y Hy. apply Hl. now apply list_elem_of_further.
Qed.

Lemma filter_all {A} (P : A -> Prop) `{forall x, Decision (P x)}
      (l : list A) :
  (forall x, x ∈ l -> P x) -> filter P l = l.
Proof.
  induction l as [|x l IH]; intros Hl; [reflexivity|].
  rewrite filter_cons_True by (apply Hl, list_elem_of_here).
  f_equal. apply IH. intros y Hy. apply Hl. now apply list_elem_of_further.
Qed.

(** The sets of keys of a dictionary and of its reorderings. *)
Lemma key_set_NoDup (t : Snapshot) : NoDup (key_set t).
Proof. apply NoDup_remove_dups. Qed.

Lemma key_set_elem (t : Snapshot) (k : string) : k ∈ key_set t <-> k ∈ t.*1.
Proof. apply elem_of_remove_dups. Qed.

Lemma key_set_same (t t' : Snapshot) :
  (forall k, k ∈ t'.*1 <-> k ∈ t.*1) -> key_set t' ≡ₚ key_set t.
Proof.
  intros E. apply NoDup_Permutation; try apply key_set_NoDup.
  intros k. now rewrite !key_set_elem.
Qed.

Lemma keys_intersect_same (t1 t1' t2 t2' : Snapshot) :
  (forall k, k ∈ t1'.*1 <-> k ∈ t1.*1) ->
  (forall k, k ∈ t2'.*1 <-> k ∈ t2.*1) ->
  keys_intersect t1' t2' ≡ₚ keys_intersect t1 t2.
Proof.
  intros E1 E2. unfold keys_intersect.
  rewrite (list_filter_iff (fun k => k ∈ t1'.*1) (fun k => k ∈ t1.*1))
    by exact E1.
  now rewrite (key_set_same t2 t2' E2).
Qed.

Lemma keys_union_same (t1 t1' t2 t2' : Snapshot) :
  (forall k, k ∈ t1'.*1 <-> k ∈ t1.*1) ->
  (forall k, k ∈ t2'.*1 <-> k ∈ t2.*1) ->
  keys_union t1' t2' ≡ₚ keys_union t1 t2.
Proof.
  intros E1 E2. unfold keys_union.
  rewrite (list_filter_iff (fun k => k ∉ t1'.*1) (fun k => k ∉ t1.*1)).
  - now rewrite (key_set_same t1 t1' E1), (key_set_same t2 t2' E2).
  - intros k. now rewrite E1.
Qed.

(** The test looks at the sets of keys only. *)
Lemma too_distant_same (t1 t1' t2 t2' : Snapshot) :
  (forall k, k ∈ t1'.*1 <-> k ∈ t1.*1) ->
  (forall k, k ∈ t2'.*1 <-> k ∈ t2.*1) ->
  too_distant t1' t2' = too_distant t1 t2.
Proof.
  intros E1 E2. unfold too_distant.
  now rewrite (keys_union_same t1 t1' t2 t2' E1 E2),
              (keys_intersect_same t1 t1' t2 t2' E1 E2).
Qed.

Lemma too_distant_Permutation (t1 t1' t2 t2' : Snapshot) :
  t1' ≡ₚ t1 -> t2' ≡ₚ t2 -> too_distant t1' t2' = too_distant t1 t2.
Proof.
  intros P1 P2. apply too_distant_same; intros k.
  - now rewrite P1.
  - now rewrite P2.
Qed.

(** A dictionary is never too distant from itself. *)
Lemma too_distant_refl (t : Snapshot) : too_distant t t = false.
Proof.
  unfold too_distant, keys_union, keys_intersect.
  rewrite (filter_none (fun k => k ∉ t.*1)).
  2: { intros k Hk Hn. apply Hn. now apply key_set_elem. }
  rewrite app_nil_r.
  assert (E : filter (fun k => k ∈ t.*1) (key_set t) = key_set t).
  { apply filter_all. intros k Hk. now apply key_set_elem. }
  rewrite E. apply andb_false_intro2. apply Nat.ltb_ge. lia.
Qed.

Lemma too_distant_dict_eq (t1 t2 : Snapshot) :
  dict_eq t1 t2 -> too_distant t1 t2 = false.
Proof.
  intros E. rewrite <- (too_distant_refl t2).
  apply too_distant_same; intros k; [|reflexivity].
  apply (dict_eq_keys t1 t2 k E).
Qed.

Lemma diff_dict_eq (t1 t2 : Snapshot) :
  dict_eq t1 t2 -> diff (Some t1) (Some t2) = [].
Proof.
  intros E. rewrite diff_close by now apply too_distant_dict_eq.
  unfold diff_deeper.
  rewrite values_changed_same by assumption.
  unfold keys_added, keys_removed.
  rewrite !filter_none; [reflexivity|..].
  - intros k Hk Hn. apply Hn. now apply (dict_eq_keys t1 t2 k E).
  - intros k Hk Hn. apply Hn. now apply (dict_eq_keys t1 t2 k E).
Qed.

Lemma diff_refl (data : PyData) : diff data data = [].
Proof.
  destruct data as [d|]; [|reflexivity].
  apply diff_dict_eq. intros k. reflexivity.
Qed.

(** Reordering the snapshots. *)
Lemma keys_added_Permutation (t1 t1' t2 t2' : Snapshot) :
  t1' ≡ₚ t1 -> t2' ≡ₚ t2 -> keys_added t1' t2' ≡ₚ keys_added t1 t2.
Proof.
  intros P1 P2. unfold keys_added.
  rewrite (list_filter_iff (fun k => k ∉ t1'.*1) (fun k => k ∉ t1.*1)).
  - now rewrite P2.
  - intros k. now rewrite P1.
Qed.

Lemma keys_added_previous (t1 t1' t2 : Snapshot) :
  t1' ≡ₚ t1 -> keys_added t1' t2 = keys_added t1 t2.
Proof.
  intros P1. unfold keys_added. apply list_filter_iff.
  intros k. now rewrite P1.
Qed.

Lemma keys_removed_Permutation (t1 t1' t2 t2' : Snapshot) :
  t1' ≡ₚ t1 -> t2' ≡ₚ t2 -> keys_removed t1' t2' ≡ₚ keys_removed t1 t2.
Proof.
  intros P1 P2. unfold keys_removed.
  rewrite (list_filter_iff (fun k => k ∉ t2'.*1) (fun k => k ∉ t2.*1)).
  - now rewrite P1.
  - intros k. now rewrite P2.
Qed.

Lemma keys_common_Permutation (t1 t1' t2 t2' : Snapshot) :
  t1' ≡ₚ t1 -> t2' ≡ₚ t2 -> keys_common t1' t2' ≡ₚ keys_common t1 t2.
Proof.
  intros P1 P2. unfold keys_common.
  rewrite (list_filter_iff (fun k => k ∈ t1'.*1) (fun k => k ∈ t1.*1)).
  - now rewrite P2.
  - intros k. now rewrite P1.
Qed.

Lemma keys_common_previous (t1 t1' t2 : Snapshot) :
  t1' ≡ₚ t1 -> keys_common t1' t2 = keys_common t1 t2.
Proof.
  intros P1. unfold keys_common. apply list_filter_iff.
  intros k. now rewrite P1.
Qed.

Lemma values_changed_previous (t1 t1' t2 : Snapshot) :
  NoDup t1.*1 -> t1' ≡ₚ t1 -> values_changed t1' t2 = values_changed t1 t2.
Proof.
  intros ND P1. unfold values_changed.
  rewrite (keys_common_previous t1 t1' t2 P1).
  apply flat_map_ext. intros k.
  now rewrite (dict_get_Permutation k t1 t1' ND).
Qed.

Lemma values_changed_Permutation (t1 t1' t2 t2' : Snapshot) :
  NoDup t1.*1 -> NoDup t2.*1 -> t1' ≡ₚ t1 -> t2' ≡ₚ t2 ->
  values_changed t1' t2' ≡ₚ values_changed t1 t2.
Proof.
  intros ND1 ND2 P1 P2. unfold values_changed.
  rewrite (keys_common_Permutation t1 t1' t2 t2' P1 P2).
  erewrite flat_map_ext; [reflexivity|].
  intros k. simpl.
  now rewrite (dict_get_Permutation k t1 t1' ND1),
              (dict_get_Permutation k t2 t2' ND2).
Qed.

Lemma Permutation_nil_iff {A} (l l' : list A) :
  l ≡ₚ l' -> l = [] <-> l' = [].
Proof.
  intros P. split; intros ->.
  - now apply Permutation_nil_l in P.
  - now apply Permutation_nil_r in P.
Qed.

Lemma value_eq_refl (v : value) : value_eq v v.
Proof. destruct v; simpl; try reflexivity. intros k. reflexivity. Qed.

Lemma change_eq_refl (c : string * change) : change_eq c c.
Proof. repeat split; apply value_eq_refl. Qed.

Lemma Forall2_change_eq_refl (cs : list (string * change)) :
  Forall2 change_eq cs cs.
Proof. induction cs; constructor; [apply change_eq_refl | assumption]. Qed.

Lemma dict_eq_Permutation (t t' : Snapshot) :
  NoDup t.*1 -> t' ≡ₚ t -> dict_eq t' t.
Proof.
  intros ND P k. symmetry. now apply dict_get_Permutation.
Qed.

(** The one change reported for two distant dictionaries and for their
    reorderings. *)
Lemma root_changed_eq (t1 t1' t2 t2' : Snapshot) :
  NoDup t1.*1 -> NoDup t2.*1 -> t1' ≡ₚ t1 -> t2' ≡ₚ t2 ->
  Forall2 change_eq (changes (root_changed t1' t2'))
                    (changes (root_changed t1 t2)).
Proof.
  intros ND1 ND2 P1 P2. unfold root_changed, changes. simpl.
  constructor; [|constructor].
  split; [reflexivity|]. split; simpl; now apply dict_eq_Permutation.
Qed.

Lemma deeper_names (t1 t1' t2 t2' : Snapshot) :
  keys_added t1' t2' ≡ₚ keys_added t1 t2 ->
  keys_removed t1' t2' ≡ₚ keys_removed t1 t2 ->
  values_changed t1' t2' ≡ₚ values_changed t1 t2 ->
  (diff_deeper t1' t2').*1 = (diff_deeper t1 t2).*1.
Proof.
  intros Pa Pr Pc. unfold diff_deeper. rewrite !fmap_app. f_equal; [|f_equal].
  - apply kind_names, Permutation_nil_iff. now rewrite Pa.
  - apply kind_names, Permutation_nil_iff. now rewrite Pr.
  - now apply kind_names, Permutation_nil_iff.
Qed.

Lemma diff_same_delta (t1 t1' t2 t2' : Snapshot) :
  NoDup t1.*1 -> NoDup t2.*1 -> t1' ≡ₚ t1 -> t2' ≡ₚ t2 ->
  same_delta (diff (Some t1') (Some t2')) (diff (Some t1) (Some t2)).
Proof.
  intros ND1 ND2 P1 P2.
  pose proof (too_distant_Permutation t1 t1' t2 t2' P1 P2) as Et.
  destruct (too_distant t1 t2) eqn:E.
  - rewrite !diff_distant by congruence.
    split; [reflexivity|]. split; [reflexivity|]. split; [reflexivity|].
    eexists. split; [reflexivity|]. now apply root_changed_eq.
  - rewrite !diff_close by congruence.
    pose proof (keys_added_Permutation t1 t1' t2 t2' P1 P2) as Pa.
    pose proof (keys_removed_Permutation t1 t1' t2 t2' P1 P2) as Pr.
    pose proof (values_changed_Permutation t1 t1' t2 t2' ND1 ND2 P1 P2) as Pc.
    split; [now apply deeper_names|].
    rewrite !deeper_added, !deeper_removed, !deeper_changes.
    split; [now rewrite Pa|]. split; [now rewrite Pr|].
    eexists. split; [exact Pc | apply Forall2_change_eq_refl].
Qed.

(** Reordering the previous snapshot only: the kinds, the added paths
    and the changes keep their order. *)
Lemma diff_previous_reordered (t1 t1' t2 : Snapshot) :
  NoDup t1.*1 -> t1' ≡ₚ t1 ->
  let r' := diff (Some t1') (Some t2) in
  let r := diff (Some t1) (Some t2) in
  r'.*1 = r.*1 /\
  added_paths r' = added_paths r /\
  removed_paths r' ≡ₚ removed_paths r /\
  Forall2 change_eq (changes r') (changes r).
Proof.
  intros ND1 P1. cbv zeta.
  assert (P2 : t2 ≡ₚ t2) by reflexivity.
  pose proof (too_distant_Permutation t1 t1' t2 t2 P1 P2) as Et.
  destruct (too_distant t1 t2) eqn:E.
  - rewrite !diff_distant by congruence.
    split; [reflexivity|]. split; [reflexivity|]. split; [reflexivity|].
    unfold root_changed, changes. simpl. constructor; [|constructor].
    split; [reflexivity|]. split; simpl.
    + intros k. reflexivity.
    + now apply dict_eq_Permutation.
  - rewrite !diff_close by congruence.
    pose proof (keys_added_previous t1 t1' t2 P1) as Pa.
    pose proof (keys_removed_Permutation t1 t1' t2 t2 P1 P2) as Pr.
    pose proof (values_changed_previous t1 t1' t2 ND1 P1) as Pc.
    split; [apply deeper_names; now rewrite ?Pa, ?Pc|].
    rewrite !deeper_added, !deeper_removed, !deeper_changes.
    split; [now rewrite Pa|]. split; [now rewrite Pr|].
    rewrite Pc. apply Forall2_change_eq_refl.
Qed.

End DiffFacts.

(** ** Running the program *)

Section RunFacts.

Lemma bind_eval {A B} (m : M A) (k : A -> M B) (w w' : World) (a : A) :
  m w = (Ret a, w') -> bind m k w = k a w'.
Proof. intros E. unfold bind. now rewrite E. Qed.

Lemma for_each_skip {A} (l : list A) (body : A -> M unit) (w : World) :
  (forall x, x ∈ l -> forall w', body x w' = (Ret tt, w')) ->
  for_each l body w = (Ret tt, w).
Proof.
  induction l as [|x l IH]; intros Hl; [reflexivity|].
  simpl. unfold bind. rewrite Hl by apply list_elem_of_here.
  apply IH. intros y Hy. apply Hl. now apply list_elem_of_further.
Qed.

Lemma for_each_app {A} (l1 l2 : list A) (body : A -> M unit) (w : World) :
  for_each (l1 ++ l2) body w =
  (for_each l1 body ;; for_each l2 body) w.
Proof.
  revert w. induction l1 as [|x l1 IH]; intros w; simpl.
  - reflexivity.
  - unfold bind in *. destruct (body x w) as [[[]|e] w1]; [|reflexivity].
    apply IH.
Qed.

Lemma published_snoc (tr : list (Z * event)) (te : Z * event) :
  published (tr ++ [te]) =
  published tr ++ match post_text te with Some t => [t] | None => [] end.
Proof. unfold published. rewrite omap_app. simpl. now destruct (post_text te). Qed.

(** One iteration of the inner loop. *)
Lemma announce_run (sv : Services) (cur : Snapshot) (index : string)
      (r : PullRequestRecord) (ck cs tk ts : string) (w : World) :
  dict_get (parse_index index) cur = Some r ->
  environ sv !! "CONSUMER_KEY" = Some ck ->
  environ sv !! "CONSUMER_SECRET" = Some cs ->
  environ sv !! "ACCESS_TOKEN" = Some tk ->
  environ sv !! "ACCESS_TOKEN_SECRET" = Some ts ->
  exists w',
    announce sv (Some cur) index w = (Ret tt, w') /\
    files w' = files w /\
    clock w' = clock w + 10 /\
    published (trace w') = published (trace w) ++ [tweet_text r].
Proof.
  intros Hr Hck Hcs Htk Hts.
  unfold announce, bind, subscript, os_environ, post_tweet, bind,
    twitter_post, logging_info, logging_error, emit, time_sleep, ret.
  rewrite Hr, Hck, Hcs, Htk, Hts. simpl.
  destruct (twitter sv _ _); simpl; eexists; (split; [reflexivity|]);
    simpl; repeat split; rewrite !published_snoc; simpl;
    now rewrite !app_nil_r.
Qed.

(** The inner loop over the added entries. *)
Lemma announce_all (sv : Services) (cur : Snapshot) (ck cs tk ts : string)
      (l : list (string * PullRequestRecord)) (w : World) :
  environ sv !! "CONSUMER_KEY" = Some ck ->
  environ sv !! "CONSUMER_SECRET" = Some cs ->
  environ sv !! "ACCESS_TOKEN" = Some tk ->
  environ sv !! "ACCESS_TOKEN_SECRET" = Some ts ->
  (forall k r, (k, r) ∈ l ->
     dict_get k cur = Some r /\ PyStr.all_chars PyStr.decimal_char k = true) ->
  exists w',
    for_each (DeepDiff.path_of_key <$> l.*1) (announce sv (Some cur)) w
    = (Ret tt, w') /\
    files w' = files w /\
    published (trace w') = published (trace w) ++ (tweet_text <$> l.*2).
Proof.
  intros Hck Hcs Htk Hts. revert w.
  induction l as [|[k r] l IH]; intros w Hl.
  - exists w. simpl. now rewrite app_nil_r.
  - destruct (Hl k r (list_elem_of_here _ _)) as [Hr Hk].
    apply decimal_plain in Hk as [Hb Hq].
    destruct (announce_run sv cur (DeepDiff.path_of_key k) r ck cs tk ts w)
      as (w1 & E1 & F1 & _ & P1); try assumption.
    { now rewrite parse_index_path. }
    destruct (IH w1) as (w2 & E2 & F2 & P2).
    { intros k' r' Hin. apply Hl. now apply list_elem_of_further. }
    exists w2. rewrite !fmap_cons. cbn [for_each fst snd].
    unfold bind. rewrite E1, E2. repeat split.
    + now rewrite F2.
    + rewrite P2, P1, <- app_assoc. reflexivity.
Qed.

Lemma keys_added_records (prev cur : Snapshot) :
  DeepDiff.keys_added prev cur =
  (filter (fun kv : string * PullRequestRecord => kv.1 ∉ prev.*1) cur).*1.
Proof.
  unfold DeepDiff.keys_added.
  induction cur as [|[k r] cur IH]; [reflexivity|].
  rewrite fmap_cons. cbn [fst].
  destruct (decide (k ∉ prev.*1)) as [Hk|Hk].
  - rewrite (filter_cons_True _ k) by exact Hk.
    rewrite (filter_cons_True _ (k, r)) by exact Hk.
    rewrite fmap_cons. cbn [fst]. f_equal. exact IH.
  - rewrite (filter_cons_False _ k) by exact Hk.
    rewrite (filter_cons_False _ (k, r)) by exact Hk.
    exact IH.
Qed.

Lemma skip_kind {A} (sv : Services) (data : PyData)
      (result : DeepDiff.report) (name : string)
      (mk : list A -> DeepDiff.entry) (l : list A) (w : World) :
  PyStr.contains "added" name = false ->
  for_each (DeepDiff.kind name mk l)
    (fun kv =>
       if PyStr.contains "added" kv.1 then
         let* added := report_get result "dictionary_item_added" in
         logging_info
           (PyStr.str_of_Z (Z.of_nat (length (entry_items added))) +:+
            " new RFC(s)! Parsing data, please wait...") ;;
         let* added := report_get result "dictionary_item_added" in
         for_each (entry_items added) (announce sv data)
       else ret tt) w
  = (Ret tt, w).
Proof.
  intros Hn. apply for_each_skip. intros [n e] Hx w'.
  destruct l; simpl in Hx; [now apply elem_of_nil in Hx|].
  apply list_elem_of_singleton in Hx as [= -> ->]. simpl. now rewrite Hn.
Qed.

(** The loops under [if result:] on a comparison key by key: one post
    for each added record, in the order of the fetched snapshot,
    whatever the publishing service answers. *)
Lemma notify_deeper (sv : Services) (prev cur : Snapshot)
      (ck cs tk ts : string) (w : World) :
  environ sv !! "CONSUMER_KEY" = Some ck ->
  environ sv !! "CONSUMER_SECRET" = Some cs ->
  environ sv !! "ACCESS_TOKEN" = Some tk ->
  environ sv !! "ACCESS_TOKEN_SECRET" = Some ts ->
  NoDup cur.*1 ->
  Forall (fun k => PyStr.all_chars PyStr.decimal_char k = true) cur.*1 ->
  exists w',
    notify sv (Some cur) (DeepDiff.diff_deeper prev cur) w
    = (Ret tt, w') /\
    files w' = files w /\
    published (trace w') =
      published (trace w) ++ (tweet_text <$> added_records prev cur).
Proof.
  intros Hck Hcs Htk Hts ND Hplain.
  unfold notify, added_records.
  set (l := filter (fun kv : string * PullRequestRecord => kv.1 ∉ prev.*1) cur).
  assert (Hl : forall k r, (k, r) ∈ l ->
            dict_get k cur = Some r /\
            PyStr.all_chars PyStr.decimal_char k = true).
  { intros k r Hin. apply list_elem_of_filter in Hin as [_ Hin]. split.
    - now apply dict_get_NoDup.
    - rewrite Forall_forall in Hplain. apply Hplain.
      apply list_elem_of_fmap. now exists (k, r). }
  assert (Hrest : forall w0,
            for_each
              (DeepDiff.kind "dictionary_item_removed" DeepDiff.Paths
                 (map DeepDiff.path_of_key (DeepDiff.keys_removed prev cur)) ++
               DeepDiff.kind "values_changed" DeepDiff.ValuesChanged
                 (DeepDiff.values_changed prev cur))
              (fun kv =>
                 if PyStr.contains "added" kv.1 then
                   let* added :=
                     report_get (DeepDiff.diff_deeper prev cur)
                                "dictionary_item_added" in
                   logging_info
                     (PyStr.str_of_Z
                        (Z.of_nat (length (entry_items added))) +:+
                      " new RFC(s)! Parsing data, please wait...") ;;
                   let* added :=
                     report_get (DeepDiff.diff_deeper prev cur)
                                "dictionary_item_added" in
                   for_each (entry_items added) (announce sv (Some cur))
                 else ret tt) w0
            = (Ret tt, w0)).
  { intros w0. rewrite for_each_app.
    erewrite bind_eval by (now apply skip_kind).
    now apply skip_kind. }
  unfold DeepDiff.diff_deeper at 1. rewrite keys_added_records. fold l.
  rewrite for_each_app. unfold bind at 1.
  destruct l as [|kr l'] eqn:El.
  - simpl DeepDiff.kind at 1. simpl for_each at 1.
    unfold ret at 1. rewrite Hrest.
    exists w. simpl. now rewrite app_nil_r.
  - assert (Eg : dict_get "dictionary_item_added"
                   (DeepDiff.diff_deeper prev cur)
                 = Some (DeepDiff.Paths
                           (DeepDiff.path_of_key <$> (kr :: l').*1))).
    { unfold DeepDiff.diff_deeper. rewrite keys_added_records. fold l.
      rewrite El. reflexivity. }
    destruct (announce_all sv cur ck cs tk ts (kr :: l')
                {| files := files w; clock := clock w;
                   trace := trace w ++
                     [(clock w,
                       Logged INFO
                         (PyStr.str_of_Z
                            (Z.of_nat
                               (length (DeepDiff.path_of_key <$> (kr :: l').*1)))
                          +:+ " new RFC(s)! Parsing data, please wait..."))]
                |})
      as (w1 & E1 & F1 & P1); try assumption.
    change (map DeepDiff.path_of_key (kr :: l').*1)
      with (DeepDiff.path_of_key <$> (kr :: l').*1).
    remember (DeepDiff.path_of_key <$> (kr :: l').*1) as ps eqn:Ep.
    destruct ps as [|p ps]; [discriminate Ep|].
    unfold DeepDiff.kind at 1. cbn [for_each].
    unfold bind at 1. cbn [fst].
    change (PyStr.contains "added" "dictionary_item_added") with true.
    cbv iota. unfold bind at 1. unfold report_get at 1. rewrite Eg.
    unfold ret at 1. unfold bind at 1.
    unfold logging_info at 1, emit at 1.
    unfold bind at 1. unfold report_get at 1. rewrite Eg.
    unfold ret at 1. cbn [entry_items].
    rewrite E1. unfold ret at 1.
    rewrite Hrest.
    exists w1. split; [reflexivity|]. split; [exact F1|].
    rewrite P1. simpl. rewrite published_snoc. simpl.
    now rewrite app_nil_r.
Qed.

(** The loops under [if result:] on the report of two dictionaries. *)
Lemma notify_run (sv : Services) (prev cur : Snapshot)
      (ck cs tk ts : string) (w : World) :
  environ sv !! "CONSUMER_KEY" = Some ck ->
  environ sv !! "CONSUMER_SECRET" = Some cs ->
  environ sv !! "ACCESS_TOKEN" = Some tk ->
  environ sv !! "ACCESS_TOKEN_SECRET" = Some ts ->
  NoDup cur.*1 ->
  Forall (fun k => PyStr.all_chars PyStr.decimal_char k = true) cur.*1 ->
  exists w',
    notify sv (Some cur) (DeepDiff.diff (Some prev) (Some cur)) w
    = (Ret tt, w') /\
    files w' = files w /\
    published (trace w') =
      published (trace w) ++ (tweet_text <$> reported_added prev cur).
Proof.
  intros Hck Hcs Htk Hts ND Hplain. unfold reported_added.
  destruct (DeepDiff.too_distant prev cur) eqn:E.
  - rewrite diff_distant by exact E. exists w.
    split; [reflexivity|]. split; [reflexivity|]. simpl. now rewrite app_nil_r.
  - rewrite diff_close by exact E. now apply (notify_deeper sv prev cur ck cs tk ts).
Qed.

(** The difference with the cache: a missing file is created and
    nothing is reported; otherwise the file is read and compared. *)
Lemma get_cache_difference_run (filename : string) (data : PyData)
      (w : World) :
  CacheManager.get_cache_difference filename data w =
  match files w !! filename with
  | Some j => (Ret (DeepDiff.diff (Json.loads j) data), w)
  | None => (Ret [], {| files := <[filename := Json.dumps data]> (files w);
                        clock := clock w; trace := trace w |})
  end.
Proof.
  unfold CacheManager.get_cache_difference, CacheManager.save_data_to_cache,
    CacheManager.load_data_from_cache, os_path_isfile, write_json, read_json,
    os_path_join, bind, ret.
  destruct (files w !! filename) as [j|] eqn:Ef.
  - rewrite bool_decide_eq_true_2 by eauto. cbn [negb].
    rewrite Ef. now destruct (DeepDiff.diff (Json.loads j) data).
  - rewrite bool_decide_eq_false_2 by (intros [? ?]; discriminate).
    reflexivity.
Qed.

Lemma pull_requests_run (sv : Services) (owner repo : string) (w : World) :
  exists evs,
    published evs = [] /\
    pull_requests sv owner repo w =
    (Ret (fetched (github sv (listing_address owner repo))),
     {| files := files w; clock := clock w; trace := trace w ++ evs |}).
Proof.
  unfold pull_requests, fetched, requests_get, bind, logging_info,
    logging_error, emit, ret. cbn [files clock trace].
  fold (snapshot_of (json_body (github sv (listing_address owner repo)))).
  destruct (status_code (github sv (listing_address owner repo)) =? 200);
    cbn [files clock trace]; rewrite <- !app_assoc;
    eexists; (split; [|reflexivity]); reflexivity.
Qed.

(** The cycle up to the loops: the answer is fetched, compared with
    the file and written over it; nothing is posted. *)
Lemma cycle_run (sv : Services) (fs : gmap string Json.doc) (t0 : Z)
      (owner repo : string) :
  environ sv !! "REPO_OWNER" = Some owner ->
  environ sv !! "REPO" = Some repo ->
  let data := fetched (github sv (listing_address owner repo)) in
  exists tr,
    published tr = [] /\
    check_for_new_pr sv (start fs t0) =
    match cycle_delta fs data with
    | [] => ret tt
    | _ :: _ => notify sv data (cycle_delta fs data)
    end {| files := <[cache_file := Json.dumps data]> fs;
           clock := t0; trace := tr |}.
Proof.
  intros Ho Hr data.
  unfold check_for_new_pr, start, cycle_delta.
  unfold bind at 1. unfold logging_info at 1, emit at 1. cbn [files clock trace].
  unfold bind at 1. unfold os_environ at 1. rewrite Ho. unfold ret at 1.
  unfold bind at 1. unfold os_environ at 1. rewrite Hr. unfold ret at 1.
  unfold bind at 1.
  match goal with
  | |- context [pull_requests sv owner repo ?w] =>
      destruct (pull_requests_run sv owner repo w) as (evs & Pe & ->)
  end.
  fold data. unfold bind at 1. rewrite get_cache_difference_run.
  cbn [files clock trace].
  destruct (fs !! cache_file) as [j|] eqn:Ef.
  - unfold bind at 1. unfold CacheManager.save_data_to_cache, write_json.
    cbn [files clock trace]. eexists. split; [|reflexivity].
    unfold published in *. rewrite omap_app, Pe. reflexivity.
  - unfold bind at 1. unfold CacheManager.save_data_to_cache, write_json.
    cbn [files clock trace]. rewrite insert_insert_eq.
    eexists. split; [|reflexivity].
    unfold published in *. rewrite omap_app, Pe. reflexivity.
Qed.

End RunFacts.

(** ** Pacing of the posts *)

Section PacingFacts.

Lemma preserves_ret {A} (I : World -> Prop) (a : A) : preserves I (ret a).
Proof. intros w Hw. exact Hw. Qed.

Lemma preserves_raise {A} (I : World -> Prop) (e : exn) :
  preserves I (@raise A e).
Proof. intros w Hw. exact Hw. Qed.

Lemma preserves_bind {A B} (I : World -> Prop) (m : M A) (k : A -> M B) :
  preserves I m -> (forall a, preserves I (k a)) -> preserves I (bind m k).
Proof.
  intros Hm Hk w Hw. unfold bind. specialize (Hm w Hw).
  destruct (m w) as [[a|e] w']; simpl in *; [now apply Hk | assumption].
Qed.

Lemma preserves_for_each {A} (I : World -> Prop) (l : list A)
      (body : A -> M unit) :
  (forall x, preserves I (body x)) -> preserves I (for_each l body).
Proof.
  intros Hb. induction l as [|x l IH]; simpl.
  - apply preserves_ret.
  - apply preserves_bind; [apply Hb | intros _; exact IH].
Qed.

Lemma spaced_snoc (ts : list Z) (c : Z) :
  spaced ts -> Forall (fun t => t + 10 <= c) ts -> spaced (ts ++ [c]).
Proof.
  intros Hs Hf i t1 t2 H1 H2.
  apply lookup_snoc_Some in H2 as [[Hlt H2]|[Hi <-]].
  - rewrite lookup_app_l in H1 by lia. eauto.
  - rewrite lookup_app_l in H1 by lia.
    rewrite Forall_forall in Hf. apply Hf.
    now apply list_elem_of_lookup_2 in H1.
Qed.

Lemma paced_quiet (w w' : World) (evs : list (Z * event)) :
  trace w' = trace w ++ evs -> publish_times evs = [] ->
  clock w <= clock w' -> paced w -> paced w'.
Proof.
  intros Et Hq Hc [Hs Hf]. unfold paced, publish_times in *.
  rewrite Et, omap_app, Hq, app_nil_r. split; [assumption|].
  eapply Forall_impl; [exact Hf|]. intros t Ht. simpl in *. lia.
Qed.

Lemma paced_emit (e : event) :
  post_time (0, e) = None -> preserves paced (emit e).
Proof.
  intros He w Hw. eapply (paced_quiet w _ [(clock w, e)]);
    [reflexivity | | simpl; lia | assumption].
  unfold publish_times. simpl.
  unfold post_time in *. simpl in *. now destruct e.
Qed.

Lemma paced_logging_info (msg : string) : preserves paced (logging_info msg).
Proof. now apply paced_emit. Qed.

Lemma paced_logging_error (msg : string) :
  preserves paced (logging_error msg).
Proof. now apply paced_emit. Qed.

Lemma paced_os_environ (sv : Services) (name : string) :
  preserves paced (os_environ sv name).
Proof.
  unfold os_environ. destruct (environ sv !! name);
    [apply preserves_ret | apply preserves_raise].
Qed.

Lemma paced_write_json (path : string) (data : PyData) :
  preserves paced (write_json path data).
Proof.
  intros w Hw. eapply (paced_quiet w _ []);
    [simpl; now rewrite app_nil_r | reflexivity | simpl; lia | assumption].
Qed.

Lemma published_times_nil (tr : list (Z * event)) :
  published tr = [] -> publish_times tr = [].
Proof.
  unfold published, publish_times.
  induction tr as [|[t e] tr IH]; [reflexivity|].
  simpl. unfold post_text, post_time. simpl.
  destruct e; simpl; try exact IH. discriminate.
Qed.

Lemma paced_pull_requests (sv : Services) (owner repo : string) :
  preserves paced (pull_requests sv owner repo).
Proof.
  intros w Hw.
  destruct (pull_requests_run sv owner repo w) as (evs & Pe & ->).
  eapply (paced_quiet w _ evs);
    [reflexivity | now apply published_times_nil | simpl; lia | assumption].
Qed.

Lemma paced_get_cache_difference (filename : string) (data : PyData) :
  preserves paced (CacheManager.get_cache_difference filename data).
Proof.
  intros w Hw. rewrite get_cache_difference_run.
  destruct (files w !! filename); [assumption|].
  eapply (paced_quiet w _ []);
    [simpl; now rewrite app_nil_r | reflexivity | simpl; lia | assumption].
Qed.

(** A post followed by the sleep: the new post comes ten seconds or
    more after every earlier one, and is ten seconds old at the end. *)
Lemma paced_post_then_sleep (sv : Services) (text ck cs tk ts : string) :
  preserves paced (post_tweet sv text ck cs tk ts ;; time_sleep 10).
Proof.
  intros w [Hs Hf].
  unfold post_tweet, bind, twitter_post, logging_info, logging_error, emit,
    time_sleep, ret. cbn [files clock trace].
  destruct (twitter sv _ _); cbn [files clock trace snd];
    unfold paced, publish_times in *; cbn [clock trace];
    rewrite !omap_app; simpl; rewrite !app_nil_r;
    (split;
     [ now apply spaced_snoc
     | apply Forall_app; split;
       [ eapply Forall_impl; [exact Hf|]; intros t Ht; simpl in *; lia
       | apply Forall_singleton; lia ] ]).
Qed.

Lemma paced_announce (sv : Services) (data : PyData) (index : string) :
  preserves paced (announce sv data index).
Proof.
  unfold announce. apply preserves_bind.
  { unfold subscript. destruct data as [d|]; [|apply preserves_raise].
    destruct (dict_get _ d); [apply preserves_ret | apply preserves_raise]. }
  intros r. apply preserves_bind; [apply paced_logging_info|]. intros _.
  do 4 (apply preserves_bind; [apply paced_os_environ|]; intros ?).
  apply paced_post_then_sleep.
Qed.

Lemma paced_notify (sv : Services) (data : PyData)
      (result : DeepDiff.report) :
  preserves paced (notify sv data result).
Proof.
  unfold notify. apply preserves_for_each. intros [name e]. simpl.
  destruct (PyStr.contains "added" name); [|apply preserves_ret].
  assert (Hg : preserves paced (report_get result "dictionary_item_added")).
  { unfold report_get. destruct (dict_get _ result);
      [apply preserves_ret | apply preserves_raise]. }
  apply preserves_bind; [exact Hg|]. intros added.
  apply preserves_bind; [apply paced_logging_info|]. intros _.
  apply preserves_bind; [exact Hg|]. intros added'.
  apply preserves_for_each. intros index. apply paced_announce.
Qed.

Lemma paced_check_for_new_pr (sv : Services) :
  preserves paced (check_for_new_pr sv).
Proof.
  unfold check_for_new_pr.
  apply preserves_bind; [apply paced_logging_info|]. intros _.
  do 2 (apply preserves_bind; [apply paced_os_environ|]; intros ?).
  apply preserves_bind; [apply paced_pull_requests|]. intros data.
  apply preserves_bind; [apply paced_get_cache_difference|]. intros result.
  apply preserves_bind; [apply paced_write_json|]. intros _.
  destruct result; [apply preserves_ret | apply paced_notify].
Qed.

Lemma paced_start (fs : gmap string Json.doc) (t0 : Z) : paced (start fs t0).
Proof.
  unfold paced, start, publish_times. simpl. split; [|apply Forall_nil_2].
  intros i t1 t2 H1. now rewrite lookup_nil in H1.
Qed.

End PacingFacts.

(** ** The properties of the cycle *)

Section Claims.
Import DeepDiff.

Lemma diff_no_added (t1 t2 : PyData) :
  added_paths (diff t1 t2) = [] ->
  forall kv, kv ∈ diff t1 t2 -> PyStr.contains "added" kv.1 = false.
Proof.
  destruct t1 as [d1|], t2 as [d2|].
  - destruct (too_distant d1 d2) eqn:Et.
    { rewrite diff_distant by exact Et. intros _ kv Hin.
      now apply list_elem_of_singleton in Hin as ->. }
    rewrite diff_close by exact Et. rewrite deeper_added. intros E kv Hin.
    apply fmap_nil_inv in E. unfold diff_deeper in Hin. rewrite E in Hin.
    simpl in Hin. apply elem_of_app in Hin as [Hin|Hin].
    + destruct (keys_removed d1 d2); simpl in Hin;
        [now apply elem_of_nil in Hin|].
      now apply list_elem_of_singleton in Hin as ->.
    + destruct (values_changed d1 d2); simpl in Hin;
        [now apply elem_of_nil in Hin|].
      now apply list_elem_of_singleton in Hin as ->.
  - intros _ kv Hin. now apply list_elem_of_singleton in Hin as ->.
  - intros _ kv Hin. now apply list_elem_of_singleton in Hin as ->.
  - intros _ kv Hin. now apply elem_of_nil in Hin.
Qed.

Lemma notify_no_added (sv : Services) (data : PyData) (t1 t2 : PyData)
      (w : World) :
  added_paths (diff t1 t2) = [] ->
  notify sv data (diff t1 t2) w = (Ret tt, w).
Proof.
  intros E. unfold notify. apply for_each_skip. intros kv Hin w'.
  now rewrite (diff_no_added t1 t2 E kv Hin).
Qed.

(** A cycle whose answer is not a success writes [null] over the
    snapshot and posts nothing. *)
Lemma failed_fetch_run (sv : Services) (fs : gmap string Json.doc)
      (t0 : Z) (owner repo : string) :
  environ sv !! "REPO_OWNER" = Some owner ->
  environ sv !! "REPO" = Some repo ->
  status_code (github sv (listing_address owner repo)) <> 200 ->
  let w' := (check_for_new_pr sv (start fs t0)).2 in
  files w' = <[cache_file := Json.JNull]> fs /\ published (trace w') = [].
Proof.
  intros Ho Hr Hs.
  destruct (cycle_run sv fs t0 owner repo Ho Hr) as (tr & Pt & E).
  cbv zeta. rewrite E. clear E. unfold fetched.
  apply Z.eqb_neq in Hs. rewrite Hs. simpl Json.dumps.
  unfold cycle_delta. destruct (fs !! cache_file) as [j|]; [|now split].
  destruct (diff (Json.loads j) None) eqn:Ed; [now split|].
  rewrite <- Ed, notify_no_added; [now split|].
  destruct (Json.loads j); reflexivity.
Qed.

(** C1 (the code departs from the claim). A cycle whose fetch gets the
    answer 503 posts nothing, but it does not leave the snapshot file
    alone: [check_for_new_pr] hands the [None] of [pull_requests] to
    [save_data_to_cache], and the file that held pull request 1 holds
    [null] afterwards. The next cycle, whose fetch succeeds and sees a
    new pull request 2, compares its data with [null], gets a type
    change and posts nothing either. *)
Theorem failed_fetch_overwrites_snapshot :
  let fs := Sample.cached [("1", Sample.PR_A)] in
  let down := check_for_new_pr (Sample.services 503 []) (start fs 0) in
  let up :=
    check_for_new_pr
      (Sample.services 200 [Sample.item 1 Sample.PR_A;
                            Sample.item 2 Sample.PR_B])
      (start (files down.2) 3600) in
  down.1 = Ret tt /\
  published (trace down.2) = [] /\
  fs !! cache_file = Some (Json.JObject [("1", Sample.PR_A)]) /\
  files down.2 !! cache_file = Some Json.JNull /\
  up.1 = Ret tt /\
  published (trace up.2) = [] /\
  files up.2 !! cache_file =
    Some (Json.JObject [("1", Sample.PR_A); ("2", Sample.PR_B)]).
Proof. vm_compute. repeat split; reflexivity. Qed.

(** C2. First run: when the snapshot file does not exist, a cycle that
    fetches the snapshot [D] ends normally, posts nothing whatever [D]
    holds, and leaves [D] in the file (the other files are untouched,
    and loading the file gives [D]). [get_cache_difference] itself, on
    a missing file, writes its data and returns the empty report. *)
Theorem first_run_seeds_silently
        (sv : Services) (fs : gmap string Json.doc) (t0 : Z)
        (owner repo : string) :
  environ sv !! "REPO_OWNER" = Some owner ->
  environ sv !! "REPO" = Some repo ->
  status_code (github sv (listing_address owner repo)) = 200 ->
  fs !! cache_file = None ->
  let D := snapshot_of (json_body (github sv (listing_address owner repo))) in
  let run := check_for_new_pr sv (start fs t0) in
  run.1 = Ret tt /\
  published (trace run.2) = [] /\
  files run.2 = <[cache_file := Json.dumps D]> fs /\
  CacheManager.load_data_from_cache cache_file run.2 = (Ret D, run.2) /\
  (forall (filename : string) (data : PyData) (w : World),
      files w !! filename = None ->
      CacheManager.get_cache_difference filename data w =
      (Ret [], {| files := <[filename := Json.dumps data]> (files w);
                  clock := clock w; trace := trace w |})).
Proof.
  intros Ho Hr Hs Hf D run.
  destruct (cycle_run sv fs t0 owner repo Ho Hr) as (tr & Pt & E).
  subst run. rewrite E. clear E.
  unfold fetched, cycle_delta. rewrite Hs, Hf.
  change (200 =? 200) with true. cbv iota. fold D.
  unfold ret. cbn [fst snd files clock trace].
  repeat split; try assumption.
  - unfold CacheManager.load_data_from_cache, read_json.
    cbn [files]. rewrite lookup_insert_eq. f_equal. f_equal.
    apply loads_dumps. intros d Ed.
    destruct (snapshot_of_Some
                (json_body (github sv (listing_address owner repo))))
      as (d' & Ed' & ND & _).
    fold D in Ed'. congruence.
  - intros filename data w Hw.
    now rewrite get_cache_difference_run, Hw.
Qed.

Lemma first_run_seeds_silently_witness :
  let sv := Sample.services 200 [Sample.item 2 Sample.PR_B;
                                 Sample.item 1 Sample.PR_A] in
  let fs : gmap string Json.doc := ∅ in
  let D := Some [("1", Sample.PR_A); ("2", Sample.PR_B)] in
  let run := check_for_new_pr sv (start fs 0) in
  (environ sv !! "REPO_OWNER" = Some "polkadot-fellows" /\
   environ sv !! "REPO" = Some "RFCs" /\
   status_code (github sv (listing_address "polkadot-fellows" "RFCs")) = 200 /\
   fs !! cache_file = None) /\
  run.1 = Ret tt /\
  published (trace run.2) = [] /\
  files run.2 = <[cache_file := Json.dumps D]> fs /\
  CacheManager.load_data_from_cache cache_file run.2 = (Ret D, run.2).
Proof.
  cbv zeta. split; [repeat split; reflexivity|].
  pose proof (first_run_seeds_silently
                (Sample.services 200 [Sample.item 2 Sample.PR_B;
                                      Sample.item 1 Sample.PR_A])
                ∅ 0 "polkadot-fellows" "RFCs"
                eq_refl eq_refl eq_refl eq_refl) as (H1 & H2 & H3 & H4 & _).
  exact (conj H1 (conj H2 (conj H3 H4))).
Defined.

Lemma added_key_spec (previous current : Snapshot) (k : string) :
  added_key k (diff_deeper previous current) <->
  (k ∈ current.*1) /\ (k ∉ previous.*1).
Proof.
  unfold added_key. rewrite deeper_added, <- keys_added_spec. split.
  - intros H. apply list_elem_of_fmap in H as (k' & E & H).
    now apply path_of_key_inj in E as ->.
  - intros H. apply list_elem_of_fmap. now exists k.
Qed.


Lemma path_of_field_not_root (k f : string) : path_of_field k f <> "root".
Proof.
  unfold path_of_field, path_of_key. rewrite !app_assoc_s. discriminate.
Qed.

(** The report on two distant snapshots classifies no key. *)
Lemma diff_of_distant_snapshots (previous current : Snapshot) (k : string) :
  too_distant previous current = true ->
  let delta := diff (Some previous) (Some current) in
  delta = root_changed previous current /\
  ~ added_key k delta /\ ~ removed_key k delta /\ ~ changed_key k delta.
Proof.
  intros E. cbv zeta. rewrite diff_distant by exact E.
  split; [reflexivity|].
  unfold added_key, removed_key, changed_key, added_paths, removed_paths,
    changed_paths, report_items, root_changed. simpl.
  split; [apply not_elem_of_nil|]. split; [apply not_elem_of_nil|].
  intros (f & _ & Hin). apply list_elem_of_singleton in Hin.
  now apply path_of_field_not_root in Hin.
Qed.




(** C4. Diffing a snapshot against itself gives the empty report; and
    when the data held by the file equals the provided data (as
    dictionaries: the same keys with the same records, in any order),
    [get_cache_difference] returns the empty report and changes
    nothing. *)
Theorem diff_of_equal_snapshots_is_empty
        (filename : string) (data : PyData) (j : Json.doc) (w : World) :
  files w !! filename = Some j ->
  py_eq (Json.loads j) data ->
  CacheManager.get_cache_difference filename data w = (Ret [], w) /\
  diff data data = [].
Proof.
  intros Hf He. split; [|apply diff_refl].
  rewrite get_cache_difference_run, Hf. f_equal. f_equal.
  destruct (Json.loads j) as [d1|], data as [d2|]; try contradiction.
  - now apply diff_dict_eq.
  - reflexivity.
Qed.

Lemma diff_of_equal_snapshots_is_empty_witness :
  let j := Json.JObject [("1", Sample.PR_A); ("2", Sample.PR_B)] in
  let data := Some [("2", Sample.PR_B); ("1", Sample.PR_A)] in
  let w := start {[ cache_file := j ]} 0 in
  (files w !! cache_file = Some j /\ py_eq (Json.loads j) data) /\
  CacheManager.get_cache_difference cache_file data w = (Ret [], w) /\
  diff data data = [].
Proof.
  cbv zeta.
  assert (He : py_eq (Json.loads
                        (Json.JObject [("1", Sample.PR_A); ("2", Sample.PR_B)]))
                     (Some [("2", Sample.PR_B); ("1", Sample.PR_A)])).
  { intros k. simpl. repeat case_decide; congruence. }
  split; [split; [reflexivity | exact He]|].
  exact (diff_of_equal_snapshots_is_empty
           cache_file (Some [("2", Sample.PR_B); ("1", Sample.PR_A)])
           (Json.JObject [("1", Sample.PR_A); ("2", Sample.PR_B)])
           (start {[ cache_file :=
                       Json.JObject [("1", Sample.PR_A); ("2", Sample.PR_B)] ]}
                  0)
           eq_refl He).
Defined.

(** C5, as stated, does not hold. The report lists the removed paths
    in the order of the keys of the previous snapshot, and the result
    [get_cache_difference] returns holds them as a list. Writing the
    keys 1, 2, 3 of the previous snapshot in the order 2, 1, 3 turns the
    list of removed paths around, and the two results are not equal. *)
Lemma diff_lists_removed_paths_in_the_order_of_previous :
  let previous := [("1", Sample.PR_A); ("2", Sample.PR_B);
                   ("3", Sample.PR_C)] in
  let previous' := [("2", Sample.PR_B); ("1", Sample.PR_A);
                    ("3", Sample.PR_C)] in
  let current := [("3", Sample.PR_C)] in
  previous' ≡ₚ previous /\
  diff (Some previous) (Some current) =
    [("dictionary_item_removed", Paths ["root['1']"; "root['2']"])] /\
  diff (Some previous') (Some current) =
    [("dictionary_item_removed", Paths ["root['2']"; "root['1']"])] /\
  diff (Some previous') (Some current) <> diff (Some previous) (Some current) /\
  ~ report_eq (diff (Some previous') (Some current))
              (diff (Some previous) (Some current)).
Proof.
  cbv zeta. split; [apply perm_swap|].
  split; [reflexivity|]. split; [reflexivity|].
  split; [discriminate|].
  intros H. specialize (H "dictionary_item_removed").
  vm_compute in H. discriminate H.
Qed.

(** C5, amended. Listing the keys of the previous snapshot in another
    order gives the same delta but for the order in which the removed
    paths are listed: the same kinds in the same order, the same added
    paths in the same order, the same changes in the same order with
    equal values, and the same removed paths. When the keys of the
    current snapshot are reordered too, the kinds are the same and each
    holds the same content, in some order. *)
Theorem diff_ignores_key_order_but_for_the_listing
        (previous previous' current current' : Snapshot) :
  NoDup previous.*1 -> NoDup current.*1 ->
  previous' ≡ₚ previous -> current' ≡ₚ current ->
  let r := diff (Some previous) (Some current) in
  let r' := diff (Some previous') (Some current) in
  (r'.*1 = r.*1 /\
   added_paths r' = added_paths r /\
   removed_paths r' ≡ₚ removed_paths r /\
   Forall2 change_eq (changes r') (changes r)) /\
  same_delta (diff (Some previous') (Some current')) r.
Proof.
  intros ND1 ND2 P1 P2. cbv zeta. split.
  - now apply diff_previous_reordered.
  - now apply diff_same_delta.
Qed.

Lemma diff_ignores_key_order_but_for_the_listing_witness :
  let previous := [("1", Sample.PR_A); ("2", Sample.PR_B);
                   ("3", Sample.PR_C)] in
  let previous' := [("2", Sample.PR_B); ("1", Sample.PR_A);
                    ("3", Sample.PR_C)] in
  let current := [("2", Sample.PR_B_v2); ("3", Sample.PR_C);
                  ("4", Sample.PR_D)] in
  let current' := [("3", Sample.PR_C); ("2", Sample.PR_B_v2);
                   ("4", Sample.PR_D)] in
  let r := diff (Some previous) (Some current) in
  let r' := diff (Some previous') (Some current) in
  (NoDup previous.*1 /\ NoDup current.*1 /\
   previous' ≡ₚ previous /\ current' ≡ₚ current) /\
  (r'.*1 = r.*1 /\
   added_paths r' = added_paths r /\
   removed_paths r' ≡ₚ removed_paths r /\
   Forall2 change_eq (changes r') (changes r)) /\
  same_delta (diff (Some previous') (Some current')) r.
Proof.
  cbv zeta.
  assert (N1 : NoDup [("1", Sample.PR_A); ("2", Sample.PR_B);
                      ("3", Sample.PR_C)].*1).
  { apply (bool_decide_unpack _). vm_compute. reflexivity. }
  assert (N2 : NoDup [("2", Sample.PR_B_v2); ("3", Sample.PR_C);
                      ("4", Sample.PR_D)].*1).
  { apply (bool_decide_unpack _). vm_compute. reflexivity. }
  assert (P1 : [("2", Sample.PR_B); ("1", Sample.PR_A); ("3", Sample.PR_C)]
               ≡ₚ [("1", Sample.PR_A); ("2", Sample.PR_B);
                   ("3", Sample.PR_C)]).
  { apply perm_swap. }
  assert (P2 : [("3", Sample.PR_C); ("2", Sample.PR_B_v2);
                ("4", Sample.PR_D)]
               ≡ₚ [("2", Sample.PR_B_v2); ("3", Sample.PR_C);
                   ("4", Sample.PR_D)]).
  { apply perm_swap. }
  split; [repeat split; assumption|].
  exact (diff_ignores_key_order_but_for_the_listing _ _ _ _ N1 N2 P1 P2).
Defined.

(** C6. Only added entries notify: a cycle whose report holds no added
    entry (only removed or changed ones, or nothing) posts nothing.
    For previous = {1: PR_A} and current = {} the report holds the
    removed path of 1 and nothing else. *)
Theorem only_added_entries_notify
        (sv : Services) (fs : gmap string Json.doc) (t0 : Z)
        (owner repo : string) :
  environ sv !! "REPO_OWNER" = Some owner ->
  environ sv !! "REPO" = Some repo ->
  added_paths
    (cycle_delta fs (fetched (github sv (listing_address owner repo)))) = [] ->
  published (trace (check_for_new_pr sv (start fs t0)).2) = [] /\
  (forall PR_A : PullRequestRecord,
      diff (Some [("1", PR_A)]) (Some []) =
      [("dictionary_item_removed", Paths ["root['1']"])]).
Proof.
  intros Ho Hr Ha. split; [|reflexivity].
  destruct (cycle_run sv fs t0 owner repo Ho Hr) as (tr & Pt & E).
  cbv zeta in E. rewrite E. clear E.
  unfold cycle_delta in *. destruct (fs !! cache_file) as [j|]; [|exact Pt].
  destruct (diff (Json.loads j) _) eqn:Ed; [exact Pt|].
  rewrite <- Ed in *. now rewrite notify_no_added.
Qed.

Lemma only_added_entries_notify_witness :
  let sv := Sample.services 200 [] in
  let fs := Sample.cached [("1", Sample.PR_A)] in
  (environ sv !! "REPO_OWNER" = Some "polkadot-fellows" /\
   environ sv !! "REPO" = Some "RFCs" /\
   added_paths
     (cycle_delta fs
        (fetched (github sv (listing_address "polkadot-fellows" "RFCs"))))
   = []) /\
  published (trace (check_for_new_pr sv (start fs 0)).2) = [] /\
  (forall PR_A : PullRequestRecord,
      diff (Some [("1", PR_A)]) (Some []) =
      [("dictionary_item_removed", Paths ["root['1']"])]).
Proof.
  cbv zeta. split; [repeat split; reflexivity|].
  exact (only_added_entries_notify
           (Sample.services 200 []) (Sample.cached [("1", Sample.PR_A)]) 0
           "polkadot-fellows" "RFCs" eq_refl eq_refl eq_refl).
Defined.

Example two_posts_ten_apart :
  let sv := Sample.services 200 [Sample.item 1 Sample.PR_A;
                                 Sample.item 2 Sample.PR_B;
                                 Sample.item 3 Sample.PR_C] in
  let run :=
    check_for_new_pr sv (start (Sample.cached [("3", Sample.PR_C)]) 100) in
  published (trace run.2) = tweet_text <$> [Sample.PR_A; Sample.PR_B] /\
  publish_times (trace run.2) = [100; 110] /\
  clock run.2 = 120.
Proof. vm_compute. repeat split; reflexivity. Qed.

(** C7. In every run, two consecutive calls of the publishing service
    are at least ten seconds apart on the clock that [time.sleep]
    moves. *)
Theorem consecutive_posts_are_spaced
        (sv : Services) (fs : gmap string Json.doc) (t0 : Z) :
  spaced (publish_times (trace (check_for_new_pr sv (start fs t0)).2)).
Proof.
  apply (paced_check_for_new_pr sv (start fs t0)). apply paced_start.
Qed.

Lemma post_tweet_failure (sv : Services) (text ck cs tk ts : string)
      (w : World) :
  (forall msg,
      twitter sv (length (published (trace w))) text = RaisedValueError msg ->
      exists w',
        post_tweet sv text ck cs tk ts w = (Ret None, w') /\
        errors_logged (trace w') =
          errors_logged (trace w) ++ ["Invalid data input: " +:+ msg]) /\
  (forall msg,
      twitter sv (length (published (trace w))) text = RaisedException msg ->
      exists w',
        post_tweet sv text ck cs tk ts w = (Ret None, w') /\
        errors_logged (trace w') =
          errors_logged (trace w) ++ ["An error occurred: " +:+ msg]) /\
  (forall body,
      twitter sv (length (published (trace w))) text = Answered body ->
      exists w',
        post_tweet sv text ck cs tk ts w = (Ret (Some body), w') /\
        errors_logged (trace w') = errors_logged (trace w)).
Proof.
  split; [|split]; intros msg Hm;
    unfold post_tweet, bind, twitter_post, logging_info, logging_error,
      emit, ret; cbn [files clock trace];
    rewrite published_snoc; cbn [post_text snd]; rewrite app_nil_r, Hm;
    eexists; (split; [reflexivity|]);
    unfold errors_logged; cbn [trace]; rewrite !omap_app; simpl;
    now rewrite !app_nil_r.
Qed.

Lemma app_nil_inv_r {A} (l l' : list A) : l = l ++ l' -> l' = [].
Proof.
  intros E. apply (f_equal length) in E. rewrite length_app in E.
  destruct l'; [reflexivity | simpl in E; lia].
Qed.

(** C8. A failure of the publishing service does not stop the loop:
    whatever the service does at each call (answer, or raise), the
    cycle ends normally and has called it once for every record the
    report lists as added, in order; and a call that raises makes
    [post_tweet] log an error and return [None]. A failure here is an
    exception raised by the request. A call that is answered, be it with
    a refusal (an authentication or rate-limit status), is not one:
    [post_tweet] returns the answer and logs no error. *)
Theorem publishing_failure_does_not_abort
        (sv : Services) (fs : gmap string Json.doc) (t0 : Z)
        (owner repo ck cs tk ts : string) (j : Json.doc)
        (previous current : Snapshot) :
  environ sv !! "REPO_OWNER" = Some owner ->
  environ sv !! "REPO" = Some repo ->
  environ sv !! "CONSUMER_KEY" = Some ck ->
  environ sv !! "CONSUMER_SECRET" = Some cs ->
  environ sv !! "ACCESS_TOKEN" = Some tk ->
  environ sv !! "ACCESS_TOKEN_SECRET" = Some ts ->
  fs !! cache_file = Some j ->
  Json.loads j = Some previous ->
  fetched (github sv (listing_address owner repo)) = Some current ->
  let run := check_for_new_pr sv (start fs t0) in
  run.1 = Ret tt /\
  published (trace run.2) = tweet_text <$> reported_added previous current /\
  (forall text w msg,
      twitter sv (length (published (trace w))) text = RaisedValueError msg ->
      exists w',
        post_tweet sv text ck cs tk ts w = (Ret None, w') /\
        errors_logged (trace w') =
          errors_logged (trace w) ++ ["Invalid data input: " +:+ msg]) /\
  (forall text w msg,
      twitter sv (length (published (trace w))) text = RaisedException msg ->
      exists w',
        post_tweet sv text ck cs tk ts w = (Ret None, w') /\
        errors_logged (trace w') =
          errors_logged (trace w) ++ ["An error occurred: " +:+ msg]) /\
  (forall text w body,
      twitter sv (length (published (trace w))) text = Answered body ->
      exists w',
        post_tweet sv text ck cs tk ts w = (Ret (Some body), w') /\
        errors_logged (trace w') = errors_logged (trace w)).
Proof.
  intros Ho Hr Hck Hcs Htk Hts Hf Hj Hd run.
  assert (Hcur : NoDup current.*1 /\
                 Forall (fun k => PyStr.all_chars PyStr.decimal_char k = true)
                        current.*1).
  { unfold fetched in Hd.
    destruct (status_code _ =? 200); [|discriminate].
    destruct (snapshot_of_Some
                (json_body (github sv (listing_address owner repo))))
      as (d & Ed & ND & Hp).
    rewrite Hd in Ed. injection Ed as <-. now split. }
  destruct Hcur as [ND Hp].
  split; [|split; [|split; [|split]]].
  3: { intros text w msg. apply post_tweet_failure. }
  3: { intros text w msg. apply post_tweet_failure. }
  3: { intros text w body. apply post_tweet_failure. }
  all: destruct (cycle_run sv fs t0 owner repo Ho Hr) as (tr & Pt & E);
    subst run; rewrite E; clear E;
    unfold cycle_delta; rewrite Hf, Hj, Hd;
    destruct (notify_run sv previous current ck cs tk ts
                {| files := <[cache_file := Json.dumps (Some current)]> fs;
                   clock := t0; trace := tr |})
      as (w' & En & _ & Pn); try assumption;
    destruct (diff (Some previous) (Some current)) eqn:Ed.
  - reflexivity.
  - now rewrite En.
  - unfold ret. cbn [snd trace]. rewrite Pt.
    injection En as <-. cbn [trace] in Pn.
    apply app_nil_inv_r in Pn. now rewrite Pn.
  - rewrite En. cbn [snd]. rewrite Pn. cbn [trace]. now rewrite Pt.
Qed.

Lemma publishing_failure_does_not_abort_witness :
  let sv := Sample.services 200 [Sample.item 1 Sample.PR_A;
                                 Sample.item 2 Sample.PR_B;
                                 Sample.item 3 Sample.PR_C] in
  let j := Json.JObject [("2", Sample.PR_B)] in
  let fs : gmap string Json.doc := {[ cache_file := j ]} in
  let run := check_for_new_pr sv (start fs 0) in
  (environ sv !! "REPO_OWNER" = Some "polkadot-fellows" /\
   environ sv !! "REPO" = Some "RFCs" /\
   environ sv !! "CONSUMER_KEY" = Some "ck" /\
   environ sv !! "CONSUMER_SECRET" = Some "cs" /\
   environ sv !! "ACCESS_TOKEN" = Some "at" /\
   environ sv !! "ACCESS_TOKEN_SECRET" = Some "ats" /\
   fs !! cache_file = Some j /\
   Json.loads j = Some [("2", Sample.PR_B)] /\
   fetched (github sv (listing_address "polkadot-fellows" "RFCs")) =
     Some [("1", Sample.PR_A); ("2", Sample.PR_B); ("3", Sample.PR_C)]) /\
  twitter sv 0 (tweet_text Sample.PR_A) =
    RaisedException "Connection aborted." /\
  reported_added [("2", Sample.PR_B)]
                 [("1", Sample.PR_A); ("2", Sample.PR_B); ("3", Sample.PR_C)]
    = [Sample.PR_A; Sample.PR_C] /\
  run.1 = Ret tt /\
  published (trace run.2) =
    tweet_text <$>
      reported_added [("2", Sample.PR_B)]
                     [("1", Sample.PR_A); ("2", Sample.PR_B);
                      ("3", Sample.PR_C)] /\
  errors_logged (trace run.2) =
    ["An error occurred: Connection aborted."].
Proof.
  cbv zeta. split; [repeat split; reflexivity|].
  split; [reflexivity|]. split; [reflexivity|].
  pose proof (publishing_failure_does_not_abort
                (Sample.services 200 [Sample.item 1 Sample.PR_A;
                                      Sample.item 2 Sample.PR_B;
                                      Sample.item 3 Sample.PR_C])
                {[ cache_file := Json.JObject [("2", Sample.PR_B)] ]} 0
                "polkadot-fellows" "RFCs" "ck" "cs" "at" "ats"
                (Json.JObject [("2", Sample.PR_B)])
                [("2", Sample.PR_B)]
                [("1", Sample.PR_A); ("2", Sample.PR_B); ("3", Sample.PR_C)]
                eq_refl eq_refl eq_refl eq_refl eq_refl eq_refl
                eq_refl eq_refl eq_refl) as (H1 & H2 & _).
  split; [exact H1|]. split; [exact H2|].
  vm_compute. reflexivity.
Defined.




Lemma added_key_diff (previous current : Snapshot) (k : string) :
  added_key k (diff (Some previous) (Some current)) <->
  too_distant previous current = false /\
  (k ∈ current.*1) /\ (k ∉ previous.*1).
Proof.
  destruct (too_distant previous current) eqn:E.
  - split; [|intros [? _]; discriminate].
    intros H. now apply (diff_of_distant_snapshots _ _ k E) in H.
  - rewrite diff_close by exact E. rewrite added_key_spec. tauto.
Qed.

(** C10. For an added entry reported as [root['<id>']], where <id> is
    made of decimal digits, the parsing of [check_for_new_pr] gives back
    <id>; the record looked up is the one the fetched snapshot holds
    under <id>, a key the previous snapshot does not have; and the
    iteration of the loop for this entry hands the notifier the message
    made from that record: it ends normally having posted exactly that
    message. *)
Theorem added_entry_is_announced_with_its_record
        (sv : Services) (previous current : Snapshot)
        (id ck cs tk ts : string) (w : World) :
  PyStr.all_chars PyStr.is_digit id = true ->
  added_key id (diff (Some previous) (Some current)) ->
  environ sv !! "CONSUMER_KEY" = Some ck ->
  environ sv !! "CONSUMER_SECRET" = Some cs ->
  environ sv !! "ACCESS_TOKEN" = Some tk ->
  environ sv !! "ACCESS_TOKEN_SECRET" = Some ts ->
  parse_index (path_of_key id) = id /\
  exists r,
    dict_get id current = Some r /\
    dict_get id previous = None /\
    subscript (Some current) (parse_index (path_of_key id)) w = (Ret r, w) /\
    exists w',
      announce sv (Some current) (path_of_key id) w = (Ret tt, w') /\
      published (trace w') = published (trace w) ++ [tweet_text r] /\
      last (omap (fun te : Z * event =>
                    match te.2 with
                    | HttpPost address text k1 k2 k3 k4 =>
                        Some (address, text, [k1; k2; k3; k4])
                    | _ => None
                    end) (trace w'))
      = Some ("https://api.twitter.com/2/tweets", tweet_text r,
              [ck; cs; tk; ts]).
Proof.
  intros Hd Ha Hck Hcs Htk Hts.
  assert (Hp : parse_index (path_of_key id) = id).
  { apply (all_chars_impl _ PyStr.decimal_char) in Hd;
      [|apply is_digit_decimal].
    apply decimal_plain in Hd as [Hb Hq]. now apply parse_index_path. }
  split; [exact Hp|].
  apply added_key_diff in Ha as (_ & Hc & Hn).
  apply dict_get_is_Some in Hc as [r Hr].
  exists r. split; [exact Hr|]. split; [now apply dict_get_None|].
  split; [unfold subscript; now rewrite Hp, Hr|].
  unfold announce, bind, subscript, os_environ, post_tweet, bind,
    twitter_post, logging_info, logging_error, emit, time_sleep, ret.
  rewrite Hp, Hr, Hck, Hcs, Htk, Hts. simpl.
  destruct (twitter sv _ _); simpl; eexists; (split; [reflexivity|]);
    simpl; rewrite !published_snoc, !omap_app; simpl;
    rewrite !app_nil_r; (split; [reflexivity|]);
    rewrite ?last_snoc; try reflexivity;
    rewrite <- ?app_assoc; simpl.
  all: rewrite ?app_nil_r; try (now rewrite last_snoc).
Qed.

Lemma added_entry_is_announced_with_its_record_witness :
  let sv := Sample.services 200 [] in
  let previous := [("1", Sample.PR_A)] in
  let current := [("1", Sample.PR_A); ("2047", Sample.PR_B)] in
  let w := start ∅ 0 in
  (PyStr.all_chars PyStr.is_digit "2047" = true /\
   added_key "2047" (diff (Some previous) (Some current)) /\
   environ sv !! "CONSUMER_KEY" = Some "ck" /\
   environ sv !! "CONSUMER_SECRET" = Some "cs" /\
   environ sv !! "ACCESS_TOKEN" = Some "at" /\
   environ sv !! "ACCESS_TOKEN_SECRET" = Some "ats") /\
  parse_index (path_of_key "2047") = "2047" /\
  exists r,
    dict_get "2047" current = Some r /\
    dict_get "2047" previous = None /\
    subscript (Some current) (parse_index (path_of_key "2047")) w
    = (Ret r, w) /\
    exists w',
      announce sv (Some current) (path_of_key "2047") w = (Ret tt, w') /\
      published (trace w') = published (trace w) ++ [tweet_text r] /\
      last (omap (fun te : Z * event =>
                    match te.2 with
                    | HttpPost address text k1 k2 k3 k4 =>
                        Some (address, text, [k1; k2; k3; k4])
                    | _ => None
                    end) (trace w'))
      = Some ("https://api.twitter.com/2/tweets", tweet_text r,
              ["ck"; "cs"; "at"; "ats"]).
Proof.
  cbv zeta.
  assert (Ha : added_key "2047"
                 (diff (Some [("1", Sample.PR_A)])
                       (Some [("1", Sample.PR_A); ("2047", Sample.PR_B)]))).
  { unfold added_key. vm_compute. apply list_elem_of_here. }
  split; [repeat split; try reflexivity; exact Ha|].
  exact (added_entry_is_announced_with_its_record
           (Sample.services 200 [])
           [("1", Sample.PR_A)]
           [("1", Sample.PR_A); ("2047", Sample.PR_B)]
           "2047" "ck" "cs" "at" "ats" (start ∅ 0)
           eq_refl Ha eq_refl eq_refl eq_refl eq_refl).
Defined.

End Claims.

(** * Further properties of the program *)

(** ** The cache functions *)

Section CacheFacts.


Lemma text_dumps (data : PyData) :
  Json.text (Json.dumps data) = JsonText.dump 0 (obj_of_data data).
Proof. now destruct data. Qed.

(** X18. Keeping a file as the document of its text loses nothing. On the
    disk that holds the text of each document of a world, and at a path
    that can be opened for writing, [save_data_to_cache] taken on the
    text writes the text of the document the cycle keeps for the same
    data; and [load_data_from_cache] taken on the text parses the file
    into the data the cycle loads, or raises [FileNotFoundError] where
    the cycle does. When the path cannot be opened for writing, saving
    raises an [OSError] and changes nothing. *)
Theorem documents_stand_for_their_text
        (filename : string) (data : PyData) (w : World)
        (openable : string -> bool) :
  (openable filename = true ->
   TextCache.save_data_to_cache filename (obj_of_data data)
     (disk_of w openable)
   = (Ret tt,
      disk_of (CacheManager.save_data_to_cache filename data w).2 openable)) /\
  (openable filename = false ->
   TextCache.save_data_to_cache filename (obj_of_data data)
     (disk_of w openable)
   = (Raise (OSError filename), disk_of w openable)) /\
  TextCache.load_data_from_cache filename (disk_of w openable)
  = (match (CacheManager.load_data_from_cache filename w).1 with
     | Ret loaded => Ret (obj_of_data loaded)
     | Raise e => Raise e
     end, disk_of w openable).
Proof.
  split; [|split].
  - intros Hw. unfold TextCache.save_data_to_cache, disk_of.
    cbn [writable texts]. rewrite Hw.
    unfold CacheManager.save_data_to_cache, write_json. cbn [snd files].
    now rewrite fmap_insert, text_dumps.
  - intros Hw. unfold TextCache.save_data_to_cache, disk_of. cbn.
    now rewrite Hw.
  - unfold TextCache.load_data_from_cache, CacheManager.load_data_from_cache,
      read_json, disk_of. cbn [texts].
    rewrite lookup_fmap. destruct (files w !! filename) as [j|]; cbn.
    + now rewrite loads_text.
    + reflexivity.
Qed.

End CacheFacts.

(** ** The fetcher *)

Section FetchFacts.

Lemma dict_get_set {K V} `{EqDecision K} (k k' : K) (v : V)
      (d : list (K * V)) :
  dict_get k (dict_set k' v d) =
  if decide (k = k') then Some v else dict_get k d.
Proof.
  induction d as [|[k0 v0] d IH]; simpl.
  - destruct (decide (k = k')); reflexivity.
  - destruct (decide (k' = k0)) as [->|n]; simpl.
    + destruct (decide (k = k0)); reflexivity.
    + rewrite IH. destruct (decide (k = k0)) as [->|n0]; [|reflexivity].
      now rewrite decide_False by congruence.
Qed.

(** Assigning the items of a list in turn: what is found under a key is
    the value of the last item with that key. *)
Lemma assign_all_get {A K V} `{EqDecision K} (key : A -> K) (val : A -> V)
      (l : list A) (d : list (K * V)) (k : K) :
  dict_get k (fold_left (fun d x => dict_set (key x) (val x) d) l d) =
  match last (filter (fun x => key x = k) l) with
  | Some x => Some (val x)
  | None => dict_get k d
  end.
Proof.
  revert d. induction l as [|x l IH]; intros d; [reflexivity|].
  cbn [fold_left]. rewrite IH, filter_cons, dict_get_set.
  destruct (decide (key x = k)) as [E|n].
  - rewrite last_cons. destruct (last (filter _ l)); [reflexivity|].
    now rewrite decide_True by congruence.
  - destruct (last (filter _ l)); [reflexivity|].
    now rewrite decide_False by congruence.
Qed.

Lemma collect_get (body : list gh_pull) (id : Z) :
  dict_get id (collect body) =
  record_of <$> last (filter (fun pr => gh_id pr = id) body).
Proof.
  unfold collect. rewrite assign_all_get.
  now destruct (last (filter _ body)).
Qed.

Lemma dict_get_rename {K K' V} `{EqDecision K} `{EqDecision K'}
      (f : K -> K') (d : list (K * V)) (k : K) :
  (forall a b, f a = f b -> a = b) ->
  dict_get (f k) ((fun kv : K * V => (f kv.1, kv.2)) <$> d) = dict_get k d.
Proof.
  intros Hf. induction d as [|[k0 v0] d IH]; [reflexivity|].
  rewrite fmap_cons. cbn [dict_get fst snd].
  destruct (decide (k = k0)) as [->|n].
  - now rewrite decide_True.
  - rewrite decide_False; [exact IH|]. intros E. now apply Hf in E.
Qed.

(** The snapshot, written out: the sorted items of the collected
    dictionary, with their keys as text. *)
Lemma snapshot_of_items (body : list gh_pull) :
  snapshot_of body =
  Some ((fun kv : Z * PullRequestRecord => (PyStr.str_of_Z kv.1, kv.2))
          <$> Json.sorted_items (collect body)).
Proof.
  unfold snapshot_of, Json.dumps_sort_keys, Json.loads.
  f_equal. apply dict_of_items_id.
  apply members_NoDup, collect_NoDup.
Qed.

Lemma snapshot_of_get (body : list gh_pull) (d : Snapshot) (id : Z) :
  snapshot_of body = Some d ->
  dict_get (PyStr.str_of_Z id) d =
  record_of <$> last (filter (fun pr => gh_id pr = id) body).
Proof.
  rewrite snapshot_of_items. intros [= <-].
  rewrite (dict_get_rename PyStr.str_of_Z) by apply str_of_Z_inj.
  rewrite (dict_get_Permutation id _ (collect body)).
  - apply collect_get.
  - rewrite sorted_items_Permutation. apply collect_NoDup.
  - apply sorted_items_Permutation.
Qed.

Lemma increasing_insert {V} (k : Z) (v : V) (l : list (Z * V)) :
  increasing l.*1 -> k ∉ l.*1 ->
  increasing (Json.insert_by_key (k, v) l).*1.
Proof.
  induction l as [|[k' v'] l IH]; intros Hi Hk.
  - simpl. split; [constructor | exact I].
  - cbn [Json.insert_by_key fst]. rewrite fmap_cons in Hi, Hk.
    cbn [fst increasing] in Hi, Hk. destruct Hi as [Hlt Hi].
    apply not_elem_of_cons in Hk as [Hne Hk].
    destruct (k <=? k') eqn:Ele.
    + apply Z.leb_le in Ele. rewrite !fmap_cons. cbn [fst increasing].
      repeat split; try assumption.
      apply Forall_cons. split; [lia|].
      eapply Forall_impl; [exact Hlt|]. intros y Hy. simpl in Hy. lia.
    + apply Z.leb_gt in Ele. rewrite fmap_cons. cbn [fst increasing].
      split; [|now apply IH].
      rewrite (insert_by_key_Permutation (k, v) l), fmap_cons.
      apply Forall_cons. split; [exact Ele | exact Hlt].
Qed.

Lemma increasing_sorted_items {V} (d : list (Z * V)) :
  NoDup d.*1 -> increasing (Json.sorted_items d).*1.
Proof.
  induction d as [|[k v] d IH]; intros ND; [exact I|].
  rewrite fmap_cons in ND. apply NoDup_cons in ND as [Hk ND].
  cbn [Json.sorted_items foldr]. apply increasing_insert.
  - now apply IH.
  - fold (Json.sorted_items d). now rewrite sorted_items_Permutation.
Qed.


(** X3. On a success the record found under the text of an identifier is the
    record of the last item of the answer that carries this identifier;
    an identifier the answer does not hold is not a key. *)
Theorem pull_requests_last_item_wins
        (sv : Services) (owner repo : string) (w : World) (id : Z) :
  let r := github sv (listing_address owner repo) in
  status_code r = 200 ->
  exists d,
    (pull_requests sv owner repo w).1 = Ret (Some d) /\
    dict_get (PyStr.str_of_Z id) d =
      record_of <$> last (filter (fun pr => gh_id pr = id) (json_body r)).
Proof.
  cbv zeta. intros Hs.
  destruct (pull_requests_run sv owner repo w) as (evs & _ & ->).
  unfold fetched. rewrite Hs. change (200 =? 200) with true. cbv iota.
  destruct (snapshot_of_Some
              (json_body (github sv (listing_address owner repo))))
    as (d & Ed & _).
  exists d. split; [now rewrite Ed|]. now apply snapshot_of_get.
Qed.

Lemma pull_requests_last_item_wins_witness :
  let sv := Sample.services 200 [Sample.item 7 Sample.PR_A;
                                 Sample.item 9 Sample.PR_B;
                                 Sample.item 7 Sample.PR_A_v2] in
  let w := start ∅ 0 in
  status_code (github sv (listing_address "polkadot-fellows" "RFCs")) = 200 /\
  exists d,
    (pull_requests sv "polkadot-fellows" "RFCs" w).1 = Ret (Some d) /\
    dict_get (PyStr.str_of_Z 7) d =
      record_of <$>
        last (filter (fun pr => gh_id pr = 7)
                (json_body (github sv (listing_address "polkadot-fellows"
                                                       "RFCs")))).
Proof.
  cbv zeta. split; [reflexivity|].
  exact (pull_requests_last_item_wins
           (Sample.services 200 [Sample.item 7 Sample.PR_A;
                                 Sample.item 9 Sample.PR_B;
                                 Sample.item 7 Sample.PR_A_v2])
           "polkadot-fellows" "RFCs" (start ∅ 0) 7 eq_refl).
Defined.

(** X4. On a success the keys of the snapshot are the texts of the
    identifiers of the answer, each once, in increasing order of the
    identifiers as numbers. *)
Theorem pull_requests_keys_increasing
        (sv : Services) (owner repo : string) (w : World) :
  let r := github sv (listing_address owner repo) in
  status_code r = 200 ->
  exists d ids,
    (pull_requests sv owner repo w).1 = Ret (Some d) /\
    d.*1 = PyStr.str_of_Z <$> ids /\
    increasing ids /\
    NoDup d.*1 /\
    (forall id, id ∈ ids <-> id ∈ gh_id <$> json_body r).
Proof.
  cbv zeta. intros Hs.
  destruct (pull_requests_run sv owner repo w) as (evs & _ & ->).
  unfold fetched. rewrite Hs. change (200 =? 200) with true. cbv iota.
  set (body := json_body (github sv (listing_address owner repo))).
  rewrite snapshot_of_items.
  eexists. exists (Json.sorted_items (collect body)).*1.
  split; [reflexivity|]. split.
  { rewrite <- !list_fmap_compose. reflexivity. }
  split; [apply increasing_sorted_items, collect_NoDup|].
  split; [apply members_NoDup, collect_NoDup|].
  intros id. rewrite sorted_items_Permutation.
  rewrite <- dict_get_is_Some, collect_get, fmap_is_Some.
  rewrite list_elem_of_fmap. split.
  - intros [pr Hl]. apply last_Some in Hl as [l' Hl].
    assert (Hin : pr ∈ filter (fun pr => gh_id pr = id) body).
    { rewrite Hl. apply elem_of_app. right. apply list_elem_of_here. }
    apply list_elem_of_filter in Hin as [<- Hin]. now exists pr.
  - intros (pr & -> & Hin).
    destruct (last (filter (fun pr0 => gh_id pr0 = gh_id pr) body))
      as [x|] eqn:El; [eauto|].
    apply last_None in El.
    assert (Hf : pr ∈ filter (fun pr0 => gh_id pr0 = gh_id pr) body).
    { now apply list_elem_of_filter. }
    rewrite El in Hf. now apply elem_of_nil in Hf.
Qed.

Lemma pull_requests_keys_increasing_witness :
  let sv := Sample.services 200 [Sample.item 101 Sample.PR_A;
                                 Sample.item 22 Sample.PR_B;
                                 Sample.item 101 Sample.PR_A_v2] in
  let w := start ∅ 0 in
  status_code (github sv (listing_address "polkadot-fellows" "RFCs")) = 200 /\
  exists d ids,
    (pull_requests sv "polkadot-fellows" "RFCs" w).1 = Ret (Some d) /\
    d.*1 = PyStr.str_of_Z <$> ids /\
    increasing ids /\
    NoDup d.*1 /\
    (forall id,
        id ∈ ids <->
        id ∈ gh_id <$>
               json_body (github sv (listing_address "polkadot-fellows"
                                                     "RFCs"))).
Proof.
  cbv zeta. split; [reflexivity|].
  exact (pull_requests_keys_increasing
           (Sample.services 200 [Sample.item 101 Sample.PR_A;
                                 Sample.item 22 Sample.PR_B;
                                 Sample.item 101 Sample.PR_A_v2])
           "polkadot-fellows" "RFCs" (start ∅ 0) eq_refl).
Defined.

(** X5. Every key of a fetched snapshot, written as a path by the difference
    library, is given back by the parsing of [check_for_new_pr], so the
    lookup that follows finds its record; this holds for every integer
    identifier, negative ones included. *)
Theorem fetched_keys_parse_back
        (r : Response) (d : Snapshot) (k : string) (w : World) :
  fetched r = Some d ->
  k ∈ d.*1 ->
  parse_index (DeepDiff.path_of_key k) = k /\
  exists rec,
    dict_get k d = Some rec /\
    subscript (Some d) (parse_index (DeepDiff.path_of_key k)) w = (Ret rec, w).
Proof.
  intros Hf Hk. unfold fetched in Hf.
  destruct (status_code r =? 200); [|discriminate].
  destruct (snapshot_of_Some (json_body r)) as (d' & Ed & _ & Hp).
  rewrite Hf in Ed. injection Ed as <-.
  rewrite Forall_forall in Hp. specialize (Hp k Hk).
  apply decimal_plain in Hp as [Hb Hq].
  assert (Hi : parse_index (DeepDiff.path_of_key k) = k)
    by now apply parse_index_path.
  split; [exact Hi|].
  apply dict_get_is_Some in Hk as [rec Hr].
  exists rec. split; [exact Hr|]. unfold subscript. now rewrite Hi, Hr.
Qed.

Lemma fetched_keys_parse_back_witness :
  let r := {| status_code := 200;
              json_body := [Sample.item (-5) Sample.PR_A;
                            Sample.item 1204 Sample.PR_B] |} in
  let d := [("-5", Sample.PR_A); ("1204", Sample.PR_B)] in
  let w := start ∅ 0 in
  (fetched r = Some d /\ "-5" ∈ d.*1) /\
  parse_index (DeepDiff.path_of_key "-5") = "-5" /\
  exists rec,
    dict_get "-5" d = Some rec /\
    subscript (Some d) (parse_index (DeepDiff.path_of_key "-5")) w
    = (Ret rec, w).
Proof.
  cbv zeta.
  assert (Hk : "-5" ∈ [("-5", Sample.PR_A); ("1204", Sample.PR_B)].*1).
  { apply list_elem_of_here. }
  split; [split; [reflexivity | exact Hk]|].
  exact (fetched_keys_parse_back
           {| status_code := 200;
              json_body := [Sample.item (-5) Sample.PR_A;
                            Sample.item 1204 Sample.PR_B] |}
           [("-5", Sample.PR_A); ("1204", Sample.PR_B)] "-5" (start ∅ 0)
           eq_refl Hk).
Defined.

End FetchFacts.

(** ** Properties kept by every run *)

Section Kept.
Variable sv : Services.
Variable I : World -> Prop.

Hypothesis I_log : forall lvl msg, preserves I (emit (Logged lvl msg)).
Hypothesis I_post :
  forall text ck cs tk ts,
    environ sv !! "CONSUMER_KEY" = Some ck ->
    environ sv !! "CONSUMER_SECRET" = Some cs ->
    environ sv !! "ACCESS_TOKEN" = Some tk ->
    environ sv !! "ACCESS_TOKEN_SECRET" = Some ts ->
    preserves I (post_tweet sv text ck cs tk ts ;; time_sleep 10).

Lemma kept_os_environ {B} (name : string) (k : string -> M B) :
  (forall v, environ sv !! name = Some v -> preserves I (k v)) ->
  preserves I (let* v := os_environ sv name in k v).
Proof.
  intros Hk w Hw. unfold bind, os_environ.
  destruct (environ sv !! name) as [v|] eqn:E; [|exact Hw].
  now apply (Hk v).
Qed.

Lemma kept_announce (data : PyData) (index : string) :
  preserves I (announce sv data index).
Proof.
  unfold announce. apply preserves_bind.
  { unfold subscript. destruct data as [d|]; [|apply preserves_raise].
    destruct (dict_get _ d); [apply preserves_ret | apply preserves_raise]. }
  intros r. apply preserves_bind; [apply I_log|]. intros _.
  apply kept_os_environ. intros ck Hck.
  apply kept_os_environ. intros cs Hcs.
  apply kept_os_environ. intros tk Htk.
  apply kept_os_environ. intros ts Hts.
  now apply I_post.
Qed.

Lemma kept_notify (data : PyData) (result : DeepDiff.report) :
  preserves I (notify sv data result).
Proof.
  unfold notify. apply preserves_for_each. intros [name e]. simpl.
  destruct (PyStr.contains "added" name); [|apply preserves_ret].
  assert (Hg : preserves I (report_get result "dictionary_item_added")).
  { unfold report_get. destruct (dict_get _ result);
      [apply preserves_ret | apply preserves_raise]. }
  apply preserves_bind; [exact Hg|]. intros added.
  apply preserves_bind; [apply I_log|]. intros _.
  apply preserves_bind; [exact Hg|]. intros added'.
  apply preserves_for_each. intros index. apply kept_announce.
Qed.

Hypothesis I_get :
  forall owner repo,
    environ sv !! "REPO_OWNER" = Some owner ->
    environ sv !! "REPO" = Some repo ->
    preserves I (emit (HttpGet (listing_address owner repo))).
Hypothesis I_write : forall data, preserves I (write_json cache_file data).

(** The cycle after its first line. *)
Lemma kept_fetch_diff_notify :
  preserves I
    (let* owner := os_environ sv "REPO_OWNER" in
     let* repo := os_environ sv "REPO" in
     let* pull_request_info := pull_requests sv owner repo in
     let* result :=
       CacheManager.get_cache_difference cache_file pull_request_info in
     CacheManager.save_data_to_cache cache_file pull_request_info ;;
     match result with
     | [] => ret tt
     | _ => notify sv pull_request_info result
     end).
Proof.
  apply kept_os_environ. intros owner Ho.
  apply kept_os_environ. intros repo Hr.
  apply preserves_bind.
  { unfold pull_requests, requests_get.
    apply preserves_bind.
    { apply preserves_bind; [now apply I_get|]. intros _. apply preserves_ret. }
    intros response. apply preserves_bind; [apply I_log|]. intros _.
    destruct (status_code response =? 200); [apply preserves_ret|].
    apply preserves_bind; [apply I_log|]. intros _. apply preserves_ret. }
  intros data. apply preserves_bind.
  { intros w Hw. rewrite get_cache_difference_run.
    destruct (files w !! cache_file); [exact Hw|].
    exact (I_write data w Hw). }
  intros result. apply preserves_bind; [apply I_write|]. intros _.
  destruct result; [apply preserves_ret | apply kept_notify].
Qed.

(** The cycle keeps what holds once its first line is logged. *)
Lemma kept_after_the_first_log (w : World) :
  I (logging_info "Checking for new RFC(s)" w).2 ->
  I (check_for_new_pr sv w).2.
Proof.
  intros Hw. unfold check_for_new_pr. unfold bind at 1.
  unfold logging_info at 1, emit at 1.
  now apply kept_fetch_diff_notify.
Qed.

Lemma kept_check_for_new_pr : preserves I (check_for_new_pr sv).
Proof.
  intros w Hw. apply kept_after_the_first_log.
  now apply (I_log INFO "Checking for new RFC(s)" w).
Qed.

Lemma kept_main : preserves I (main sv).
Proof.
  unfold main. apply preserves_bind; [apply kept_check_for_new_pr|].
  intros _. apply I_log.
Qed.

End Kept.

Section EveryRun.

Lemma post_then_sleep_run (sv : Services) (text ck cs tk ts : string)
      (w : World) :
  exists ev,
    post_text ev = None /\ ev.1 = clock w /\
    (forall address, ev.2 <> HttpGet address) /\
    (post_tweet sv text ck cs tk ts ;; time_sleep 10) w =
    (Ret tt,
     {| files := files w; clock := clock w + 10;
        trace := trace w ++
          [(clock w, Logged INFO "Composing tweet, please wait...");
           (clock w, HttpPost "https://api.twitter.com/2/tweets" text
                              ck cs tk ts);
           ev;
           (clock w, Slept 10)] |}).
Proof.
  unfold post_tweet, bind, twitter_post, logging_info, logging_error, emit,
    time_sleep, ret. cbn [files clock trace].
  destruct (twitter sv _ _); cbn [files clock trace];
    rewrite <- !app_assoc; cbn [app];
    eexists; (split; [|split; [|split; [|reflexivity]]]);
    try reflexivity; intros address; discriminate.
Qed.

Lemma published_post_events (tr : list (Z * event)) (t : Z)
      (address text ck cs tk ts : string) (lvl : level) (msg : string)
      (ev : Z * event) (n : Z) :
  post_text ev = None ->
  published (tr ++ [(t, Logged lvl msg);
                    (t, HttpPost address text ck cs tk ts); ev;
                    (t, Slept n)])
  = published tr ++ [text].
Proof.
  intros He.
  replace (tr ++ [(t, Logged lvl msg);
                  (t, HttpPost address text ck cs tk ts); ev; (t, Slept n)])
    with ((((tr ++ [(t, Logged lvl msg)]) ++
            [(t, HttpPost address text ck cs tk ts)]) ++ [ev]) ++
          [(t, Slept n)])
    by now rewrite <- !app_assoc.
  rewrite !published_snoc, He. simpl. now rewrite !app_nil_r.
Qed.

(** X8. The clock of a run moves by the sleeps only, ten seconds for each
    call of the publishing service: whatever the environment, the files,
    the answer and the outcome of the posts, and whether the run ends
    normally or raises, it ends ten seconds times the number of posts
    after it started. *)
Theorem run_sleeps_ten_seconds_per_post
        (sv : Services) (fs : gmap string Json.doc) (t0 : Z) :
  let run := check_for_new_pr sv (start fs t0) in
  clock run.2 = t0 + 10 * Z.of_nat (length (published (trace run.2))).
Proof.
  cbv zeta.
  apply (kept_check_for_new_pr sv
           (fun w => clock w =
                     t0 + 10 * Z.of_nat (length (published (trace w))))).
  - intros lvl msg w Hw. cbn [emit snd clock trace].
    rewrite published_snoc. cbn [post_text snd]. now rewrite app_nil_r.
  - intros text ck cs tk ts _ _ _ _ w Hw.
    destruct (post_then_sleep_run sv text ck cs tk ts w)
      as ([t e] & He & _ & _ & ->).
    cbn [snd clock trace]. rewrite published_post_events by exact He.
    rewrite length_app. cbn [length]. lia.
  - intros owner repo _ _ w Hw. cbn [emit snd clock trace].
    rewrite published_snoc. cbn [post_text snd]. now rewrite app_nil_r.
  - intros data w Hw. exact Hw.
  - unfold start, published. simpl. lia.
Qed.

Lemma log_lines_snoc (tr : list (Z * event)) (te : Z * event)
      (first : level * string) :
  head (log_lines tr) = Some first ->
  head (log_lines (tr ++ [te])) = Some first.
Proof.
  unfold log_lines. rewrite omap_app.
  destruct (omap _ tr); [discriminate | trivial].
Qed.

(** X9. Of the two files a run writes to, the cache file is the only JSON
    file: every file other than the cache file and the log file is left
    as it was found, whatever the environment, the answer and the
    outcome of the cycle. The log file does not stay as it was: every
    run appends to it, and the first line it appends is the one that
    opens the cycle. *)
Theorem run_touches_only_the_cache_file
        (sv : Services) (fs : gmap string Json.doc) (t0 : Z) (path : string) :
  path <> cache_file ->
  path <> log_file ->
  let run := check_for_new_pr sv (start fs t0) in
  files run.2 !! path = fs !! path /\
  head (log_lines (trace run.2)) = Some (INFO, "Checking for new RFC(s)").
Proof.
  intros Hp _. cbv zeta.
  apply (kept_after_the_first_log sv
           (fun w => files w !! path = fs !! path /\
                     head (log_lines (trace w))
                     = Some (INFO, "Checking for new RFC(s)"))).
  - intros lvl msg w [Hw Hl]. split; [exact Hw|].
    cbn [emit snd trace]. now apply log_lines_snoc.
  - intros text ck cs tk ts _ _ _ _ w [Hw Hl].
    destruct (post_then_sleep_run sv text ck cs tk ts w)
      as (ev & _ & _ & _ & ->). split; [exact Hw|].
    cbn [snd trace].
    replace (trace w ++
             [(clock w, Logged INFO "Composing tweet, please wait...");
              (clock w, HttpPost "https://api.twitter.com/2/tweets" text
                                 ck cs tk ts);
              ev; (clock w, Slept 10)])
      with ((((trace w ++
               [(clock w, Logged INFO "Composing tweet, please wait...")]) ++
              [(clock w, HttpPost "https://api.twitter.com/2/tweets" text
                                  ck cs tk ts)]) ++ [ev]) ++
            [(clock w, Slept 10)])
      by now rewrite <- !app_assoc.
    now do 4 apply log_lines_snoc.
  - intros owner repo _ _ w [Hw Hl]. split; [exact Hw|].
    cbn [emit snd trace]. now apply log_lines_snoc.
  - intros data w [Hw Hl]. split; [|exact Hl].
    cbn [write_json snd files]. now rewrite lookup_insert_ne by congruence.
  - split; reflexivity.
Qed.

Lemma run_touches_only_the_cache_file_witness :
  let sv := Sample.services 200 [Sample.item 1 Sample.PR_A] in
  let fs : gmap string Json.doc :=
    <[ "../data/other.json" := Json.JObject [("9", Sample.PR_C)] ]>
      (Sample.cached []) in
  let run := check_for_new_pr sv (start fs 0) in
  ("../data/other.json" <> cache_file /\ "../data/other.json" <> log_file) /\
  files run.2 !! "../data/other.json" = fs !! "../data/other.json" /\
  head (log_lines (trace run.2)) = Some (INFO, "Checking for new RFC(s)").
Proof.
  cbv zeta.
  assert (Hp : "../data/other.json" <> cache_file) by discriminate.
  assert (Hl : "../data/other.json" <> log_file) by discriminate.
  split; [split; assumption|].
  exact (run_touches_only_the_cache_file
           (Sample.services 200 [Sample.item 1 Sample.PR_A])
           (<[ "../data/other.json" := Json.JObject [("9", Sample.PR_C)] ]>
              (Sample.cached []))
           0 "../data/other.json" Hp Hl).
Defined.

(** X10. Every request of a run uses the configured values: a listing request
    goes to the address made of [REPO_OWNER] and [REPO], and a post goes
    to the tweets address with [CONSUMER_KEY], [CONSUMER_SECRET],
    [ACCESS_TOKEN] and [ACCESS_TOKEN_SECRET], each in its own role. *)
Theorem run_requests_use_the_configuration
        (sv : Services) (fs : gmap string Json.doc) (t0 : Z) :
  Forall (configured_request sv)
         (trace (check_for_new_pr sv (start fs t0)).2).
Proof.
  apply (kept_check_for_new_pr sv
           (fun w => Forall (configured_request sv) (trace w))).
  - intros lvl msg w Hw. cbn [emit snd trace].
    apply Forall_app. split; [exact Hw|]. now apply Forall_singleton.
  - intros text ck cs tk ts Hck Hcs Htk Hts w Hw.
    destruct (post_then_sleep_run sv text ck cs tk ts w)
      as ([t e] & He & _ & Hg & ->).
    cbn [snd trace]. apply Forall_app. split; [exact Hw|].
    repeat apply Forall_cons_2; try apply Forall_nil_2;
      unfold configured_request; cbn [snd]; try exact I.
    + now repeat split.
    + unfold post_text in He. cbn [snd] in *.
      destruct e; try exact I; [now specialize (Hg address) | discriminate].
  - intros owner repo Ho Hr w Hw. cbn [emit snd trace].
    apply Forall_app. split; [exact Hw|]. apply Forall_singleton.
    unfold configured_request. cbn [snd]. now exists owner, repo.
  - intros data w Hw. exact Hw.
  - apply Forall_nil_2.
Qed.

End EveryRun.

(** ** Whole cycles *)

Section Cycles.

Lemma fetched_well_formed (r : Response) (d : Snapshot) :
  fetched r = Some d ->
  NoDup d.*1 /\
  Forall (fun k => PyStr.all_chars PyStr.decimal_char k = true) d.*1.
Proof.
  unfold fetched. destruct (status_code r =? 200); [|discriminate].
  destruct (snapshot_of_Some (json_body r)) as (d' & Ed & ND & Hp).
  rewrite Ed. intros [= <-]. now split.
Qed.

Lemma loads_dumps_fetched (r : Response) :
  Json.loads (Json.dumps (fetched r)) = fetched r.
Proof.
  apply loads_dumps. intros d Hd. now apply fetched_well_formed in Hd.
Qed.

Lemma notify_keeps_files (sv : Services) (data : PyData)
      (result : DeepDiff.report) (w : World) :
  files (notify sv data result w).2 = files w.
Proof.
  apply (kept_notify sv (fun w' => files w' = files w)).
  - intros lvl msg w' Hw. exact Hw.
  - intros text ck cs tk ts _ _ _ _ w' Hw.
    destruct (post_then_sleep_run sv text ck cs tk ts w')
      as (ev & _ & _ & _ & ->). exact Hw.
  - reflexivity.
Qed.

(** The end of a cycle, from the point where the report is known, when
    the four credentials are set. *)
Lemma finish_configured (sv : Services) (fs : gmap string Json.doc)
      (r : Response) (ck cs tk ts : string) (w : World) :
  environ sv !! "CONSUMER_KEY" = Some ck ->
  environ sv !! "CONSUMER_SECRET" = Some cs ->
  environ sv !! "ACCESS_TOKEN" = Some tk ->
  environ sv !! "ACCESS_TOKEN_SECRET" = Some ts ->
  exists w',
    match cycle_delta fs (fetched r) with
    | [] => ret tt
    | _ :: _ => notify sv (fetched r) (cycle_delta fs (fetched r))
    end w = (Ret tt, w') /\
    files w' = files w /\
    published (trace w') =
      published (trace w) ++ (tweet_text <$> announced fs (fetched r)).
Proof.
  intros Hck Hcs Htk Hts. unfold cycle_delta, announced.
  assert (Hquiet : forall t1 t2,
             added_paths (DeepDiff.diff t1 t2) = [] ->
             exists w',
               match DeepDiff.diff t1 t2 with
               | [] => ret tt
               | _ :: _ => notify sv (fetched r) (DeepDiff.diff t1 t2)
               end w = (Ret tt, w') /\
               files w' = files w /\
               published (trace w') = published (trace w) ++ []).
  { intros t1 t2 Ha. exists w. rewrite app_nil_r.
    pose proof (notify_no_added sv (fetched r) t1 t2 w Ha) as En.
    destruct (DeepDiff.diff t1 t2); now repeat split. }
  destruct (fs !! cache_file) as [j|].
  2: { exists w. rewrite app_nil_r. now repeat split. }
  destruct (fetched r) as [cur|] eqn:Ef.
  2: { apply Hquiet. destruct (Json.loads j); reflexivity. }
  destruct (Json.loads j) as [prev|].
  2: { now apply Hquiet. }
  destruct (fetched_well_formed r cur Ef) as [ND Hp].
  destruct (notify_run sv prev cur ck cs tk ts w Hck Hcs Htk Hts ND Hp)
    as (w' & En & Fn & Pn).
  destruct (DeepDiff.diff (Some prev) (Some cur)) eqn:Ed.
  - exists w. split; [reflexivity|]. split; [reflexivity|].
    injection En as <-. apply app_nil_inv_r in Pn.
    now rewrite Pn, app_nil_r.
  - exists w'. now repeat split.
Qed.

(** X11. With [REPO_OWNER] and [REPO] set, the cache file holds the fetched
    data when the run is over, however the run ends (normally, or by an
    exception raised while notifying): the file is written before the
    first post. Loading it gives the fetched data back. *)
Theorem run_leaves_the_fetched_data_in_the_cache
        (sv : Services) (fs : gmap string Json.doc) (t0 : Z)
        (owner repo : string) :
  environ sv !! "REPO_OWNER" = Some owner ->
  environ sv !! "REPO" = Some repo ->
  let data := fetched (github sv (listing_address owner repo)) in
  let run := check_for_new_pr sv (start fs t0) in
  files run.2 = <[cache_file := Json.dumps data]> fs /\
  CacheManager.load_data_from_cache cache_file run.2 = (Ret data, run.2).
Proof.
  intros Ho Hr data run.
  assert (Hfiles : files run.2 = <[cache_file := Json.dumps data]> fs).
  { subst run. destruct (cycle_run sv fs t0 owner repo Ho Hr) as (tr & _ & ->).
    fold data. destruct (cycle_delta fs data); [reflexivity|].
    now rewrite notify_keeps_files. }
  split; [exact Hfiles|].
  unfold CacheManager.load_data_from_cache, read_json.
  rewrite Hfiles, lookup_insert_eq. f_equal. f_equal.
  apply loads_dumps_fetched.
Qed.

Lemma run_leaves_the_fetched_data_in_the_cache_witness :
  let sv :=
    {| environ := {[ "REPO_OWNER" := "polkadot-fellows"; "REPO" := "RFCs" ]};
       github := fun _ => {| status_code := 200;
                             json_body := [Sample.item 1 Sample.PR_A] |};
       twitter := Sample.first_post_fails |} in
  let fs := Sample.cached [] in
  let data := Some [("1", Sample.PR_A)] in
  let run := check_for_new_pr sv (start fs 0) in
  (environ sv !! "REPO_OWNER" = Some "polkadot-fellows" /\
   environ sv !! "REPO" = Some "RFCs") /\
  run.1 = Raise (KeyError "CONSUMER_KEY") /\
  files run.2 = <[cache_file := Json.dumps data]> fs /\
  CacheManager.load_data_from_cache cache_file run.2 = (Ret data, run.2).
Proof.
  cbv zeta. split; [split; reflexivity|]. split; [reflexivity|].
  exact (run_leaves_the_fetched_data_in_the_cache
           {| environ := {[ "REPO_OWNER" := "polkadot-fellows";
                            "REPO" := "RFCs" ]};
              github := fun _ => {| status_code := 200;
                                    json_body := [Sample.item 1 Sample.PR_A] |};
              twitter := Sample.first_post_fails |}
           (Sample.cached []) 0 "polkadot-fellows" "RFCs" eq_refl eq_refl).
Defined.

(** X12. With the six variables set, a cycle whose file and network
    operations succeed raises nothing of its own: no [KeyError] from the
    environment, from the report or from the fetched snapshot, and no
    [TypeError] from a fetch that gave [None]; and this whatever the
    cache file holds ([null], a dictionary, or no file), whatever the
    answer and whatever the publishing service does. It posts one
    message for each record the report lists as added since the
    dictionary of the cache file, in the order of the fetched snapshot,
    and nothing when the file is missing or holds [null] or when the
    fetch failed. *)
Theorem configured_run_ends_normally
        (sv : Services) (fs : gmap string Json.doc) (t0 : Z)
        (owner repo ck cs tk ts : string) :
  environ sv !! "REPO_OWNER" = Some owner ->
  environ sv !! "REPO" = Some repo ->
  environ sv !! "CONSUMER_KEY" = Some ck ->
  environ sv !! "CONSUMER_SECRET" = Some cs ->
  environ sv !! "ACCESS_TOKEN" = Some tk ->
  environ sv !! "ACCESS_TOKEN_SECRET" = Some ts ->
  let data := fetched (github sv (listing_address owner repo)) in
  let run := check_for_new_pr sv (start fs t0) in
  run.1 = Ret tt /\
  published (trace run.2) = tweet_text <$> announced fs data.
Proof.
  intros Ho Hr Hck Hcs Htk Hts data run. subst run data.
  destruct (cycle_run sv fs t0 owner repo Ho Hr) as (tr & Pt & ->).
  destruct (finish_configured sv fs (github sv (listing_address owner repo))
              ck cs tk ts
              {| files := <[cache_file :=
                              Json.dumps
                                (fetched
                                   (github sv (listing_address owner repo)))]>
                            fs;
                 clock := t0; trace := tr |} Hck Hcs Htk Hts)
    as (w' & -> & _ & Pw).
  split; [reflexivity|]. cbn [snd]. rewrite Pw. cbn [trace]. now rewrite Pt.
Qed.

Lemma configured_run_ends_normally_witness :
  let sv := Sample.services 200 [Sample.item 1 Sample.PR_A;
                                 Sample.item 2 Sample.PR_B;
                                 Sample.item 3 Sample.PR_C] in
  let fs := Sample.cached [("2", Sample.PR_B)] in
  let run := check_for_new_pr sv (start fs 0) in
  (environ sv !! "REPO_OWNER" = Some "polkadot-fellows" /\
   environ sv !! "REPO" = Some "RFCs" /\
   environ sv !! "CONSUMER_KEY" = Some "ck" /\
   environ sv !! "CONSUMER_SECRET" = Some "cs" /\
   environ sv !! "ACCESS_TOKEN" = Some "at" /\
   environ sv !! "ACCESS_TOKEN_SECRET" = Some "ats") /\
  run.1 = Ret tt /\
  published (trace run.2) =
    tweet_text <$>
      announced fs
        (fetched (github sv (listing_address "polkadot-fellows" "RFCs"))) /\
  announced fs
    (fetched (github sv (listing_address "polkadot-fellows" "RFCs")))
  = [Sample.PR_A; Sample.PR_C].
Proof.
  cbv zeta. split; [repeat split; reflexivity|].
  pose proof (configured_run_ends_normally
                (Sample.services 200 [Sample.item 1 Sample.PR_A;
                                      Sample.item 2 Sample.PR_B;
                                      Sample.item 3 Sample.PR_C])
                (Sample.cached [("2", Sample.PR_B)]) 0
                "polkadot-fellows" "RFCs" "ck" "cs" "at" "ats"
                eq_refl eq_refl eq_refl eq_refl eq_refl eq_refl) as [H1 H2].
  split; [exact H1|]. split; [exact H2 | reflexivity].
Defined.



(** X14. Two cycles in a row whose fetches succeed, the second with its
    six variables set: the second posts one message for each record its
    report lists as added since the snapshot of the first (the records
    under new keys when the two snapshots are not too distant, none
    otherwise), and raises none of the exceptions of the model;
    whatever the cache file held before the first cycle and however the
    first cycle ended. *)
Theorem next_run_announces_what_is_new_since_the_last_fetch
        (sv1 sv2 : Services) (fs : gmap string Json.doc) (t0 t1 : Z)
        (owner1 repo1 owner repo ck cs tk ts : string)
        (previous current : Snapshot) :
  environ sv1 !! "REPO_OWNER" = Some owner1 ->
  environ sv1 !! "REPO" = Some repo1 ->
  fetched (github sv1 (listing_address owner1 repo1)) = Some previous ->
  environ sv2 !! "REPO_OWNER" = Some owner ->
  environ sv2 !! "REPO" = Some repo ->
  environ sv2 !! "CONSUMER_KEY" = Some ck ->
  environ sv2 !! "CONSUMER_SECRET" = Some cs ->
  environ sv2 !! "ACCESS_TOKEN" = Some tk ->
  environ sv2 !! "ACCESS_TOKEN_SECRET" = Some ts ->
  fetched (github sv2 (listing_address owner repo)) = Some current ->
  let first := check_for_new_pr sv1 (start fs t0) in
  let second := check_for_new_pr sv2 (start (files first.2) t1) in
  second.1 = Ret tt /\
  published (trace second.2) = tweet_text <$> reported_added previous current.
Proof.
  intros Ho1 Hr1 Hf1 Ho Hr Hck Hcs Htk Hts Hf2 first second.
  assert (Hfirst : files first.2 !! cache_file
                   = Some (Json.dumps (Some previous))).
  { subst first.
    destruct (cycle_run sv1 fs t0 owner1 repo1 Ho1 Hr1) as (tr & _ & ->).
    rewrite Hf1.
    destruct (cycle_delta fs (Some previous));
      [|rewrite notify_keeps_files]; cbn [snd files];
      apply lookup_insert_eq. }
  subst second.
  destruct (cycle_run sv2 (files first.2) t1 owner repo Ho Hr)
    as (tr & Pt & ->).
  destruct (finish_configured sv2 (files first.2)
              (github sv2 (listing_address owner repo)) ck cs tk ts
              {| files := <[cache_file :=
                              Json.dumps
                                (fetched
                                   (github sv2 (listing_address owner repo)))]>
                            (files first.2);
                 clock := t1; trace := tr |} Hck Hcs Htk Hts)
    as (w' & -> & _ & Pw).
  split; [reflexivity|]. cbn [snd]. rewrite Pw. cbn [trace]. rewrite Pt.
  unfold announced. rewrite Hfirst, Hf2.
  rewrite <- Hf1, loads_dumps_fetched, Hf1. reflexivity.
Qed.

Lemma next_run_announces_what_is_new_since_the_last_fetch_witness :
  let sv1 := Sample.services 200 [Sample.item 1 Sample.PR_A;
                                  Sample.item 2 Sample.PR_B] in
  let sv2 := Sample.services 200 [Sample.item 2 Sample.PR_B;
                                  Sample.item 3 Sample.PR_C] in
  let fs : gmap string Json.doc := ∅ in
  let first := check_for_new_pr sv1 (start fs 0) in
  let second := check_for_new_pr sv2 (start (files first.2) 600) in
  (environ sv1 !! "REPO_OWNER" = Some "polkadot-fellows" /\
   environ sv1 !! "REPO" = Some "RFCs" /\
   fetched (github sv1 (listing_address "polkadot-fellows" "RFCs")) =
     Some [("1", Sample.PR_A); ("2", Sample.PR_B)] /\
   environ sv2 !! "REPO_OWNER" = Some "polkadot-fellows" /\
   environ sv2 !! "REPO" = Some "RFCs" /\
   environ sv2 !! "CONSUMER_KEY" = Some "ck" /\
   environ sv2 !! "CONSUMER_SECRET" = Some "cs" /\
   environ sv2 !! "ACCESS_TOKEN" = Some "at" /\
   environ sv2 !! "ACCESS_TOKEN_SECRET" = Some "ats" /\
   fetched (github sv2 (listing_address "polkadot-fellows" "RFCs")) =
     Some [("2", Sample.PR_B); ("3", Sample.PR_C)]) /\
  second.1 = Ret tt /\
  published (trace second.2) =
    tweet_text <$> reported_added [("1", Sample.PR_A); ("2", Sample.PR_B)]
                                 [("2", Sample.PR_B); ("3", Sample.PR_C)] /\
  reported_added [("1", Sample.PR_A); ("2", Sample.PR_B)]
                [("2", Sample.PR_B); ("3", Sample.PR_C)] = [Sample.PR_C].
Proof.
  cbv zeta. split; [repeat split; reflexivity|].
  pose proof (next_run_announces_what_is_new_since_the_last_fetch
                (Sample.services 200 [Sample.item 1 Sample.PR_A;
                                      Sample.item 2 Sample.PR_B])
                (Sample.services 200 [Sample.item 2 Sample.PR_B;
                                      Sample.item 3 Sample.PR_C])
                ∅ 0 600 "polkadot-fellows" "RFCs" "polkadot-fellows" "RFCs"
                "ck" "cs" "at" "ats"
                [("1", Sample.PR_A); ("2", Sample.PR_B)]
                [("2", Sample.PR_B); ("3", Sample.PR_C)]
                eq_refl eq_refl eq_refl eq_refl eq_refl eq_refl eq_refl
                eq_refl eq_refl eq_refl) as [H1 H2].
  split; [exact H1|]. split; [exact H2 | reflexivity].
Defined.

Lemma announce_missing (sv : Services) (cur : Snapshot) (index : string)
      (r : PullRequestRecord) (name : string) (w : World) :
  dict_get (parse_index index) cur = Some r ->
  name ∈ credentials ->
  environ sv !! name = None ->
  exists missing w',
    announce sv (Some cur) index w = (Raise (KeyError missing), w') /\
    missing ∈ credentials /\
    environ sv !! missing = None /\
    files w' = files w /\
    published (trace w') = published (trace w).
Proof.
  intros Hr Hn He.
  assert (Hin : forall x, x ∈ credentials <->
                  x = "CONSUMER_KEY" \/ x = "CONSUMER_SECRET" \/
                  x = "ACCESS_TOKEN" \/ x = "ACCESS_TOKEN_SECRET").
  { intros x. unfold credentials.
    rewrite !elem_of_cons, elem_of_nil. tauto. }
  unfold announce, bind, subscript, logging_info, emit, ret.
  rewrite Hr. cbn [files clock trace]. unfold os_environ, ret, raise.
  destruct (environ sv !! "CONSUMER_KEY") eqn:E1.
  2: { eexists _, _. split; [reflexivity|]. cbn [files trace].
       rewrite Hin, published_snoc. cbn [post_text snd].
       rewrite app_nil_r. intuition. }
  destruct (environ sv !! "CONSUMER_SECRET") eqn:E2.
  2: { eexists _, _. split; [reflexivity|]. cbn [files trace].
       rewrite Hin, published_snoc. cbn [post_text snd].
       rewrite app_nil_r. intuition. }
  destruct (environ sv !! "ACCESS_TOKEN") eqn:E3.
  2: { eexists _, _. split; [reflexivity|]. cbn [files trace].
       rewrite Hin, published_snoc. cbn [post_text snd].
       rewrite app_nil_r. intuition. }
  destruct (environ sv !! "ACCESS_TOKEN_SECRET") eqn:E4.
  2: { eexists _, _. split; [reflexivity|]. cbn [files trace].
       rewrite Hin, published_snoc. cbn [post_text snd].
       rewrite app_nil_r. intuition. }
  apply Hin in Hn as [-> | [-> | [-> | ->]]]; congruence.
Qed.

(** An exception raised in the inner loop ends the cycle. *)
Lemma notify_raises_in_the_loop (sv : Services) (data : PyData)
      (ps : list string) (rest : DeepDiff.report) (w w' : World) (e : exn) :
  for_each ps (announce sv data)
    {| files := files w; clock := clock w;
       trace := trace w ++
         [(clock w,
           Logged INFO
             (PyStr.str_of_Z (Z.of_nat (length ps)) +:+
              " new RFC(s)! Parsing data, please wait..."))] |}
  = (Raise e, w') ->
  notify sv data (("dictionary_item_added", DeepDiff.Paths ps) :: rest) w
  = (Raise e, w').
Proof.
  intros Hf.
  assert (Eg : dict_get "dictionary_item_added"
                 (("dictionary_item_added", DeepDiff.Paths ps) :: rest)
               = Some (DeepDiff.Paths ps)).
  { cbn [dict_get]. now rewrite decide_True. }
  unfold notify. cbn [for_each fst]. unfold bind at 1.
  change (PyStr.contains "added" "dictionary_item_added") with true.
  cbv iota. unfold bind at 1. unfold report_get at 1. rewrite Eg.
  unfold ret at 1. unfold bind at 1.
  unfold logging_info at 1, emit at 1.
  unfold bind at 1. unfold report_get at 1. rewrite Eg.
  unfold ret at 1. cbn [entry_items]. now rewrite Hf.
Qed.

(** X15. A missing credential with something to announce (the report
    lists an added record): the cycle raises [KeyError] for a missing
    variable before the first post, and by then the cache file already
    holds the new snapshot. *)
Theorem missing_credential_raises_after_the_cache_is_written
        (sv : Services) (fs : gmap string Json.doc) (t0 : Z)
        (owner repo name : string) (j : Json.doc)
        (previous current : Snapshot) :
  environ sv !! "REPO_OWNER" = Some owner ->
  environ sv !! "REPO" = Some repo ->
  name ∈ credentials ->
  environ sv !! name = None ->
  fs !! cache_file = Some j ->
  Json.loads j = Some previous ->
  fetched (github sv (listing_address owner repo)) = Some current ->
  reported_added previous current <> [] ->
  let run := check_for_new_pr sv (start fs t0) in
  (exists missing,
      missing ∈ credentials /\ environ sv !! missing = None /\
      run.1 = Raise (KeyError missing)) /\
  published (trace run.2) = [] /\
  files run.2 !! cache_file = Some (Json.dumps (Some current)).
Proof.
  intros Ho Hr Hn He Hf Hj Hd Ha run. subst run.
  assert (Et : DeepDiff.too_distant previous current = false).
  { unfold reported_added in Ha.
    destruct (DeepDiff.too_distant previous current); [now elim Ha | reflexivity]. }
  unfold reported_added in Ha. rewrite Et in Ha.
  destruct (fetched_well_formed _ _ Hd) as [ND Hp].
  destruct (cycle_run sv fs t0 owner repo Ho Hr) as (tr & Pt & ->).
  unfold cycle_delta. rewrite Hf, Hj, Hd.
  set (w1 := {| files := <[cache_file := Json.dumps (Some current)]> fs;
                clock := t0; trace := tr |}).
  set (l := filter (fun kv : string * PullRequestRecord =>
                      kv.1 ∉ previous.*1) current).
  assert (Hl : forall k r, (k, r) ∈ l ->
            dict_get k current = Some r /\
            PyStr.all_chars PyStr.decimal_char k = true).
  { intros k r Hin. apply list_elem_of_filter in Hin as [_ Hin]. split.
    - now apply dict_get_NoDup.
    - rewrite Forall_forall in Hp. apply Hp.
      apply list_elem_of_fmap. now exists (k, r). }
  destruct l as [|[k r] l'] eqn:El.
  { exfalso. apply Ha. unfold added_records. fold l. now rewrite El. }
  destruct (Hl k r (list_elem_of_here _ _)) as [Hr' Hk].
  apply decimal_plain in Hk as [Hb Hq].
  assert (Eg : dict_get "dictionary_item_added"
                 (DeepDiff.diff (Some previous) (Some current))
               = Some (DeepDiff.Paths
                         (DeepDiff.path_of_key <$> ((k, r) :: l').*1))).
  { rewrite diff_close by exact Et.
    unfold DeepDiff.diff_deeper. rewrite keys_added_records. fold l.
    rewrite El. reflexivity. }
  assert (Ed : exists rest,
             DeepDiff.diff (Some previous) (Some current) =
             ("dictionary_item_added",
              DeepDiff.Paths (DeepDiff.path_of_key <$> ((k, r) :: l').*1))
               :: rest).
  { rewrite diff_close by exact Et.
    unfold DeepDiff.diff_deeper at 1. rewrite keys_added_records. fold l.
    rewrite El. eexists. reflexivity. }
  destruct Ed as [rest Ed].
  assert (Hparse : dict_get (parse_index (DeepDiff.path_of_key k)) current
                   = Some r).
  { now rewrite parse_index_path. }
  set (ps := DeepDiff.path_of_key <$> l'.*1) in *.
  assert (Eps : DeepDiff.path_of_key <$> ((k, r) :: l').*1
                = DeepDiff.path_of_key k :: ps) by reflexivity.
  rewrite Eps in Ed. clear Eps Eg.
  destruct (announce_missing sv current (DeepDiff.path_of_key k) r name
              {| files := files w1; clock := clock w1;
                 trace := trace w1 ++
                   [(clock w1,
                     Logged INFO
                       (PyStr.str_of_Z
                          (Z.of_nat (length (DeepDiff.path_of_key k :: ps)))
                        +:+ " new RFC(s)! Parsing data, please wait..."))] |}
              Hparse Hn He)
    as (missing & w' & Ea & Hm & Hm' & Fw & Pw).
  assert (Erun : notify sv (Some current)
                   (DeepDiff.diff (Some previous) (Some current)) w1
                 = (Raise (KeyError missing), w')).
  { rewrite Ed. apply notify_raises_in_the_loop.
    cbn [for_each]. unfold bind. now rewrite Ea. }
  cbn [files trace] in Fw, Pw.
  rewrite published_snoc in Pw. cbn [post_text snd] in Pw.
  rewrite app_nil_r in Pw.
  rewrite Ed in Erun |- *. rewrite Erun. cbn [fst snd].
  split; [eauto|]. split.
  - rewrite Pw. subst w1. exact Pt.
  - rewrite Fw. subst w1. cbn [files]. apply lookup_insert_eq.
Qed.

Lemma missing_credential_raises_after_the_cache_is_written_witness :
  let sv :=
    {| environ := {[ "REPO_OWNER" := "polkadot-fellows"; "REPO" := "RFCs";
                     "CONSUMER_KEY" := "ck" ]};
       github := fun _ => {| status_code := 200;
                             json_body := [Sample.item 1 Sample.PR_A] |};
       twitter := Sample.first_post_fails |} in
  let j := Json.JObject [] in
  let fs : gmap string Json.doc := {[ cache_file := j ]} in
  let run := check_for_new_pr sv (start fs 0) in
  (environ sv !! "REPO_OWNER" = Some "polkadot-fellows" /\
   environ sv !! "REPO" = Some "RFCs" /\
   "ACCESS_TOKEN" ∈ credentials /\
   environ sv !! "ACCESS_TOKEN" = None /\
   fs !! cache_file = Some j /\
   Json.loads j = Some [] /\
   fetched (github sv (listing_address "polkadot-fellows" "RFCs")) =
     Some [("1", Sample.PR_A)] /\
   reported_added [] [("1", Sample.PR_A)] <> []) /\
  run.1 = Raise (KeyError "CONSUMER_SECRET") /\
  (exists missing,
      missing ∈ credentials /\ environ sv !! missing = None /\
      run.1 = Raise (KeyError missing)) /\
  published (trace run.2) = [] /\
  files run.2 !! cache_file = Some (Json.dumps (Some [("1", Sample.PR_A)])).
Proof.
  cbv zeta.
  assert (Hc : "ACCESS_TOKEN" ∈ credentials).
  { unfold credentials. do 2 apply list_elem_of_further.
    apply list_elem_of_here. }
  assert (Ha : reported_added [] [("1", Sample.PR_A)] <> []) by discriminate.
  split; [repeat split; try reflexivity; assumption|].
  split; [reflexivity|].
  exact (missing_credential_raises_after_the_cache_is_written
           {| environ := {[ "REPO_OWNER" := "polkadot-fellows";
                            "REPO" := "RFCs"; "CONSUMER_KEY" := "ck" ]};
              github := fun _ => {| status_code := 200;
                                    json_body := [Sample.item 1 Sample.PR_A] |};
              twitter := Sample.first_post_fails |}
           {[ cache_file := Json.JObject [] ]} 0
           "polkadot-fellows" "RFCs" "ACCESS_TOKEN" (Json.JObject [])
           [] [("1", Sample.PR_A)]
           eq_refl eq_refl Hc eq_refl eq_refl eq_refl eq_refl Ha).
Defined.



End Cycles.

(** ** The notifier and the entry point *)

Section NotifierFacts.


(** X7. The message is the fixed template around the four fields, with
    nothing cut: its length is 93 plus the lengths of the number, the
    title, the author and the address, however long these are. *)
Theorem tweet_text_is_never_shortened (data : PullRequestRecord) :
  String.length (tweet_text data) =
  (93 + String.length (PyStr.str_of_Z (number data)) +
   String.length (title data) + String.length (author data) +
   String.length (url data))%nat.
Proof.
  unfold tweet_text. rewrite !length_app_s.
  change (String.length PyStr.nl) with 1%nat.
  cbn [String.length]. lia.
Qed.

(** X17. With the six variables set, [main] raises nothing of its own when
    its file and network operations succeed; it posts what the cycle
    posts, one message for each announced record, leaves the fetched
    data in the cache file, and the last thing it does is to log
    [Finished]. *)
Theorem configured_main_finishes
        (sv : Services) (fs : gmap string Json.doc) (t0 : Z)
        (owner repo ck cs tk ts : string) :
  environ sv !! "REPO_OWNER" = Some owner ->
  environ sv !! "REPO" = Some repo ->
  environ sv !! "CONSUMER_KEY" = Some ck ->
  environ sv !! "CONSUMER_SECRET" = Some cs ->
  environ sv !! "ACCESS_TOKEN" = Some tk ->
  environ sv !! "ACCESS_TOKEN_SECRET" = Some ts ->
  let data := fetched (github sv (listing_address owner repo)) in
  let run := main sv (start fs t0) in
  run.1 = Ret tt /\
  published (trace run.2) = tweet_text <$> announced fs data /\
  last (trace run.2) = Some (clock run.2, Logged INFO "Finished") /\
  files run.2 = <[cache_file := Json.dumps data]> fs.
Proof.
  intros Ho Hr Hck Hcs Htk Hts data run. subst run data.
  assert (Em : main sv (start fs t0) =
               match check_for_new_pr sv (start fs t0) with
               | (Ret _, w') => logging_info "Finished" w'
               | (Raise e, w') => (Raise e, w')
               end) by reflexivity.
  rewrite Em. clear Em.
  destruct (cycle_run sv fs t0 owner repo Ho Hr) as (tr & Pt & ->).
  destruct (finish_configured sv fs (github sv (listing_address owner repo))
              ck cs tk ts
              {| files := <[cache_file :=
                              Json.dumps
                                (fetched
                                   (github sv (listing_address owner repo)))]>
                            fs;
                 clock := t0; trace := tr |} Hck Hcs Htk Hts)
    as (w' & -> & Fw & Pw).
  cbv beta iota. unfold logging_info, emit.
  cbn [fst snd files clock trace] in *.
  split; [reflexivity|]. split; [|split].
  - rewrite published_snoc. cbn [post_text snd]. rewrite app_nil_r, Pw.
    now rewrite Pt.
  - now rewrite last_snoc.
  - exact Fw.
Qed.

Lemma configured_main_finishes_witness :
  let sv := Sample.services 200 [Sample.item 1 Sample.PR_A;
                                 Sample.item 2 Sample.PR_B] in
  let fs := Sample.cached [("1", Sample.PR_A)] in
  let data := fetched (github sv (listing_address "polkadot-fellows" "RFCs")) in
  let run := main sv (start fs 0) in
  (environ sv !! "REPO_OWNER" = Some "polkadot-fellows" /\
   environ sv !! "REPO" = Some "RFCs" /\
   environ sv !! "CONSUMER_KEY" = Some "ck" /\
   environ sv !! "CONSUMER_SECRET" = Some "cs" /\
   environ sv !! "ACCESS_TOKEN" = Some "at" /\
   environ sv !! "ACCESS_TOKEN_SECRET" = Some "ats") /\
  announced fs data = [Sample.PR_B] /\
  run.1 = Ret tt /\
  published (trace run.2) = tweet_text <$> announced fs data /\
  last (trace run.2) = Some (clock run.2, Logged INFO "Finished") /\
  files run.2 = <[cache_file := Json.dumps data]> fs.
Proof.
  cbv zeta. split; [repeat split; reflexivity|]. split; [reflexivity|].
  exact (configured_main_finishes
           (Sample.services 200 [Sample.item 1 Sample.PR_A;
                                 Sample.item 2 Sample.PR_B])
           (Sample.cached [("1", Sample.PR_A)]) 0
           "polkadot-fellows" "RFCs" "ck" "cs" "at" "ats"
           eq_refl eq_refl eq_refl eq_refl eq_refl eq_refl).
Defined.

End NotifierFacts.
